(** * H2O LLM Studio: causal language modelling dataset and DPO losses

    A shallow embedding of
      - [llm_studio/src/datasets/text_utils.py]
      - [llm_studio/src/datasets/text_causal_language_modeling_ds.py]
      - [llm_studio/src/losses/text_dpo_modeling_losses.py]
      - the stopping criteria of
        [llm_studio/src/models/text_causal_language_modeling_model.py]
    together with the properties of the sequence builder, of the
    tokenizer setup, of the loss family and of the stopping criteria.

    Conventions of the embedding.
      - A one-dimensional tensor of token ids, labels or mask entries is a
        [list Z]; dtypes are not tracked. A batch of rows is a list of
        such lists.
      - Python integers that are used as lengths or slice bounds are [Z], so
        that zero and negative bounds keep the meaning Python gives them.
      - A Python [dict] is a [gmap]; the sample returned by [__getitem__] is a
        [gmap string (list Z)].
      - An exception is the [Raise] outcome; the [while] loop of [_read_data]
        is unrolled with fuel and [OutOfFuel] stands for a run that is still
        in the loop when the fuel is spent. The recursion of
        [batch_to_device] is bounded by fuel in the same way.
      - The global numpy random source is an explicit [RandomState] threaded
        through the calls that consult it.
      - Floating point log-probabilities of the loss family are idealised as
        real numbers.
      - The texts that [clean_output] cleans are lists of characters, and
        the test for space characters is a parameter. *)

From Stdlib Require Import ZArith QArith Reals Lra Lia String List.
From stdpp Require Import base option list gmap strings fin_maps.

Open Scope string_scope.
Open Scope list_scope.
Open Scope Z_scope.

(** ** Outcomes of Python calls *)

(** The exceptions of the code, one constructor for each class. The
    classes of Python are nested: [UnicodeDecodeError] is a subclass of
    [ValueError], which [isinstance_ValueError] records. *)
Inductive exn : Type :=
  | AssertionError (msg : string)
  | ValueError (msg : string)
  | KeyError (key : string)
  | IndexError
  | RuntimeError
  | TypeError
  | AttributeError
  | UnicodeDecodeError.

Inductive outcome (A : Type) : Type :=
  | Ok (a : A)
  | Raise (e : exn)
  | OutOfFuel.
Arguments Ok {A} a.
Arguments Raise {A} e.
Arguments OutOfFuel {A}.

#[global] Instance outcome_ret : MRet outcome := fun A a => Ok a.

#[global] Instance outcome_bind : MBind outcome := fun A B k m =>
  match m with
  | Ok a => k a
  | Raise e => Raise e
  | OutOfFuel => OutOfFuel
  end.

Definition raises {A : Type} (m : outcome A) : Prop :=
  exists e, m = Raise e.

(** [isinstance(e, ValueError)]: [UnicodeDecodeError] is a subclass of
    [ValueError], so that [except ValueError] catches both. *)
Definition isinstance_ValueError (e : exn) : bool :=
  match e with
  | ValueError _ | UnicodeDecodeError => true
  | _ => false
  end.

(** ** Python sequences *)

Module Py.

(** Position of a slice bound [i] in a sequence of length [len]:
    negative bounds count from the end, and every bound is clipped. *)
Definition bound (len : nat) (i : Z) : nat :=
  if i <? 0 then Z.to_nat (Z.max 0 (Z.of_nat len + i))
  else Z.to_nat (Z.min i (Z.of_nat len)).

(** [l[start:]] *)
Definition slice_from {A : Type} (l : list A) (start : Z) : list A :=
  drop (bound (length l) start) l.

(** [l[:stop]] *)
Definition slice_to {A : Type} (l : list A) (stop : Z) : list A :=
  take (bound (length l) stop) l.

(** [l[i]], an [IndexError] out of range. *)
Definition index {A : Type} (l : list A) (i : Z) : outcome A :=
  let j := if i <? 0 then Z.of_nat (length l) + i else i in
  if j <? 0 then Raise IndexError
  else match l !! Z.to_nat j with
       | Some x => Ok x
       | None => Raise IndexError
       end.

(** [len(l)] *)
Definition len {A : Type} (l : list A) : Z := Z.of_nat (length l).

End Py.

(** ** Tensors *)

Module Torch.

Abbreviation Tensor := (list Z).

(** [torch.full((n,), v)]; a negative dimension is refused. *)
Definition full (n : Z) (v : Z) : outcome Tensor :=
  if n <? 0 then Raise RuntimeError else Ok (replicate (Z.to_nat n) v).

(** [torch.zeros(n)] *)
Definition zeros (n : Z) : outcome Tensor := full n 0.

(** [torch.ones_like(t)] and [torch.zeros_like(t)] *)
Definition ones_like (t : Tensor) : Tensor := replicate (length t) 1.
Definition zeros_like (t : Tensor) : Tensor := replicate (length t) 0.

(** [torch.cat(ts)] *)
Definition cat (ts : list Tensor) : Tensor := concat ts.

(** [t.to(torch.bool)] *)
Definition to_bool (t : Tensor) : list bool := (fun x => negb (x =? 0)) <$> t.

(** [t.masked_fill_(mask, v)], for a mask of the shape of [t]. *)
Definition masked_fill (t : Tensor) (mask : list bool) (v : Z) : Tensor :=
  zip_with (fun x (m : bool) => if m then v else x) t mask.

(** [t[i] = v] *)
Definition setitem (t : Tensor) (i : Z) (v : Z) : outcome Tensor :=
  let j := if i <? 0 then Py.len t + i else i in
  if (j <? 0) || (Py.len t <=? j) then Raise IndexError
  else Ok (<[Z.to_nat j := v]> t).

(** [t[start:] = v]: the slice must have the length of [v], unless [v] has
    a single element, which is then broadcast over the slice. *)
Definition setitem_slice_from (t : Tensor) (start : Z) (v : Tensor)
  : outcome Tensor :=
  let s := Py.bound (length t) start in
  let n := (length t - s)%nat in
  if (length v =? n)%nat then Ok (take s t ++ v)
  else match v with
       | [x] => Ok (take s t ++ replicate n x)
       | _ => Raise RuntimeError
       end.

End Torch.

(** ** The numpy random source *)

Module Random.

(** The generator is a stream of raw 53-bit draws and a cursor. *)
Record RandomState : Type := mkRandomState {
  raw : nat -> N;
  cursor : nat
}.

Definition resolution : positive := 2 ^ 53.

(** [np.random.random()]: a value of [[0, 1)], a multiple of [2^-53]. *)
Definition random (rs : RandomState) : Q * RandomState :=
  (Z.of_N (raw rs (cursor rs) mod Npos resolution) # resolution,
   mkRandomState (raw rs) (S (cursor rs))).

(** [np.random.randint(n)]: a value of [[0, n)], a [ValueError] for
    [n <= 0]. *)
Definition randint (rs : RandomState) (n : Z) : outcome (Z * RandomState) :=
  if n <=? 0 then Raise (ValueError "low >= high")
  else Ok (Z.of_N (raw rs (cursor rs)) mod n,
           mkRandomState (raw rs) (S (cursor rs))).

(** [x < p] on floats. *)
Definition lt (x p : Q) : bool := negb (Qle_bool p x).

End Random.

(** ** Data frames *)

Module Pandas.

(** A cell holds a text, or is missing. A missing value is the one value
    [None]: two missing values are the same dictionary key, as Python's
    [None] is, and the [nan] object that fills a column of texts. The
    [NaN] of a column of floats, which is equal to no key, is outside the
    model. *)
Abbreviation cell := (option string).

(** A frame has named columns and rows that give every column a cell. *)
Record DataFrame : Type := mkDataFrame {
  columns : list string;
  rows : list (string -> cell)
}.

(** [df.shape[0]] *)
Definition shape0 (df : DataFrame) : Z := Py.len (rows df).

(** [c in df.columns] *)
Definition has_column (df : DataFrame) (c : string) : bool :=
  bool_decide (c ∈ columns df).

(** [df[c].values] *)
Definition values (df : DataFrame) (c : string) : outcome (list cell) :=
  if has_column df c then Ok ((fun r => r c) <$> rows df)
  else Raise (KeyError c).

(** [df[[c]].dropna()], for a column of the frame: the cells of the rows
    that are kept. *)
Definition dropna (df : DataFrame) (c : string) : list cell :=
  filter is_Some ((fun r => r c) <$> rows df).

(** [.astype(str)] on one cell; a missing value is rendered as [NaN]
    is. *)
Definition astype_str (x : cell) : string := default "nan" x.

End Pandas.

(** ** Configuration *)

Module Cfg.

(** [cfg.dataset.prompt_column] is a string or a tuple of strings. *)
Inductive columns_spec : Type :=
  | Str (c : string)
  | Tuple (cs : list string).

Record Dataset : Type := mkDataset {
  answer_column : string;
  prompt_column : columns_spec;
  parent_id_column : string;
  text_prompt_start : string;
  text_answer_separator : string;
  add_eos_token_to_prompt : bool;
  add_eos_token_to_answer : bool;
  mask_prompt_labels : bool;
  separator : option string          (* [None]: no such attribute *)
}.

Record Tokenizer : Type := mkTokenizer {
  max_length : Z;
  max_length_prompt : Z;
  max_length_answer : Z;
  add_prefix_space : bool;
  _padding_side : option string;     (* [None]: no such attribute *)
  _stop_words_ids : list (list Z)
}.

Record Augmentation : Type := mkAugmentation {
  skip_parent_probability : Q;
  random_parent_probability : Q
}.

Record t : Type := mk {
  llm_backbone : string;
  dataset : Dataset;
  tokenizer : Tokenizer;
  augmentation : Augmentation;
  stop_tokens : list string;         (* [cfg.prediction.stop_tokens] *)
  _local_rank : Z;                   (* [cfg.environment._local_rank] *)
  (* attributes that [get_tokenizer] sets; [None]: not set yet *)
  _tokenizer_sep_token : option string;
  _tokenizer_mask_token_id : option (option Z);
  _tokenizer_eos_token : option (option string)
}.

Definition set_tokenizer_sep_token (cfg : t) (v : string) : t :=
  mk (llm_backbone cfg) (dataset cfg) (tokenizer cfg) (augmentation cfg)
     (stop_tokens cfg) (_local_rank cfg) (Some v)
     (_tokenizer_mask_token_id cfg) (_tokenizer_eos_token cfg).

Definition set_tokenizer_mask_token_id (cfg : t) (v : option Z) : t :=
  mk (llm_backbone cfg) (dataset cfg) (tokenizer cfg) (augmentation cfg)
     (stop_tokens cfg) (_local_rank cfg) (_tokenizer_sep_token cfg)
     (Some v) (_tokenizer_eos_token cfg).

Definition set_tokenizer_eos_token (cfg : t) (v : option string) : t :=
  mk (llm_backbone cfg) (dataset cfg) (tokenizer cfg) (augmentation cfg)
     (stop_tokens cfg) (_local_rank cfg) (_tokenizer_sep_token cfg)
     (_tokenizer_mask_token_id cfg) (Some v).

Definition set_stop_words_ids (cfg : t) (v : list (list Z)) : t :=
  let tk := tokenizer cfg in
  mk (llm_backbone cfg) (dataset cfg)
     (mkTokenizer (max_length tk) (max_length_prompt tk)
        (max_length_answer tk) (add_prefix_space tk) (_padding_side tk) v)
     (augmentation cfg) (stop_tokens cfg) (_local_rank cfg)
     (_tokenizer_sep_token cfg) (_tokenizer_mask_token_id cfg)
     (_tokenizer_eos_token cfg).

End Cfg.

(** ** text_utils.py *)

Module TextUtils.

(** The tokenizer object that [AutoTokenizer.from_pretrained] returns.
    Special tokens are optional; their ids are looked up in the
    vocabulary when they are read. *)
Record Tokenizer : Type := mkTokenizer {
  call : string -> bool -> list Z;   (* text, add_special_tokens *)
  convert_tokens_to_ids : string -> option Z;
  vocab_size : Z;                    (* [len(tokenizer)] *)
  padding_side : string;
  pad_token : option string;
  eos_token : option string;
  cls_token : option string;
  sep_token : option string;
  unk_token : option string;
  mask_token : option string;
  all_special_tokens : list string
}.

Definition pad_token_id (tk : Tokenizer) : option Z :=
  pad_token tk ≫= convert_tokens_to_ids tk.
Definition eos_token_id (tk : Tokenizer) : option Z :=
  eos_token tk ≫= convert_tokens_to_ids tk.
Definition unk_token_id (tk : Tokenizer) : option Z :=
  unk_token tk ≫= convert_tokens_to_ids tk.
Definition mask_token_id (tk : Tokenizer) : option Z :=
  mask_token tk ≫= convert_tokens_to_ids tk.

Definition set_padding_side (tk : Tokenizer) (v : string) : Tokenizer :=
  mkTokenizer (call tk) (convert_tokens_to_ids tk) (vocab_size tk) v
    (pad_token tk) (eos_token tk) (cls_token tk) (sep_token tk)
    (unk_token tk) (mask_token tk) (all_special_tokens tk).
Definition set_pad_token (tk : Tokenizer) (v : option string) : Tokenizer :=
  mkTokenizer (call tk) (convert_tokens_to_ids tk) (vocab_size tk)
    (padding_side tk) v (eos_token tk) (cls_token tk) (sep_token tk)
    (unk_token tk) (mask_token tk) (all_special_tokens tk).
Definition set_cls_token (tk : Tokenizer) (v : option string) : Tokenizer :=
  mkTokenizer (call tk) (convert_tokens_to_ids tk) (vocab_size tk)
    (padding_side tk) (pad_token tk) (eos_token tk) v (sep_token tk)
    (unk_token tk) (mask_token tk) (all_special_tokens tk).
Definition set_sep_token (tk : Tokenizer) (v : option string) : Tokenizer :=
  mkTokenizer (call tk) (convert_tokens_to_ids tk) (vocab_size tk)
    (padding_side tk) (pad_token tk) (eos_token tk) (cls_token tk) v
    (unk_token tk) (mask_token tk) (all_special_tokens tk).

(** [hasattr(cfg.dataset, "separator") and len(cfg.dataset.separator)] *)
Definition has_separator (cfg : Cfg.t) : bool :=
  match Cfg.separator (Cfg.dataset cfg) with
  | Some s => negb (String.length s =? 0)%nat
  | None => false
  end.

(** [get_texts]; the columns of a tuple are joined row by row. *)
Definition get_texts (df : Pandas.DataFrame) (cfg : Cfg.t)
    (separator : option string) : outcome (list string) :=
  match Cfg.prompt_column (Cfg.dataset cfg) with
  | Cfg.Str c =>
      (* single column dataset *)
      Pandas.values df c ≫= fun texts : list Pandas.cell =>
      Ok (Pandas.astype_str <$> texts)
  | Cfg.Tuple columns =>
      (* multi-column dataset - prepend (if necessary) and join *)
      mapM (Pandas.values df) columns ≫= fun _ : list (list Pandas.cell) =>
      let separator :=
        match separator with
        | Some s => s
        | None =>
            if has_separator cfg
            then default "" (Cfg.separator (Cfg.dataset cfg))
            else default "<SEPARATOR>" (Cfg._tokenizer_sep_token cfg)
        end in
      let join_str := " " +:+ separator +:+ " " in
      Ok ((fun r : string -> Pandas.cell =>
             String.concat join_str
               ((fun c => Pandas.astype_str (r c)) <$> columns))
            <$> Pandas.rows df)
  end.

(** The [if]/[elif] chain of [get_tokenizer] that chooses the id stored in
    [cfg._tokenizer_mask_token_id]; its third test is, as in the source,
    the second one again. *)
Definition resolve_mask_token_id (tokenizer : Tokenizer) : option Z :=
  match unk_token_id tokenizer with
  | Some unk => Some unk
  | None =>
      match mask_token_id tokenizer with
      | Some mask => Some mask
      | None =>
          match mask_token_id tokenizer with
          | Some _ => pad_token_id tokenizer
          | None =>
              (* setting the mask token id to the last token in the
                 vocabulary *)
              Some (vocab_size tokenizer - 1)
          end
      end
  end.

(** [get_tokenizer(cfg)], given the tokenizer that
    [AutoTokenizer.from_pretrained] loads for [cfg.llm_backbone]; a
    load that fails is not modelled. The configuration object is updated
    in place: the updated one is returned with the tokenizer. The stop
    words are encoded by the tokenizer as it was loaded:
    [all_special_tokens] is a field that the setters leave alone. *)
Definition get_tokenizer (pretrained : Tokenizer) (cfg : Cfg.t)
  : Tokenizer * Cfg.t :=
  let tokenizer := pretrained in
  let tokenizer :=
    set_padding_side tokenizer
      (default (padding_side tokenizer)
         (Cfg._padding_side (Cfg.tokenizer cfg))) in
  let tokenizer :=
    match pad_token tokenizer with
    | None => set_pad_token tokenizer (eos_token tokenizer)
    | Some _ => tokenizer
    end in
  let tokenizer :=
    match cls_token tokenizer with
    | None => set_cls_token tokenizer (eos_token tokenizer)
    | Some _ => tokenizer
    end in
  let tokenizer :=
    match sep_token tokenizer with
    | None => set_sep_token tokenizer (Some " ")
    | Some _ => tokenizer
    end in
  let cfg :=
    if has_separator cfg
    then Cfg.set_tokenizer_sep_token cfg
           (default "" (Cfg.separator (Cfg.dataset cfg)))
    else Cfg.set_tokenizer_sep_token cfg
           (default " " (sep_token tokenizer)) in
  let cfg :=
    Cfg.set_tokenizer_mask_token_id cfg (resolve_mask_token_id tokenizer) in
  let cfg := Cfg.set_tokenizer_eos_token cfg (eos_token tokenizer) in
  let stop_words_ids :=
    (fun stop_word =>
       if bool_decide (stop_word ∈ all_special_tokens tokenizer)
       then call tokenizer stop_word true
       else call tokenizer stop_word false)
      <$> Cfg.stop_tokens cfg in
  (tokenizer, Cfg.set_stop_words_ids cfg stop_words_ids).

End TextUtils.

(** ** text_causal_language_modeling_ds.py *)

Module CustomDataset.

Import Pandas.

(** [[prompt_encodings, answer_encodings]] *)
Abbreviation Sample := (Torch.Tensor * Torch.Tensor)%type.

(** The sample dictionary of [__getitem__]. *)
Abbreviation Item := (gmap string Torch.Tensor).

Record t : Type := mk {
  cfg : Cfg.t;
  mode : string;
  df : DataFrame;
  tokenizer : TextUtils.Tokenizer;
  prompts : list string;
  answers : list string;
  parent_ids : option (list cell);
  df_id_to_idx : gmap cell nat
}.

(** [{v: k for k, v in enumerate(ids)}]: a later row replaces an earlier
    one with the same id. *)
Definition id_to_idx (ids : list cell) : gmap cell nat :=
  foldl (fun (m : gmap cell nat) (kv : nat * cell) => <[kv.2 := kv.1]> m)
    ∅ (zip (seq 0 (length ids)) ids).

Section WithCodec.

(** [codecs.decode(s, 'unicode_escape')]; [None] for a text that the
    codec refuses. *)
Variable unicode_escape : string -> option string.

Definition parse_prompt (cfg : Cfg.t) (prompt : string) : outcome string :=
  start ← from_option Ok (Raise UnicodeDecodeError)
            (unicode_escape (Cfg.text_prompt_start (Cfg.dataset cfg)));
  let prompt := start +:+ prompt in
  prompt ←
    (if Cfg.add_eos_token_to_prompt (Cfg.dataset cfg) then
       match Cfg._tokenizer_eos_token cfg with
       | None => Raise AttributeError
       | Some None => Raise TypeError
       | Some (Some eos) => Ok (prompt +:+ eos)
       end
     else Ok prompt);
  sep ← from_option Ok (Raise UnicodeDecodeError)
          (unicode_escape (Cfg.text_answer_separator (Cfg.dataset cfg)));
  Ok (prompt +:+ sep).

Definition __init__ (pretrained : TextUtils.Tokenizer)
    (df : DataFrame) (cfg : Cfg.t) (mode : string) : outcome t :=
  let self_df := df in
  if negb (bool_decide (mode ∈ ["train"; "validation"])) then
    Raise (AssertionError ("There is no " +:+ mode +:+ " for the datasets"))
  else
  (* Get the labels *)
  let answer_column := Cfg.answer_column (Cfg.dataset cfg) in
  let has_all_columns := has_column self_df answer_column in
  let has_missing_values :=
    if has_all_columns
    then negb (shape0 self_df =? Py.len (dropna self_df answer_column))
    else false in
  if negb has_all_columns || has_missing_values then
    let message :=
      if has_missing_values then
        "The " +:+ mode +:+ " DataFrame" +:+ " column " +:+ answer_column
          +:+ " contain missing values."
      else
        "The " +:+ mode +:+ " DataFrame "
          +:+ "does not contain the required column:"
          +:+ " " +:+ answer_column +:+ "." in
    Raise (ValueError message)
  else
  let '(tokenizer, cfg) := TextUtils.get_tokenizer pretrained cfg in
  prompts ← TextUtils.get_texts df cfg (Some "");
  values self_df answer_column ≫= fun answer_cells : list cell =>
  let answers := astype_str <$> answer_cells in
  '(parent_ids, df_id_to_idx) ←
    (if negb (String.eqb (Cfg.parent_id_column (Cfg.dataset cfg)) "None")
     then
       if negb (has_column self_df "id") then
         (* a warning is logged; the functionality is disabled *)
         Ok (None, ∅)
       else
         parent_ids ←
           values self_df (Cfg.parent_id_column (Cfg.dataset cfg));
         ids ← values self_df "id";
         Ok (Some parent_ids, id_to_idx ids)
     else Ok (None, ∅));
  prompts ← mapM (parse_prompt cfg) prompts;
  _ ← (if Cfg._local_rank cfg =? 0
       then Py.index prompts 0 else Ok "");
  Ok (mk cfg mode self_df tokenizer prompts answers parent_ids
        df_id_to_idx).

End WithCodec.

(** [len(dataset)] *)
Definition __len__ (self : t) : Z := shape0 (df self).

(** Assigns the input columns. *)
Definition get_input_columns (cfg : Cfg.t) : list string :=
  match Cfg.prompt_column (Cfg.dataset cfg) with
  | Cfg.Tuple columns => columns
  | Cfg.Str c => [c]
  end.

(** [encode]: the pair of [encodings["input_ids"]] and
    [encodings["attention_mask"]]. *)
Definition encode (tokenizer : TextUtils.Tokenizer) (text : string)
    (max_length : Z) (truncation_side : string)
  : Torch.Tensor * Torch.Tensor :=
  let input_ids := TextUtils.call tokenizer text false in
  let attention_mask := Torch.ones_like input_ids in
  if String.eqb truncation_side "right" then
    (Py.slice_to input_ids max_length,
     Py.slice_to attention_mask max_length)
  else
    (Py.slice_from input_ids (- max_length),
     Py.slice_from attention_mask (- max_length)).

(** The prompt and the answer of a row, encoded. Token ids are integers
    throughout: [torch.cat] with [torch.Tensor([eos_token_id])] turns
    them into [float32], which holds every integer below [2 ^ 24]
    exactly. *)
Definition _get_sample (self : t) (idx : Z) : outcome Sample :=
  prompt ← Py.index (prompts self) idx;
  answer ← Py.index (answers self) idx;
  let tk := Cfg.tokenizer (cfg self) in
  let prompt_encodings :=
    (encode (tokenizer self) prompt (Cfg.max_length_prompt tk) "left").1 in
  let max_length_answer :=
    if Cfg.add_eos_token_to_answer (Cfg.dataset (cfg self))
    then Cfg.max_length_answer tk - 1
    else Cfg.max_length_answer tk in
  let answer_encodings :=
    (encode (tokenizer self) answer max_length_answer "right").1 in
  answer_encodings ←
    (if Cfg.add_eos_token_to_answer (Cfg.dataset (cfg self)) then
       match TextUtils.eos_token_id (tokenizer self) with
       | Some eos => Ok (Torch.cat [answer_encodings; [eos]])
       | None => Raise TypeError
       end
     else Ok answer_encodings);
  Ok (prompt_encodings, answer_encodings).

(** [pad_tokens]; [pad_token_id] is [None] for a tokenizer without
    padding token. *)
Definition pad_tokens (input_ids attention_mask : Torch.Tensor)
    (max_length : Z) (pad_token_id : option Z) (prefix : string)
  : outcome Item :=
  let sample : Item := ∅ in
  let '(input_ids, attention_mask) :=
    if max_length <? Py.len input_ids
    then (Py.slice_from input_ids (- max_length),
          Py.slice_from attention_mask (- max_length))
    else (input_ids, attention_mask) in
  pad ← from_option Ok (Raise TypeError) pad_token_id;
  ids ← Torch.full max_length pad;
  ids ← Torch.setitem_slice_from ids (- Py.len input_ids) input_ids;
  let sample := <[prefix +:+ "input_ids" := ids]> sample in
  mask ← Torch.zeros max_length;
  mask ← Torch.setitem_slice_from mask (- Py.len input_ids) attention_mask;
  let sample := <[prefix +:+ "attention_mask" := mask]> sample in
  Ok sample.

(** The [while] loop of [_read_data]. One unit of fuel pays for one
    evaluation of the loop condition. *)
Fixpoint _read_data_walk (fuel : nat) (self : t) (parent_ids : list cell)
    (parent_idx : Z) (samples : list Sample) (rs : Random.RandomState)
  : outcome (list Sample * Random.RandomState) :=
  match fuel with
  | O => OutOfFuel
  | S fuel =>
      parent_id ← Py.index parent_ids parent_idx;
      match df_id_to_idx self !! parent_id with
      | None => Ok (samples, rs)
      | Some parent_idx =>
          if String.eqb (mode self) "train" then
            let '(x, rs) := Random.random rs in
            if Random.lt x
                 (Cfg.skip_parent_probability (Cfg.augmentation (cfg self)))
            then Ok (samples, rs)
            else
              s ← _get_sample self (Z.of_nat parent_idx);
              _read_data_walk fuel self parent_ids (Z.of_nat parent_idx)
                (s :: samples) rs
          else
            s ← _get_sample self (Z.of_nat parent_idx);
            _read_data_walk fuel self parent_ids (Z.of_nat parent_idx)
              (s :: samples) rs
      end
  end.

(** The first part of [_read_data]: the list [samples]. *)
Definition _read_data_samples (fuel : nat) (self : t) (idx : Z)
    (rs : Random.RandomState)
  : outcome (list Sample * Random.RandomState) :=
  s ← _get_sample self idx;
  let samples := [s] in
  '(samples, rs) ←
    match parent_ids self with
    | Some parent_ids => _read_data_walk fuel self parent_ids idx samples rs
    | None => Ok (samples, rs)
    end;
  if String.eqb (mode self) "train" then
    let '(x, rs) := Random.random rs in
    if Random.lt x
         (Cfg.random_parent_probability (Cfg.augmentation (cfg self)))
    then
      '(rnd_idx, rs) ← Random.randint rs (__len__ self);
      s ← _get_sample self rnd_idx;
      Ok (s :: samples, rs)
    else Ok (samples, rs)
  else Ok (samples, rs).

(** [torch.cat([torch.cat(sample) for sample in samples])] *)
Definition flat_input_ids (samples : list Sample) : Torch.Tensor :=
  Torch.cat ((fun sample : Sample => Torch.cat [sample.1; sample.2])
               <$> samples).

(** The prompt mask of [_read_data]. *)
Definition flat_prompt_mask (samples : list Sample) : list bool :=
  Torch.to_bool
    (Torch.cat
       ((fun sample : Sample =>
           Torch.cat [Torch.ones_like sample.1; Torch.zeros_like sample.2])
          <$> samples)).

(** The labels of [_read_data], before they are padded. *)
Definition _read_data_labels (self : t) (samples : list Sample)
  : outcome Torch.Tensor :=
  let input_ids := flat_input_ids samples in
  let prompt_mask := flat_prompt_mask samples in
  let labels := input_ids in
  let labels :=
    if Cfg.mask_prompt_labels (Cfg.dataset (cfg self))
    then Torch.masked_fill labels prompt_mask (-100)
    else labels in
  labels ←
    (if Cfg.add_eos_token_to_answer (Cfg.dataset (cfg self)) then
       (* eos_token may be equal to pad_token. Add the label back
          manually. *)
       eos ← from_option Ok (Raise TypeError)
               (TextUtils.eos_token_id (tokenizer self));
       Torch.setitem labels (-1) eos
     else Ok labels);
  let max_length := Cfg.max_length (Cfg.tokenizer (cfg self)) in
  if max_length <? Py.len input_ids
  then Ok (Py.slice_from labels (- max_length))
  else Ok labels.

(** [samples[-1][1] = torch.empty(0)] *)
Fixpoint clear_last_answer (samples : list Sample)
  : outcome (list Sample) :=
  match samples with
  | [] => Raise IndexError
  | [sample] => Ok [(sample.1, [])]
  | sample :: rest => rest ← clear_last_answer rest; Ok (sample :: rest)
  end.

(** The second part of [_read_data]: the tensors of the sample. *)
Definition _read_data_tensors (self : t) (samples : list Sample)
    (sample : Item) : outcome Item :=
  let tk := Cfg.tokenizer (cfg self) in
  let input_ids := flat_input_ids samples in
  let attention_mask := Torch.ones_like input_ids in
  labels ← _read_data_labels self samples;
  out ← Torch.full (Cfg.max_length tk) (-100);
  out ← Torch.setitem_slice_from out (- Py.len labels) labels;
  let sample := <["labels" := out]> sample in
  padded ← pad_tokens input_ids attention_mask (Cfg.max_length tk)
              (TextUtils.pad_token_id (tokenizer self)) "";
  let sample := padded ∪ sample in
  samples ← clear_last_answer samples;
  let prompt_input_ids := flat_input_ids samples in
  let prompt_attention_mask := Torch.ones_like prompt_input_ids in
  padded ← pad_tokens prompt_input_ids prompt_attention_mask
              (Cfg.max_length_prompt tk)
              (TextUtils.pad_token_id (tokenizer self)) "prompt_";
  let sample := padded ∪ sample in
  Ok sample.

(** Reads a single text observation. *)
Definition _read_data (fuel : nat) (self : t) (idx : Z) (sample : Item)
    (rs : Random.RandomState) : outcome (Item * Random.RandomState) :=
  '(samples, rs) ← _read_data_samples fuel self idx rs;
  sample ← _read_data_tensors self samples sample;
  Ok (sample, rs).

(** Returns a single dataset item. *)
Definition __getitem__ (fuel : nat) (self : t) (idx : Z)
    (rs : Random.RandomState) : outcome (Item * Random.RandomState) :=
  let sample : Item := ∅ in
  _read_data fuel self idx sample rs.

End CustomDataset.

(** ** text_dpo_modeling_losses.py *)

Module TextDpoModelingLosses.

Local Open Scope R_scope.

(** A batch of scalars, one per example. *)
Abbreviation FloatTensor := (list R).

(** [F.logsigmoid] *)
Definition logsigmoid (x : R) : R := ln (/ (1 + exp (- x))).

(** [torch.relu] *)
Definition relu (x : R) : R := Rmax 0 x.

(** An elementwise operation on two tensors: the shapes must agree, or
    one of the two has a single element, which is broadcast. *)
Definition elementwise (f : R -> R -> R) (a b : FloatTensor)
  : outcome FloatTensor :=
  if (length a =? length b)%nat then Ok (zip_with f a b)
  else match a, b with
       | [x], _ => Ok (f x <$> b)
       | _, [y] => Ok ((fun x => f x y) <$> a)
       | _, _ => Raise RuntimeError
       end.

Definition sub : FloatTensor -> FloatTensor -> outcome FloatTensor :=
  elementwise Rminus.

(** [t.mean()]; the mean of the empty batch, which torch leaves
    undefined ([nan]), is not given a meaning of its own here. *)
Definition mean (t : FloatTensor) : R :=
  foldr Rplus 0 t / INR (length t).

(** The three classes of the module; [HingeLoss] and [IPOLoss] inherit
    [forward] from [DPOLoss] and override [get_losses]. *)
Inductive loss_class : Type := DPOLoss | HingeLoss | IPOLoss.

Section WithBeta.

(** [self.cfg.training.beta] *)
Variable beta : R.

Definition get_losses (cls : loss_class) (logits : FloatTensor)
  : FloatTensor :=
  match cls with
  | DPOLoss =>
      (* Set to 0 per default *)
      let label_smoothing := 0 in
      (fun x =>
         - logsigmoid (beta * x) * (1 - label_smoothing)
         - logsigmoid (- beta * x) * label_smoothing) <$> logits
  | HingeLoss => (fun x => relu (1 - beta * x)) <$> logits
  | IPOLoss => (fun x => (x - 1 / (2 * beta)) ^ 2) <$> logits
  end.

Definition forward (cls : loss_class)
    (policy_chosen_logps policy_rejected_logps
     reference_chosen_logps reference_rejected_logps : FloatTensor)
  : outcome (R * R * R) :=
  pi_logratios ← sub policy_chosen_logps policy_rejected_logps;
  ref_logratios ← sub reference_chosen_logps reference_rejected_logps;
  logits ← sub pi_logratios ref_logratios;
  let losses := get_losses cls logits in
  chosen ← sub policy_chosen_logps reference_chosen_logps;
  let chosen_rewards := Rmult beta <$> chosen in
  rejected ← sub policy_rejected_logps reference_rejected_logps;
  let rejected_rewards := Rmult beta <$> rejected in
  Ok (mean losses, mean chosen_rewards, mean rejected_rewards).

End WithBeta.

(** Losses factory. *)
Module Losses.

Definition _losses : gmap string loss_class :=
  <["DPOLoss" := DPOLoss]>
    (<["HingeLoss" := HingeLoss]> (<["IPOLoss" := IPOLoss]> ∅)).

Definition names : gset string := dom _losses.

(** [cls._losses.get(name, DPOLoss)] *)
Definition get (name : string) : loss_class :=
  default DPOLoss (_losses !! name).

End Losses.

End TextDpoModelingLosses.

(** ** The loss family in the words of its specification *)

Module LossSpec.

Local Open Scope R_scope.

(** The margin of one example. *)
Definition logits (policy_chosen policy_rejected reference_chosen
    reference_rejected : R) : R :=
  (policy_chosen - policy_rejected) - (reference_chosen - reference_rejected).

(** The logistic function and its logarithm. *)
Definition sigmoid (x : R) : R := 1 / (1 + exp (- x)).
Definition log_sigmoid (x : R) : R := ln (sigmoid x).

(** The three variants. *)
Definition sigmoid_loss (beta x : R) : R := - log_sigmoid (beta * x).
Definition hinge_loss (beta x : R) : R := Rmax 0 (1 - beta * x).
Definition squared_loss (beta x : R) : R := (x - 1 / (2 * beta)) ^ 2.

Definition variant_loss (cls : TextDpoModelingLosses.loss_class) (beta : R)
  : R -> R :=
  match cls with
  | TextDpoModelingLosses.DPOLoss => sigmoid_loss beta
  | TextDpoModelingLosses.HingeLoss => hinge_loss beta
  | TextDpoModelingLosses.IPOLoss => squared_loss beta
  end.

(** The unweighted mean over the examples: their sum, divided by their
    number. *)
Fixpoint total (values : list R) : R :=
  match values with
  | [] => 0
  | x :: values => x + total values
  end.

Definition average (values : list R) : R :=
  total values / INR (length values).

(** The examples of a batch: policy chosen, policy rejected, reference
    chosen, reference rejected. *)
Definition examples (policy_chosen policy_rejected reference_chosen
    reference_rejected : list R) : list (R * R * R * R) :=
  zip (zip (zip policy_chosen policy_rejected) reference_chosen)
    reference_rejected.

Definition loss (cls : TextDpoModelingLosses.loss_class) (beta : R)
    (ex : R * R * R * R) : R :=
  let '(pc, pr, rc, rr) := ex in variant_loss cls beta (logits pc pr rc rr).

Definition chosen_reward (beta : R) (ex : R * R * R * R) : R :=
  let '(pc, _, rc, _) := ex in beta * (pc - rc).

Definition rejected_reward (beta : R) (ex : R * R * R * R) : R :=
  let '(_, pr, _, rr) := ex in beta * (pr - rr).

End LossSpec.

(** ** Notions used by the properties *)

(** The answer column is absent from the frame, or a row has no answer. *)
Definition answer_column_unusable (df : Pandas.DataFrame) (cfg : Cfg.t)
  : Prop :=
  Cfg.answer_column (Cfg.dataset cfg) ∉ Pandas.columns df \/
  exists r, r ∈ Pandas.rows df /\
            r (Cfg.answer_column (Cfg.dataset cfg)) = None.

(** The two messages of the check of the answer column. *)
Definition message_absent (mode column : string) : string :=
  "The " +:+ mode +:+ " DataFrame "
    +:+ "does not contain the required column:"
    +:+ " " +:+ column +:+ ".".

Definition message_missing (mode column : string) : string :=
  "The " +:+ mode +:+ " DataFrame" +:+ " column " +:+ column
    +:+ " contain missing values.".

Module Chain.

Import CustomDataset.

(** The value of the loop condition of [_read_data] at row [i]: the row
    index that the parent id of row [i] is mapped to, if there is one. *)
Definition parent (self : t) (parent_ids : list Pandas.cell) (i : Z)
  : option nat :=
  match Py.index parent_ids i with
  | Ok parent_id => df_id_to_idx self !! parent_id
  | _ => None
  end.

(** The [n]-th ancestor of row [i], when the chain is that long. *)
Fixpoint ancestor (self : t) (parent_ids : list Pandas.cell) (n : nat)
    (i : Z) : option Z :=
  match n with
  | O => Some i
  | S n =>
      match parent self parent_ids i with
      | Some j => ancestor self parent_ids n (Z.of_nat j)
      | None => None
      end
  end.

(** The chain of ancestors of [i] is finite and free of cycles: it has a
    last element, a row without mapped parent. *)
Definition finite (self : t) (parent_ids : list Pandas.cell) (i : Z)
  : Prop :=
  exists n, ancestor self parent_ids n i = None.

(** The chain of ancestors of [i] runs into a cycle: some ancestor [j]
    (or [i] itself) is its own ancestor, [p >= 1] steps up. A
    self-referential row is the case [p = 1]. *)
Definition cyclic (self : t) (parent_ids : list Pandas.cell) (i : Z)
  : Prop :=
  exists k j p,
    ancestor self parent_ids k i = Some j /\ (0 < p)%nat /\
    ancestor self parent_ids p j = Some j.

(** A sample that [_get_sample] returns for some row. *)
Definition encoded (self : t) (s : Sample) : Prop :=
  exists i, _get_sample self i = Ok s.

(** Every row that the id-to-index map points to can be encoded. *)
Definition rows_encodable (self : t) : Prop :=
  forall parent_id j,
    df_id_to_idx self !! parent_id = Some j ->
    exists s, _get_sample self (Z.of_nat j) = Ok s.

(** The rows that the id-to-index map points to are rows of the parent
    id column, and they can be encoded. *)
Definition well_formed (self : t) (parent_ids : list Pandas.cell) : Prop :=
  rows_encodable self /\
  forall parent_id j,
    df_id_to_idx self !! parent_id = Some j ->
    (j < length parent_ids)%nat.

(** The outcome [o], with the random source left as it was before the
    call: [rs]. *)
Definition untouched {A : Type} (rs : Random.RandomState)
    (o : outcome (A * Random.RandomState))
  : outcome (A * Random.RandomState) :=
  match o with
  | Ok (a, _) => Ok (a, rs)
  | Raise e => Raise e
  | OutOfFuel => OutOfFuel
  end.

End Chain.

(** ** Positions of the flat sequence *)

Module Flat.

Import CustomDataset.

(** The number of ids that the samples contribute to the flat sequence:
    each sample its prompt ids, then its answer ids. *)
Definition total (samples : list Sample) : nat :=
  sum_list ((fun s : Sample => (length s.1 + length s.2)%nat) <$> samples).

(** Position [i] of the flat sequence of [samples] is the position of a
    prompt token: the [j]-th id of the prompt of one of the samples,
    after the ids of the samples before it. *)
Definition prompt_position (samples : list Sample) (i : nat) : Prop :=
  exists (before : list Sample) (s : Sample) (after : list Sample)
         (j : nat),
    samples = before ++ s :: after /\
    (j < length s.1)%nat /\
    i = (total before + j)%nat.

End Flat.

(** ** Example data *)

Module Example.

Import Pandas.

(** A tokenizer with one id per character. *)
Definition char_ids (text : string) : list Z :=
  (fun a => Z.of_N (Ascii.N_of_ascii a)) <$> list_ascii_of_string text.

(** A tokenizer whose only special token is the end-of-sequence token, as
    the one of the Falcon models. *)
Definition pretrained : TextUtils.Tokenizer :=
  TextUtils.mkTokenizer
    (fun text _ => char_ids text)
    (fun token => if String.eqb token "<|endoftext|>" then Some 11 else None)
    65024 "right" None (Some "<|endoftext|>") None None None None
    ["<|endoftext|>"].

Definition row (id parent_id instruction output : cell) : string -> cell :=
  fun c =>
    if String.eqb c "id" then id
    else if String.eqb c "parent_id" then parent_id
    else if String.eqb c "instruction" then instruction
    else if String.eqb c "output" then output
    else None.

Definition header : list string :=
  ["id"; "parent_id"; "instruction"; "output"].

(** A conversation of three turns: A, then B, then C. *)
Definition conversation : DataFrame :=
  mkDataFrame header
    [ row (Some "A") None (Some "hi") (Some "yo");
      row (Some "B") (Some "A") (Some "so") (Some "ok");
      row (Some "C") (Some "B") (Some "and") (Some "end") ].

(** Two rows that name each other as parent, and a reply to one of them. *)
Definition circular : DataFrame :=
  mkDataFrame header
    [ row (Some "X") (Some "Y") (Some "ping") (Some "pong");
      row (Some "Y") (Some "X") (Some "pong") (Some "ping");
      row (Some "Z") (Some "Y") (Some "and") (Some "so on") ].

(** A frame whose second answer is missing. *)
Definition incomplete : DataFrame :=
  mkDataFrame header
    [ row (Some "A") None (Some "hi") (Some "yo");
      row (Some "B") (Some "A") (Some "so") None ].

Definition config (skip_parent random_parent : Q) : Cfg.t :=
  Cfg.mk "tiiuae/falcon-7b"
    (Cfg.mkDataset "output" (Cfg.Str "instruction") "parent_id"
       "<|prompt|>" "<|answer|>" false true true None)
    (Cfg.mkTokenizer 32 24 4 false None [])
    (Cfg.mkAugmentation skip_parent random_parent)
    [] 0 None None None.

(** The configuration of the examples with a start of the prompt that
    ends in an escape sequence that is cut short, and a codec that
    refuses this text as [unicode_escape] does. *)
Definition cut_short : Cfg.t :=
  Cfg.mk "tiiuae/falcon-7b"
    (Cfg.mkDataset "output" (Cfg.Str "instruction") "parent_id"
       "<|prompt|>\x" "<|answer|>" false true true None)
    (Cfg.mkTokenizer 32 24 4 false None [])
    (Cfg.mkAugmentation 0 0)
    [] 0 None None None.

Definition unicode_escape (text : string) : option string :=
  if String.eqb text "<|prompt|>\x" then None else Some text.

(** A codec for texts without escape sequences. *)
Definition codec (text : string) : option string := Some text.

Definition blank : CustomDataset.t :=
  CustomDataset.mk (config 0 0) "" (mkDataFrame [] []) pretrained [] []
    None ∅.

(** The dataset that the constructor builds, if it builds one. *)
Definition dataset (df : DataFrame) (cfg : Cfg.t) (mode : string)
  : CustomDataset.t :=
  match CustomDataset.__init__ codec pretrained df cfg mode with
  | Ok self => self
  | _ => blank
  end.

Definition random_state : Random.RandomState :=
  Random.mkRandomState (fun n => N.of_nat (7 * n + 3)) 0.

(** The conversation as a train dataset without augmentation. *)
Definition conversation_train : CustomDataset.t :=
  dataset conversation (config 0 0) "train".

(** The encodings of its rows. *)
Definition sample_A : CustomDataset.Sample :=
  (char_ids "<|prompt|>hi<|answer|>", char_ids "yo" ++ [11]).
Definition sample_B : CustomDataset.Sample :=
  (char_ids "<|prompt|>so<|answer|>", char_ids "ok" ++ [11]).
Definition sample_C : CustomDataset.Sample :=
  (char_ids "<|prompt|>and<|answer|>", char_ids "end" ++ [11]).

(** The item of its last row, read on top of the empty dictionary, and
    the random source after it was read. *)
Definition train_read
  : outcome (CustomDataset.Item * Random.RandomState) :=
  CustomDataset._read_data 3 conversation_train 2 ∅ random_state.
Definition train_item : CustomDataset.Item :=
  match train_read with Ok (item, _) => item | _ => ∅ end.
Definition train_state : Random.RandomState :=
  match train_read with Ok (_, rs) => rs | _ => random_state end.

(** The same with room for 96 ids in an item. *)
Definition roomy : Cfg.t :=
  Cfg.mk "tiiuae/falcon-7b"
    (Cfg.mkDataset "output" (Cfg.Str "instruction") "parent_id"
       "<|prompt|>" "<|answer|>" false true true None)
    (Cfg.mkTokenizer 96 24 4 false None [])
    (Cfg.mkAugmentation 0 0)
    [] 0 None None None.
Definition conversation_roomy : CustomDataset.t :=
  dataset conversation roomy "train".
Definition roomy_read
  : outcome (CustomDataset.Item * Random.RandomState) :=
  CustomDataset._read_data 3 conversation_roomy 2 ∅ random_state.
Definition roomy_item : CustomDataset.Item :=
  match roomy_read with Ok (item, _) => item | _ => ∅ end.
Definition roomy_state : Random.RandomState :=
  match roomy_read with Ok (_, rs) => rs | _ => random_state end.

(** The conversation and the circular frame as validation datasets. *)
Definition conversation_validation : CustomDataset.t :=
  dataset conversation (config (1 # 2) (1 # 2)) "validation".
Definition circular_validation : CustomDataset.t :=
  dataset circular (config (1 # 2) (1 # 2)) "validation".

(** The conversation in a frame without [id] column, as a validation
    dataset. *)
Definition unlinked : DataFrame :=
  mkDataFrame ["parent_id"; "instruction"; "output"] (rows conversation).
Definition unlinked_validation : CustomDataset.t :=
  dataset unlinked (config (1 # 2) (1 # 2)) "validation".

(** The item of the last row of the conversation, and the random source
    after it was read. *)
Definition last_read
  : outcome (CustomDataset.Item * Random.RandomState) :=
  CustomDataset.__getitem__ 5 conversation_validation 2 random_state.
Definition last_item : CustomDataset.Item :=
  match last_read with Ok (item, _) => item | _ => ∅ end.
Definition last_state : Random.RandomState :=
  match last_read with Ok (_, rs) => rs | _ => random_state end.

End Example.

(** ** Further Python sequence operations *)

Module PySeq.

(** [range(n)] *)
Definition range (n : Z) : list Z := Z.of_nat <$> seq 0 (Z.to_nat n).

(** [l[start:stop]] *)
Definition slice {A : Type} (l : list A) (start stop : Z) : list A :=
  let i := Py.bound (length l) start in
  let j := Py.bound (length l) stop in
  take (j - i) (drop i l).

(** [v] occurs in [row] as a run of consecutive elements. *)
Definition infix {A : Type} (v row : list A) : Prop :=
  exists before after, row = before ++ v ++ after.

End PySeq.

(** ** text_causal_language_modeling_model.py: the stopping criteria *)

Module TokenStoppingCriteria.

(** A stop word is a tensor without dimension (one id) or a vector of
    ids. *)
Inductive stop_word : Type :=
  | Scalar (id : Z)
  | Vector (ids : list Z).

Record t : Type := mk {
  prompt_input_ids_len : Z;
  stop_word_ids : list stop_word
}.

Definition __init__ (stop_word_ids : option (list stop_word))
    (prompt_input_ids_len : Z) : t :=
  let stop_word_ids :=
    match stop_word_ids with
    | None => []
    | Some stop_word_ids => stop_word_ids
    end in
  mk prompt_input_ids_len stop_word_ids.

(** [torch.all(a == b)], for two vectors of one length. *)
Definition all_equal (a b : list Z) : bool :=
  forallb (fun x : bool => x) (zip_with Z.eqb a b).

(** The inner loop of [get_num_vector_found_in_matrix_rows]: whether the
    loop over the start positions leaves with [break]. *)
Fixpoint stride (row vector : list Z) (starts : list Z) : bool :=
  match starts with
  | [] => false
  | i :: starts =>
      (* check if the vector contains the tensor *)
      if all_equal (PySeq.slice row i (i + Py.len vector)) vector
      then true
      else stride row vector starts
  end.

(** Count the number of times a vector is found in a matrix row. *)
Definition get_num_vector_found_in_matrix_rows (vector : list Z)
    (matrix : list (list Z)) : Z :=
  foldl (fun (found : Z) (row : list Z) =>
           if stride row vector
                (PySeq.range (Py.len row - Py.len vector + 1))
           then found + 1
           else found)
    0 matrix.

(** [torch.mean] of a vector of floats; [None] stands for [nan], the mean
    of no element. *)
Definition mean (xs : list Q) : option Q :=
  match xs with
  | [] => None
  | _ => Some (foldr Qplus 0%Q xs / inject_Z (Py.len xs))%Q
  end.

(** [((generated_ids == stop_word_id).sum(1) > 0).float()], row by row. *)
Definition rows_with (generated_ids : list (list Z)) (stop_word_id : Z)
  : list Q :=
  (fun row : list Z =>
     if 0 <? foldr Z.add 0
               ((fun x : Z => if x =? stop_word_id then 1 else 0) <$> row)
     then 1%Q else 0%Q)
    <$> generated_ids.

Definition should_stop (generated_ids : list (list Z))
    (stop_word_id : stop_word) : bool :=
  match stop_word_id with
  | Scalar id =>
      match mean (rows_with generated_ids id) with
      | Some m => Qeq_bool m 1
      | None => false
      end
  | Vector ids =>
      get_num_vector_found_in_matrix_rows ids generated_ids
        =? Py.len generated_ids
  end.

(** The loop of [__call__] over the stop words. *)
Fixpoint any_should_stop (generated_ids : list (list Z))
    (stop_word_ids : list stop_word) : bool :=
  match stop_word_ids with
  | [] => false
  | stop_word_id :: stop_word_ids =>
      if should_stop generated_ids stop_word_id then true
      else any_should_stop generated_ids stop_word_ids
  end.

(** [__call__(input_ids, scores)]; the scores are not read. *)
Definition __call__ (self : t) (input_ids : list (list Z)) : bool :=
  let generated_ids :=
    (fun row : list Z => Py.slice_from row (prompt_input_ids_len self))
      <$> input_ids in
  any_should_stop generated_ids (stop_word_ids self).

(** The stop word occurs in the generated ids of a row. *)
Definition occurs (stop_word_id : stop_word) (row : list Z) : Prop :=
  match stop_word_id with
  | Scalar id => id ∈ row
  | Vector ids => PySeq.infix ids row
  end.

End TokenStoppingCriteria.

(** ** text_causal_language_modeling_ds.py: [batch_to_device] *)

Module DeviceBatch.

(** What a batch is made of: tensors (on a device), mappings, sequences,
    texts (sequences of texts of one character, to Python), and values of
    any other type, of which only the name of the type is kept. *)
#[warnings="-register-all"]
Inductive batch : Type :=
  | Tensor (device : string) (data : list Z)
  | Mapping (items : list (string * batch))
  | Sequence (items : list batch)
  | Text (text : string)
  | Other (type_name : string).

(** [batch_to_device]; the fuel is the depth of recursion that the
    interpreter allows. *)
Fixpoint batch_to_device (fuel : nat) (b : batch) (device : string)
  : outcome batch :=
  match fuel with
  | O => OutOfFuel
  | S fuel =>
      match b with
      | Tensor _ data => Ok (Tensor device data)
      | Mapping items =>
          items ← mapM (fun kv : string * batch =>
                          value ← batch_to_device fuel kv.2 device;
                          Ok (kv.1, value)) items;
          Ok (Mapping items)
      | Sequence items =>
          items ← mapM (fun value : batch =>
                          batch_to_device fuel value device) items;
          Ok (Sequence items)
      | Text text =>
          items ← mapM (fun c : Ascii.ascii =>
                          batch_to_device fuel (Text (String c "")) device)
                     (list_ascii_of_string text);
          Ok (Sequence items)
      | Other type_name =>
          Raise (ValueError
                   ("Can not move " +:+ type_name +:+ " to device."))
      end
  end.

(** The batch with every tensor on [device]; an empty text becomes the
    empty list. *)
Fixpoint on_device (device : string) (b : batch) : batch :=
  match b with
  | Tensor _ data => Tensor device data
  | Mapping items =>
      Mapping (map (fun kv : string * batch =>
                      (kv.1, on_device device kv.2)) items)
  | Sequence items => Sequence (map (on_device device) items)
  | Text _ => Sequence []
  | Other type_name => Other type_name
  end.

(** The batch holds tensors, mappings, sequences and empty texts only. *)
Fixpoint movable (b : batch) : bool :=
  match b with
  | Tensor _ _ => true
  | Mapping items => forallb (fun kv : string * batch => movable kv.2) items
  | Sequence items => forallb movable items
  | Text text => String.eqb text ""
  | Other _ => false
  end.

(** The number of nested calls that the batch needs. *)
Fixpoint depth (b : batch) : nat :=
  match b with
  | Mapping items =>
      S (foldr (fun (kv : string * batch) (n : nat) =>
                  Nat.max (depth kv.2) n) 0%nat items)
  | Sequence items =>
      S (foldr (fun (value : batch) (n : nat) => Nat.max (depth value) n)
           0%nat items)
  | _ => 1%nat
  end.

End DeviceBatch.

(** ** text_causal_language_modeling_ds.py: [clean_output] *)

Module CleanOutput.

(** A text, as the sequence of its characters. *)
Abbreviation str := (list Ascii.ascii).

(** A value of the output dictionary: an array of texts, or anything
    else. *)
Inductive value : Type :=
  | Texts (texts : list str)
  | Other.

Section WithSpace.

(** [c.isspace()] *)
Variable isspace : Ascii.ascii -> bool.

(** [s.lstrip()], [s.rstrip()] and [s.strip()] *)
Fixpoint lstrip (s : str) : str :=
  match s with
  | [] => []
  | c :: rest => if isspace c then lstrip rest else s
  end.

Definition rstrip (s : str) : str := reverse (lstrip (reverse s)).

Definition strip (s : str) : str := rstrip (lstrip s).

(** [s.find(sub)]: the lowest index at which [sub] starts in [s];
    [None] stands for -1. *)
Fixpoint find (s sub : str) : option nat :=
  if bool_decide (sub `prefix_of` s) then Some 0%nat
  else match s with
       | [] => None
       | _ :: rest => S <$> find rest sub
       end.

(** The body of the loop over the stop tokens. *)
Definition cut (curr_text stop_token : str) : str :=
  match find curr_text stop_token with
  | Some k => take k curr_text
  | None => curr_text
  end.

(** The body of the loop over the predicted texts. *)
Definition clean_text (_stop_words : list str) (text : str) : str :=
  let curr_text := strip text in
  let curr_text := foldl cut curr_text _stop_words in
  strip curr_text.

(** [clean_output(output, prompts, cfg)]; [_stop_words] is
    [cfg.tokenizer._stop_words]. The prompts are not read. *)
Definition clean_output (output : gmap string value)
    (_stop_words : list str) : outcome (gmap string value) :=
  match output !! "predicted_text" with
  | None => Raise (KeyError "predicted_text")
  | Some Other => Raise AttributeError
  | Some (Texts predicted_text) =>
      Ok (<["predicted_text" :=
              Texts (clean_text _stop_words <$> predicted_text)]> output)
  end.

End WithSpace.

End CleanOutput.

(** ** Notions used by the further properties *)

Module Lineage.

Import CustomDataset.

(** The ancestors of row [i], nearest first, as far as [n] steps reach. *)
Fixpoint lineage (self : t) (parent_ids : list Pandas.cell) (n : nat)
    (i : Z) : list Z :=
  match n with
  | O => []
  | S n =>
      match Chain.parent self parent_ids i with
      | Some j =>
          Z.of_nat j :: lineage self parent_ids n (Z.of_nat j)
      | None => []
      end
  end.

End Lineage.

(** ** Basic facts on outcomes, slices and tensors *)

(** A draw is never below a probability of zero. *)
Lemma random_not_lt_zero (rs : Random.RandomState) (p : Q) :
  (p == 0)%Q -> Random.lt (Random.random rs).1 p = false.
Proof.
  intros Hp. unfold Random.lt, Random.random. simpl.
  apply negb_false_iff, Qle_bool_iff. rewrite Hp.
  unfold Qle. simpl. rewrite Z.mul_0_l, Z.mul_1_r. apply N2Z.is_nonneg.
Qed.

(** A random row index is a row index. *)
Lemma randint_Ok (rs : Random.RandomState) (n : Z) :
  0 < n ->
  exists r rs', Random.randint rs n = Ok (r, rs') /\ 0 <= r < n.
Proof.
  intros Hn. unfold Random.randint.
  destruct (Z.leb_spec n 0) as [?|_]; [lia|].
  eexists _, _. split; [reflexivity|]. by apply Z.mod_pos_bound.
Qed.

(** A random row index that is returned is a row index. *)
Lemma randint_range (rs rs' : Random.RandomState) (n r : Z) :
  Random.randint rs n = Ok (r, rs') -> 0 <= r < n.
Proof.
  unfold Random.randint. destruct (Z.leb_spec n 0) as [?|Hn]; [discriminate|].
  intros [= <- _]. by apply Z.mod_pos_bound.
Qed.

(** A draw is always below a probability of one or more. *)
Lemma random_lt_one (rs : Random.RandomState) (p : Q) :
  (1 <= p)%Q -> Random.lt (Random.random rs).1 p = true.
Proof.
  intros Hp. unfold Random.lt, Random.random. simpl.
  apply negb_true_iff. destruct (Qle_bool p _) eqn:E; [|reflexivity].
  apply Qle_bool_iff in E. exfalso.
  apply (Qlt_irrefl 1). eapply Qle_lt_trans; [exact Hp|].
  eapply Qle_lt_trans; [exact E|].
  unfold Qlt. simpl. rewrite Z.mul_1_r.
  pose proof (N.mod_lt (Random.raw rs (Random.cursor rs))
                (Npos Random.resolution)) as Hlt.
  lia.
Qed.

#[global] Opaque Random.random Random.randint Random.lt.
#[global] Arguments Py.index : simpl never.
#[global] Arguments CustomDataset._get_sample : simpl never.

Lemma bind_Ok {A B : Type} (m : outcome A) (k : A -> outcome B) (b : B) :
  m ≫= k = Ok b -> exists a, m = Ok a /\ k a = Ok b.
Proof. destruct m as [a| |]; simpl; intros H; [eauto | discriminate..]. Qed.

Lemma bind_Raise {A B : Type} (m : outcome A) (k : A -> outcome B)
    (e : exn) :
  m ≫= k = Raise e -> m = Raise e \/ exists a, m = Ok a /\ k a = Raise e.
Proof.
  destruct m as [a|e'|]; simpl; intros H.
  - right. by exists a.
  - left. by injection H as <-.
  - discriminate.
Qed.

Lemma from_option_Ok {A : Type} (e : exn) (o : option A) (a : A) :
  from_option Ok (Raise e) o = Ok a -> o = Some a.
Proof. destruct o; simpl; congruence. Qed.

(** Take an equation [m ≫= k = Ok b] apart. *)
Tactic Notation "bind_inv" hyp(H) "as" ident(a) ident(Ha) :=
  apply bind_Ok in H; destruct H as (a & Ha & H).

Lemma mapM_Ok_length {A B : Type} (f : A -> outcome B) (l : list A)
    (l' : list B) :
  mapM f l = Ok l' -> length l' = length l.
Proof.
  revert l'; induction l as [|x l IH]; intros l' H; simpl in H;
    unfold mret, outcome_ret in H.
  - injection H as <-. reflexivity.
  - bind_inv H as y Hy. bind_inv H as k Hk. injection H as <-.
    simpl. f_equal. eauto.
Qed.

Lemma bound_le (len : nat) (i : Z) : (Py.bound len i <= len)%nat.
Proof. unfold Py.bound. destruct (Z.ltb_spec i 0); lia. Qed.

Lemma bound_neg (len : nat) (k : Z) :
  0 < k -> Py.bound len (- k) = (len - Z.to_nat k)%nat.
Proof. intros Hk. unfold Py.bound. destruct (Z.ltb_spec (- k) 0); lia. Qed.

Lemma index_Ok {A : Type} (l : list A) (i : nat) (x : A) :
  Py.index l (Z.of_nat i) = Ok x <-> l !! i = Some x.
Proof.
  unfold Py.index.
  destruct (Z.ltb_spec (Z.of_nat i) 0) as [?|_]; [lia|].
  destruct (Z.ltb_spec (Z.of_nat i) 0) as [?|_]; [lia|].
  rewrite Nat2Z.id. destruct (l !! i); split; congruence.
Qed.

Lemma index_in_range {A : Type} (l : list A) (i : Z) :
  0 <= i < Py.len l -> exists x, Py.index l i = Ok x.
Proof.
  unfold Py.len. intros Hi. unfold Py.index.
  destruct (Z.ltb_spec i 0) as [?|_]; [lia|].
  destruct (Z.ltb_spec i 0) as [?|_]; [lia|].
  destruct (lookup_lt_is_Some_2 l (Z.to_nat i)) as [x ->]; [lia|]. eauto.
Qed.

Lemma full_Ok (n v : Z) (t : Torch.Tensor) :
  Torch.full n v = Ok t -> 0 <= n /\ t = replicate (Z.to_nat n) v.
Proof.
  unfold Torch.full. destruct (Z.ltb_spec n 0); [discriminate|].
  intros [= <-]. split; [lia | reflexivity].
Qed.

Lemma setitem_slice_from_length (t v out : Torch.Tensor) (start : Z) :
  Torch.setitem_slice_from t start v = Ok out -> length out = length t.
Proof.
  unfold Torch.setitem_slice_from.
  pose proof (bound_le (length t) start) as Hs.
  destruct (Nat.eqb_spec (length v) (length t - Py.bound (length t) start))
    as [Hv|_].
  - intros [= <-]. rewrite length_app, length_take. lia.
  - destruct v as [|x [|]]; [discriminate| |discriminate].
    intros [= <-]. rewrite length_app, length_take, length_replicate. lia.
Qed.

(** Writing [v] into the last [len(v)] positions of [t], as [pad_tokens]
    and [_read_data] do: [v] ends up right-aligned in [t], unless [t] is
    empty. *)
Lemma setitem_tail (t v out : Torch.Tensor) :
  Torch.setitem_slice_from t (- Py.len v) v = Ok out ->
  (t = [] /\ out = []) \/
  ((0 < length v <= length t)%nat /\
   out = take (length t - length v) t ++ v).
Proof.
  unfold Torch.setitem_slice_from, Py.len. intros H.
  pose proof (bound_le (length t) (- Z.of_nat (length v))) as Hle.
  destruct (Nat.eq_dec (length v) 0%nat) as [Hv0|Hv0].
  - (* the slice is the whole of [t] *)
    destruct v; [|discriminate]. destruct t; [|discriminate].
    injection H as <-. left. split; reflexivity.
  - rewrite bound_neg in H by lia. rewrite Nat2Z.id in H.
    destruct (Nat.eqb_spec (length v) (length t - (length t - length v)))
      as [Hv|Hv].
    + injection H as <-. right. split; [lia | reflexivity].
    + destruct v as [|x [|]]; [discriminate| |discriminate].
      injection H as <-. simpl in Hv.
      assert (length t = 0)%nat as Ht by lia.
      destruct t; [|discriminate]. left. split; reflexivity.
Qed.

(** ** The tensors of a sample *)

Section Tensors.

Import CustomDataset.

(** [pad_tokens] returns two tensors of length [max_length]. *)
Lemma pad_tokens_Ok (input_ids attention_mask : Torch.Tensor)
    (max_length : Z) (pad_token_id : option Z) (prefix : string)
    (item : Item) :
  pad_tokens input_ids attention_mask max_length pad_token_id prefix
    = Ok item ->
  exists ids mask,
    item = <[prefix +:+ "attention_mask" := mask]>
             (<[prefix +:+ "input_ids" := ids]> ∅) /\
    Py.len ids = max_length /\ Py.len mask = max_length.
Proof.
  unfold pad_tokens. intros H.
  destruct (max_length <? Py.len input_ids).
  all: bind_inv H as pad Hpad.
  all: bind_inv H as ids0 Hids0; apply full_Ok in Hids0 as [Hn ->].
  all: bind_inv H as ids Hids; apply setitem_slice_from_length in Hids.
  all: bind_inv H as mask0 Hmask0; apply full_Ok in Hmask0 as [_ ->].
  all: bind_inv H as mask Hmask; apply setitem_slice_from_length in Hmask.
  all: injection H as <-; exists ids, mask; split; [reflexivity|].
  all: unfold Py.len; rewrite Hids, Hmask, !length_replicate; lia.
Qed.

(** What [_read_data_tensors] returns: the padded labels, and the four
    tensors of the two calls of [pad_tokens]. *)
Lemma read_data_tensors_Ok (self : t) (samples : list Sample)
    (sample item : Item) :
  _read_data_tensors self samples sample = Ok item ->
  exists labels out ids mask pids pmask,
    _read_data_labels self samples = Ok labels /\
    0 <= Cfg.max_length (Cfg.tokenizer (cfg self)) /\
    Torch.setitem_slice_from
      (replicate (Z.to_nat (Cfg.max_length (Cfg.tokenizer (cfg self))))
         (-100))
      (- Py.len labels) labels = Ok out /\
    item !! "labels" = Some out /\
    item !! "input_ids" = Some ids /\
    item !! "attention_mask" = Some mask /\
    item !! "prompt_input_ids" = Some pids /\
    item !! "prompt_attention_mask" = Some pmask /\
    Py.len ids = Cfg.max_length (Cfg.tokenizer (cfg self)) /\
    Py.len mask = Cfg.max_length (Cfg.tokenizer (cfg self)) /\
    Py.len pids = Cfg.max_length_prompt (Cfg.tokenizer (cfg self)) /\
    Py.len pmask = Cfg.max_length_prompt (Cfg.tokenizer (cfg self)).
Proof.
  unfold _read_data_tensors. intros H.
  bind_inv H as labels Hlabels.
  bind_inv H as out0 Hout0. apply full_Ok in Hout0 as [Hm ->].
  bind_inv H as out Hout.
  bind_inv H as padded Hpadded.
  apply pad_tokens_Ok in Hpadded as (ids & mask & -> & Hids & Hmask).
  bind_inv H as samples' Hsamples'.
  bind_inv H as padded' Hpadded'.
  apply pad_tokens_Ok in Hpadded' as (pids & pmask & -> & Hpids & Hpmask).
  injection H as <-.
  exists labels, out, ids, mask, pids, pmask.
  change ("prompt_" +:+ "attention_mask") with "prompt_attention_mask".
  change ("prompt_" +:+ "input_ids") with "prompt_input_ids".
  change ("" +:+ "attention_mask") with "attention_mask".
  change ("" +:+ "input_ids") with "input_ids".
  repeat split; try assumption.
  all: rewrite ?lookup_union; simplify_map_eq.
  all: try done.
  all: match goal with |- Some _ ∪ ?o = _ => by destruct o end.
Qed.

Lemma flat_input_ids_app (l1 l2 : list Sample) :
  flat_input_ids (l1 ++ l2) = flat_input_ids l1 ++ flat_input_ids l2.
Proof. unfold flat_input_ids, Torch.cat. by rewrite fmap_app, concat_app. Qed.

Lemma flat_prompt_mask_app (l1 l2 : list Sample) :
  flat_prompt_mask (l1 ++ l2) = flat_prompt_mask l1 ++ flat_prompt_mask l2.
Proof.
  unfold flat_prompt_mask, Torch.to_bool, Torch.cat.
  by rewrite fmap_app, concat_app, fmap_app.
Qed.

Lemma flat_input_ids_singleton (s : Sample) :
  flat_input_ids [s] = s.1 ++ s.2.
Proof.
  unfold flat_input_ids, Torch.cat. simpl. by rewrite !app_nil_r.
Qed.

(** The prompt mask of one sample: true on the prompt, false on the
    answer. *)
Lemma flat_prompt_mask_singleton (s : Sample) :
  flat_prompt_mask [s]
    = replicate (length s.1) true ++ replicate (length s.2) false.
Proof.
  unfold flat_prompt_mask, Torch.to_bool, Torch.cat, Torch.ones_like,
    Torch.zeros_like.
  simpl. rewrite !app_nil_r, fmap_app, !fmap_replicate. reflexivity.
Qed.

Lemma flat_prompt_mask_length (samples : list Sample) :
  length (flat_prompt_mask samples) = length (flat_input_ids samples).
Proof.
  induction samples as [|s samples IH]; [reflexivity|].
  change (s :: samples) with ([s] ++ samples).
  rewrite flat_prompt_mask_app, flat_input_ids_app, !length_app, IH.
  rewrite flat_prompt_mask_singleton, flat_input_ids_singleton.
  by rewrite !length_app, !length_replicate.
Qed.

(** [labels[-1] = eos] *)
Lemma setitem_last (t t' : Torch.Tensor) (v : Z) :
  Torch.setitem t (-1) v = Ok t' ->
  t <> [] /\ t' = <[pred (length t) := v]> t.
Proof.
  unfold Torch.setitem, Py.len. change (-1 <? 0) with true. cbv iota.
  intros H.
  destruct (Z.ltb_spec (Z.of_nat (length t) + -1) 0) as [?|Hlen];
    [discriminate|].
  destruct (Z.leb_spec (Z.of_nat (length t))
              (Z.of_nat (length t) + -1)) as [?|_]; [lia|].
  injection H as <-. split; [by destruct t; simpl in *; try lia|].
  f_equal. lia.
Qed.


End Tensors.

(** ** The list of samples *)

Section Samples.

Import CustomDataset Chain.

(** With [add_eos_token_to_answer], the answer of a sample ends with the
    end-of-sequence id. *)
Lemma get_sample_eos (self : t) (i : Z) (s : Sample) :
  _get_sample self i = Ok s ->
  Cfg.add_eos_token_to_answer (Cfg.dataset (cfg self)) = true ->
  exists a eos,
    TextUtils.eos_token_id (tokenizer self) = Some eos /\
    s.2 = a ++ [eos].
Proof.
  unfold _get_sample. intros H Heos. rewrite Heos in H.
  bind_inv H as prompt Hprompt. bind_inv H as answer Hanswer.
  bind_inv H as enc Henc. injection H as <-.
  destruct (TextUtils.eos_token_id (tokenizer self)) as [eos|];
    [|discriminate].
  injection Henc as <-. eexists _, eos. split; [reflexivity|].
  reflexivity.
Qed.

(** The loop only puts samples in front of the list. *)
Lemma walk_Ok (fuel : nat) (self : t) (pids : list Pandas.cell) (i : Z)
    (samples samples' : list Sample) (rs rs' : Random.RandomState) :
  _read_data_walk fuel self pids i samples rs = Ok (samples', rs') ->
  exists pre, samples' = pre ++ samples /\ Forall (encoded self) pre.
Proof.
  revert i samples rs.
  induction fuel as [|fuel IH]; intros i samples rs H; [discriminate|].
  simpl in H. bind_inv H as pid Hpid.
  destruct (df_id_to_idx self !! pid) as [j|].
  2:{ injection H as <- <-. by exists []. }
  assert (forall rs0,
    (_get_sample self (Z.of_nat j) ≫= fun s =>
       _read_data_walk fuel self pids (Z.of_nat j) (s :: samples) rs0)
      = Ok (samples', rs') ->
    exists pre, samples' = pre ++ samples /\ Forall (encoded self) pre)
    as Hstep.
  { intros rs0 H0. bind_inv H0 as s Hs.
    apply IH in H0 as (pre & -> & Hpre).
    exists (pre ++ [s]). rewrite <- app_assoc. split; [reflexivity|].
    apply Forall_app. split; [assumption|].
    constructor; [by exists (Z.of_nat j) | constructor]. }
  destruct (String.eqb (mode self) "train"); [|by eapply Hstep].
  destruct (Random.random rs) as [x rs1].
  destruct (Random.lt x _); [|by eapply Hstep].
  injection H as <- <-. by exists [].
Qed.

(** The list of samples ends with the sample of the requested row. *)
Lemma read_data_samples_Ok (fuel : nat) (self : t) (idx : Z)
    (samples : list Sample) (rs rs' : Random.RandomState) :
  _read_data_samples fuel self idx rs = Ok (samples, rs') ->
  exists pre s,
    samples = pre ++ [s] /\ _get_sample self idx = Ok s /\
    Forall (encoded self) pre.
Proof.
  unfold _read_data_samples. intros H.
  bind_inv H as s Hs. bind_inv H as walked Hwalked.
  destruct walked as [samples0 rs0].
  assert (exists pre, samples0 = pre ++ [s] /\ Forall (encoded self) pre)
    as (pre & -> & Hpre).
  { destruct (parent_ids self) as [pids|].
    - by eapply walk_Ok.
    - injection Hwalked as <- <-. by exists []. }
  destruct (String.eqb (mode self) "train").
  2:{ injection H as <- <-. by exists pre, s. }
  destruct (Random.random rs0) as [x rs1].
  destruct (Random.lt x _).
  2:{ injection H as <- <-. by exists pre, s. }
  bind_inv H as drawn Hdrawn. destruct drawn as [rnd_idx rs2].
  bind_inv H as r Hr. injection H as <- <-.
  exists (r :: pre), s. split; [reflexivity|]. split; [assumption|].
  constructor; [by exists rnd_idx | assumption].
Qed.

End Samples.

(** ** The labels *)

Section Labels.

Import CustomDataset Chain.

(** With [add_eos_token_to_answer], the prompt mask ends with a position
    of the answer: the end-of-sequence id of the requested row. *)
Lemma prompt_mask_last_false (fuel : nat) (self : t) (idx : Z)
    (samples : list Sample) (rs rs' : Random.RandomState) :
  _read_data_samples fuel self idx rs = Ok (samples, rs') ->
  Cfg.add_eos_token_to_answer (Cfg.dataset (cfg self)) = true ->
  last (flat_prompt_mask samples) = Some false.
Proof.
  intros H Heos.
  apply read_data_samples_Ok in H as (pre & s & -> & Hs & _).
  destruct (get_sample_eos _ _ _ Hs Heos) as (a & eos & _ & Ha).
  rewrite flat_prompt_mask_app, flat_prompt_mask_singleton, Ha.
  rewrite length_app, Nat.add_1_r, replicate_S_end, !app_assoc.
  apply last_snoc.
Qed.

(** The labels before truncation: as long as the flat sequence, with the
    ignore value wherever prompt labels are masked. *)
Lemma read_data_labels_Ok (self : t) (samples : list Sample)
    (labels : Torch.Tensor) :
  _read_data_labels self samples = Ok labels ->
  exists pre : Torch.Tensor,
    length pre = length (flat_input_ids samples) /\
    labels =
      (if Cfg.max_length (Cfg.tokenizer (cfg self))
            <? Py.len (flat_input_ids samples)
       then Py.slice_from pre (- Cfg.max_length (Cfg.tokenizer (cfg self)))
       else pre) /\
    (Cfg.add_eos_token_to_answer (Cfg.dataset (cfg self)) = true ->
     exists eos,
       TextUtils.eos_token_id (tokenizer self) = Some eos /\
       last pre = Some eos) /\
    (Cfg.mask_prompt_labels (Cfg.dataset (cfg self)) = true ->
     (Cfg.add_eos_token_to_answer (Cfg.dataset (cfg self)) = true ->
      last (flat_prompt_mask samples) = Some false) ->
     forall i : nat,
       flat_prompt_mask samples !! i = Some true ->
       pre !! i = Some (-100)).
Proof.
  unfold _read_data_labels. intros H. bind_inv H as pre Hpre.
  exists pre.
  set (masked :=
         if Cfg.mask_prompt_labels (Cfg.dataset (cfg self))
         then Torch.masked_fill (flat_input_ids samples)
                (flat_prompt_mask samples) (-100)
         else flat_input_ids samples) in *.
  assert (length masked = length (flat_input_ids samples)) as Hlen.
  { subst masked. destruct (Cfg.mask_prompt_labels _); [|reflexivity].
    unfold Torch.masked_fill.
    rewrite length_zip_with, flat_prompt_mask_length. lia. }
  assert (Cfg.mask_prompt_labels (Cfg.dataset (cfg self)) = true ->
          forall i : nat, flat_prompt_mask samples !! i = Some true ->
                          masked !! i = Some (-100)) as Hmasked.
  { intros Hmask i Hi. subst masked. rewrite Hmask.
    unfold Torch.masked_fill. rewrite lookup_zip_with, Hi.
    destruct (flat_input_ids samples !! i) as [x|] eqn:Hx; [reflexivity|].
    apply lookup_ge_None in Hx. apply lookup_lt_Some in Hi.
    rewrite flat_prompt_mask_length in Hi. lia. }
  destruct (Cfg.add_eos_token_to_answer (Cfg.dataset (cfg self))).
  - bind_inv Hpre as eos Heos. apply from_option_Ok in Heos.
    apply setitem_last in Hpre as [Hne ->].
    assert (0 < length masked)%nat as Hpos
      by (destruct masked; [done | simpl; lia]).
    rewrite length_insert. split; [assumption|].
    split; [by destruct (_ <? _); injection H as <-|].
    split.
    + intros _. exists eos. split; [assumption|].
      rewrite last_lookup, length_insert.
      apply list_lookup_insert_eq. lia.
    + intros Hmask Hlast i Hi.
      rewrite list_lookup_insert_ne; [by apply Hmasked|].
      intros <-. specialize (Hlast eq_refl).
      rewrite last_lookup, flat_prompt_mask_length, <- Hlen in Hlast.
      congruence.
  - injection Hpre as <-. split; [assumption|].
    split; [by destruct (_ <? _); injection H as <-|].
    split; [discriminate|]. intros Hmask _. by apply Hmasked.
Qed.

End Labels.

(** ** Properties of the assembled item *)

Section Item.

Import CustomDataset Chain.

(** Keeping the trailing [m >= 1] positions keeps the last one. *)
Lemma last_slice_from (l : Torch.Tensor) (m x : Z) :
  0 < m -> last l = Some x -> last (Py.slice_from l (- m)) = Some x.
Proof.
  intros Hm Hl. unfold Py.slice_from. rewrite bound_neg by assumption.
  rewrite last_lookup in Hl. pose proof (lookup_lt_Some _ _ _ Hl) as Hlt.
  rewrite last_lookup, length_drop, lookup_drop, <- Hl. f_equal. lia.
Qed.

(** [__getitem__] is [_read_data_samples] followed by
    [_read_data_tensors] on the empty dictionary. *)
Lemma getitem_Ok (fuel : nat) (self : t) (idx : Z)
    (rs rs' : Random.RandomState) (item : Item) :
  __getitem__ fuel self idx rs = Ok (item, rs') ->
  exists samples,
    _read_data_samples fuel self idx rs = Ok (samples, rs') /\
    _read_data_tensors self samples ∅ = Ok item.
Proof.
  unfold __getitem__, _read_data. intros H.
  bind_inv H as built Hbuilt. destruct built as [samples rs1].
  bind_inv H as item' Hitem. injection H as <- <-. by exists samples.
Qed.

(** C5. Every item that [__getitem__] returns holds [input_ids],
    [attention_mask] and [labels] of length exactly [max_length], and
    [prompt_input_ids] and [prompt_attention_mask] of length exactly
    [max_length_prompt], whatever the length of the assembled chain. *)
Theorem C5_padding_invariant (fuel : nat) (self : t) (idx : Z)
    (rs rs' : Random.RandomState) (item : Item) :
  __getitem__ fuel self idx rs = Ok (item, rs') ->
  exists input_ids attention_mask labels prompt_input_ids
         prompt_attention_mask : Torch.Tensor,
    item !! "input_ids" = Some input_ids /\
    item !! "attention_mask" = Some attention_mask /\
    item !! "labels" = Some labels /\
    item !! "prompt_input_ids" = Some prompt_input_ids /\
    item !! "prompt_attention_mask" = Some prompt_attention_mask /\
    Py.len input_ids = Cfg.max_length (Cfg.tokenizer (cfg self)) /\
    Py.len attention_mask = Cfg.max_length (Cfg.tokenizer (cfg self)) /\
    Py.len labels = Cfg.max_length (Cfg.tokenizer (cfg self)) /\
    Py.len prompt_input_ids
      = Cfg.max_length_prompt (Cfg.tokenizer (cfg self)) /\
    Py.len prompt_attention_mask
      = Cfg.max_length_prompt (Cfg.tokenizer (cfg self)).
Proof.
  intros H. apply getitem_Ok in H as (samples & _ & H).
  apply read_data_tensors_Ok in H
    as (labels & out & ids & mask & pids & pmask & _ & Hm & Hout & Hl & Hi
        & Ha & Hpi & Hpa & Hids & Hmask & Hpids & Hpmask).
  exists ids, mask, out, pids, pmask. repeat split; try assumption.
  apply setitem_slice_from_length in Hout.
  unfold Py.len. rewrite Hout, length_replicate. lia.
Qed.

(** C3. With [add_eos_token_to_answer], the last position of the labels
    of every item holds the end-of-sequence id of the tokenizer, whatever
    the padding id, the masking of prompt labels and the truncation to
    [max_length] (the labels have a last position: [max_length >= 1]). *)
Theorem C3_eos_label_protected (fuel : nat) (self : t) (idx : Z)
    (rs rs' : Random.RandomState) (item : Item) :
  __getitem__ fuel self idx rs = Ok (item, rs') ->
  Cfg.add_eos_token_to_answer (Cfg.dataset (cfg self)) = true ->
  0 < Cfg.max_length (Cfg.tokenizer (cfg self)) ->
  exists (labels : Torch.Tensor) (eos : Z),
    item !! "labels" = Some labels /\
    TextUtils.eos_token_id (tokenizer self) = Some eos /\
    last labels = Some eos.
Proof.
  intros H Heos Hpos. apply getitem_Ok in H as (samples & _ & H).
  apply read_data_tensors_Ok in H
    as (labels & out & _ & _ & _ & _ & Hlabels & _ & Hout & Hl & _).
  apply read_data_labels_Ok in Hlabels as (pre & _ & -> & Hlast & _).
  destruct (Hlast Heos) as (eos & Heosid & Hpre).
  exists out, eos. split; [assumption|]. split; [assumption|].
  set (trunc := if _ <? _ then _ else pre) in *.
  assert (last trunc = Some eos) as Htrunc.
  { subst trunc. destruct (_ <? _); [by apply last_slice_from | assumption]. }
  apply setitem_tail in Hout as [[Hnil _]|[_ ->]].
  - apply (f_equal length) in Hnil. rewrite length_replicate in Hnil.
    simpl in Hnil. lia.
  - by rewrite last_app, Htrunc.
Qed.

(** With [mask_prompt_labels], every position of the flat sequence that
    the prompt mask marks holds the ignore value [-100] in the labels of
    the item, at the place where the right-aligned labels keep it. *)
Lemma labels_masked_where_marked (fuel : nat) (self : t) (idx : Z)
    (rs rs' : Random.RandomState) (item : Item) :
  __getitem__ fuel self idx rs = Ok (item, rs') ->
  Cfg.mask_prompt_labels (Cfg.dataset (cfg self)) = true ->
  exists (samples : list Sample) (labels : Torch.Tensor),
    _read_data_samples fuel self idx rs = Ok (samples, rs') /\
    item !! "labels" = Some labels /\
    forall i : nat,
      flat_prompt_mask samples !! i = Some true ->
      0 <= Z.of_nat i + Cfg.max_length (Cfg.tokenizer (cfg self))
             - Py.len (flat_input_ids samples) ->
      labels !! Z.to_nat (Z.of_nat i
                          + Cfg.max_length (Cfg.tokenizer (cfg self))
                          - Py.len (flat_input_ids samples))
        = Some (-100).
Proof.
  intros H Hmask. apply getitem_Ok in H as (samples & Hsamples & H).
  apply read_data_tensors_Ok in H
    as (labels & out & _ & _ & _ & _ & Hlabels & Hm & Hout & Hl & _).
  exists samples, out. split; [assumption|]. split; [assumption|].
  apply read_data_labels_Ok in Hlabels as (pre & Hlen & -> & _ & Hpre).
  specialize (Hpre Hmask (prompt_mask_last_false _ _ _ _ _ _ Hsamples)).
  intros i Hi Hkept. specialize (Hpre i Hi).
  pose proof (lookup_lt_Some _ _ _ Hpre) as Hlt.
  unfold Py.len in *. rewrite <- Hlen in *.
  set (m := Cfg.max_length (Cfg.tokenizer (cfg self))) in *.
  destruct (Z.ltb_spec m (Z.of_nat (length pre))) as [Hlong|Hshort].
  - (* the labels are truncated to the trailing [m] positions *)
    assert (0 < m) as Hpos by lia.
    unfold Py.slice_from in Hout. rewrite bound_neg in Hout by assumption.
    apply setitem_tail in Hout as [[Hnil _]|[_ ->]].
    { apply (f_equal length) in Hnil. rewrite length_replicate in Hnil.
      simpl in Hnil. lia. }
    rewrite length_replicate, length_drop.
    replace (Z.to_nat m - (length pre - (length pre - Z.to_nat m)))%nat
      with 0%nat by lia.
    rewrite take_0, app_nil_l, lookup_drop, <- Hpre. f_equal. lia.
  - (* the labels are padded on the left *)
    apply setitem_tail in Hout as [[Hnil _]|[_ ->]].
    { apply (f_equal length) in Hnil. rewrite length_replicate in Hnil.
      simpl in Hnil. lia. }
    rewrite length_replicate, lookup_app_r;
      rewrite length_take, length_replicate; [|lia].
    rewrite <- Hpre. f_equal. lia.
Qed.

(** The flat sequence has one id for each prompt id and each answer id
    of the samples. *)
Lemma flat_total (samples : list Sample) :
  length (flat_input_ids samples) = Flat.total samples.
Proof.
  unfold Flat.total. induction samples as [|s samples IH]; [reflexivity|].
  change (s :: samples) with ([s] ++ samples).
  rewrite flat_input_ids_app, flat_input_ids_singleton, !length_app, IH.
  reflexivity.
Qed.

(** The prompt mask marks the prompt ids of every sample. *)
Lemma prompt_position_marked (samples : list Sample) (i : nat) :
  Flat.prompt_position samples i ->
  flat_prompt_mask samples !! i = Some true.
Proof.
  intros (before & s & after & j & -> & Hj & ->).
  change (s :: after) with ([s] ++ after).
  rewrite !flat_prompt_mask_app, flat_prompt_mask_singleton.
  rewrite lookup_app_r
    by (rewrite flat_prompt_mask_length, flat_total; lia).
  rewrite flat_prompt_mask_length, flat_total.
  replace (Flat.total before + j - Flat.total before)%nat with j by lia.
  rewrite lookup_app_l by (rewrite length_app, !length_replicate; lia).
  rewrite lookup_app_l by (rewrite length_replicate; lia).
  by apply lookup_replicate_2.
Qed.

(** C4. With [mask_prompt_labels], every position of the flat sequence
    that is the position of a prompt id of one of the samples (the
    requested row, an ancestor or the random parent) holds the ignore
    value [-100] in the labels of the item, at the place where the
    right-aligned labels keep it; positions before the trailing
    [max_length] ones are dropped. *)
Theorem C4_prompt_labels_masked (fuel : nat) (self : t) (idx : Z)
    (rs rs' : Random.RandomState) (item : Item) :
  __getitem__ fuel self idx rs = Ok (item, rs') ->
  Cfg.mask_prompt_labels (Cfg.dataset (cfg self)) = true ->
  exists (samples : list Sample) (labels : Torch.Tensor),
    _read_data_samples fuel self idx rs = Ok (samples, rs') /\
    item !! "labels" = Some labels /\
    forall i : nat,
      Flat.prompt_position samples i ->
      0 <= Z.of_nat i + Cfg.max_length (Cfg.tokenizer (cfg self))
             - Z.of_nat (Flat.total samples) ->
      labels !! Z.to_nat (Z.of_nat i
                          + Cfg.max_length (Cfg.tokenizer (cfg self))
                          - Z.of_nat (Flat.total samples))
        = Some (-100).
Proof.
  intros H Hmask.
  destruct (labels_masked_where_marked _ _ _ _ _ _ H Hmask)
    as (samples & labels & Hsamples & Hlabels & Hmarked).
  exists samples, labels. split; [exact Hsamples|].
  split; [exact Hlabels|]. intros i Hi Hkept.
  rewrite <- flat_total in *. apply Hmarked; [|exact Hkept].
  by apply prompt_position_marked.
Qed.

End Item.

(** ** The walk over the parents *)

Section Walk.

Import CustomDataset Chain.

Variable self : t.
Variable pids : list Pandas.cell.

(** The loop stops at a row whose parent id is not mapped. *)
Lemma walk_root (fuel : nat) (i : Z) (parent_id : Pandas.cell)
    (samples : list Sample) (rs : Random.RandomState) :
  Py.index pids i = Ok parent_id ->
  df_id_to_idx self !! parent_id = None ->
  _read_data_walk (S fuel) self pids i samples rs = Ok (samples, rs).
Proof. intros Hi Hp. simpl. rewrite Hi. simpl. by rewrite Hp. Qed.

(** Outside train mode the loop moves on to a mapped parent, and leaves
    the random source alone. *)
Lemma walk_parent_validation (fuel : nat) (i : Z) (parent_id : Pandas.cell)
    (j : nat) (s : Sample) (samples : list Sample)
    (rs : Random.RandomState) :
  String.eqb (mode self) "train" = false ->
  Py.index pids i = Ok parent_id ->
  df_id_to_idx self !! parent_id = Some j ->
  _get_sample self (Z.of_nat j) = Ok s ->
  _read_data_walk (S fuel) self pids i samples rs
    = _read_data_walk fuel self pids (Z.of_nat j) (s :: samples) rs.
Proof.
  intros Hmode Hi Hp Hs. simpl. rewrite Hi. simpl.
  by rewrite Hp, Hmode, Hs.
Qed.

(** With a skip probability of zero the loop moves on to a mapped parent
    in every mode. *)
Lemma walk_parent_no_skip (fuel : nat) (i : Z) (parent_id : Pandas.cell)
    (j : nat) (s : Sample) (samples : list Sample)
    (rs : Random.RandomState) :
  (Cfg.skip_parent_probability (Cfg.augmentation (cfg self)) == 0)%Q ->
  Py.index pids i = Ok parent_id ->
  df_id_to_idx self !! parent_id = Some j ->
  _get_sample self (Z.of_nat j) = Ok s ->
  exists rs1,
    _read_data_walk (S fuel) self pids i samples rs
      = _read_data_walk fuel self pids (Z.of_nat j) (s :: samples) rs1.
Proof.
  intros Hskip Hi Hp Hs. simpl. rewrite Hi. simpl. rewrite Hp.
  destruct (String.eqb (mode self) "train").
  - pose proof (random_not_lt_zero rs _ Hskip) as Hlt.
    destruct (Random.random rs) as [x rs1]. simpl in Hlt.
    rewrite Hlt, Hs. by exists rs1.
  - rewrite Hs. by exists rs.
Qed.

(** Outside train mode the random source has no part in the walk. *)
Lemma walk_validation (fuel : nat) (i : Z) (samples : list Sample)
    (rs1 rs2 : Random.RandomState) :
  String.eqb (mode self) "train" = false ->
  _read_data_walk fuel self pids i samples rs1
    = untouched rs1 (_read_data_walk fuel self pids i samples rs2).
Proof.
  intros Hmode. revert i samples.
  induction fuel as [|fuel IH]; intros i samples; [reflexivity|].
  simpl. destruct (Py.index pids i) as [parent_id| |]; try reflexivity.
  simpl. destruct (df_id_to_idx self !! parent_id) as [j|]; [|reflexivity].
  rewrite Hmode.
  destruct (_get_sample self (Z.of_nat j)) as [s| |]; try reflexivity.
  simpl. apply IH.
Qed.

(** A chain with fewer than [n] ancestors is walked with [n] units of
    fuel, and more fuel changes nothing. *)
Lemma walk_finite (n : nat) (i : Z) (samples : list Sample)
    (rs : Random.RandomState) :
  ancestor self pids n i = None ->
  exists o,
    o <> OutOfFuel /\
    forall fuel, (n <= fuel)%nat ->
                 _read_data_walk fuel self pids i samples rs = o.
Proof.
  revert i samples rs.
  induction n as [|n IH]; intros i samples rs Hn; [discriminate|].
  simpl in Hn. unfold parent in Hn.
  assert (forall (j : nat) (rs0 : Random.RandomState),
    ancestor self pids n (Z.of_nat j) = None ->
    exists o, o <> OutOfFuel /\
      forall fuel, (n <= fuel)%nat ->
        (_get_sample self (Z.of_nat j) ≫= fun s =>
           _read_data_walk fuel self pids (Z.of_nat j) (s :: samples) rs0)
          = o) as Hnext.
  { intros j rs0 Hj.
    destruct (_get_sample self (Z.of_nat j)) as [s|e|] eqn:Hs.
    - simpl. by apply IH.
    - by exists (Raise e).
    - (* [_get_sample] has no loop *)
      unfold _get_sample in Hs.
      destruct (Py.index (prompts self) (Z.of_nat j)) as [prompt| |] eqn:Hp;
        simpl in Hs; try discriminate.
      + destruct (Py.index (answers self) (Z.of_nat j)) as [answer| |]
          eqn:Ha; simpl in Hs; try discriminate.
        * destruct (Cfg.add_eos_token_to_answer _); [|discriminate].
          by destruct (TextUtils.eos_token_id _).
        * unfold Py.index in Ha. by repeat case_match.
      + unfold Py.index in Hp. by repeat case_match. }
  destruct (Py.index pids i) as [parent_id|e|] eqn:Hi.
  - destruct (df_id_to_idx self !! parent_id) as [j|] eqn:Hp.
    + destruct (String.eqb (mode self) "train") eqn:Hmode.
      * destruct (Random.random rs) as [x rs1] eqn:Hx.
        destruct (Random.lt x
          (Cfg.skip_parent_probability (Cfg.augmentation (cfg self))))
          eqn:Hlt.
        -- exists (Ok (samples, rs1)). split; [discriminate|].
           intros [|fuel] Hfuel; [lia|]. simpl. rewrite Hi. simpl.
           by rewrite Hp, Hmode, Hx, Hlt.
        -- destruct (Hnext j rs1 Hn) as (o & Ho & Hfuel).
           exists o. split; [assumption|].
           intros [|fuel] Hle; [lia|]. simpl. rewrite Hi. simpl.
           rewrite Hp, Hmode, Hx, Hlt. apply Hfuel. lia.
      * destruct (Hnext j rs Hn) as (o & Ho & Hfuel).
        exists o. split; [assumption|].
        intros [|fuel] Hle; [lia|]. simpl. rewrite Hi. simpl.
        rewrite Hp, Hmode. apply Hfuel. lia.
    + exists (Ok (samples, rs)). split; [discriminate|].
      intros [|fuel] Hfuel; [lia|]. by eapply walk_root.
  - exists (Raise e). split; [discriminate|].
    intros [|fuel] Hfuel; [lia|]. simpl. by rewrite Hi.
  - unfold Py.index in Hi. by repeat case_match.
Qed.

(** In a well-formed dataset the walk of a finite chain returns the list
    of samples: no access is out of range, no row fails to be encoded. *)
Lemma walk_finite_Ok (n : nat) (i : Z) (samples : list Sample)
    (rs : Random.RandomState) :
  well_formed self pids ->
  (exists parent_id, Py.index pids i = Ok parent_id) ->
  ancestor self pids n i = None ->
  exists result,
    forall fuel, (n <= fuel)%nat ->
                 _read_data_walk fuel self pids i samples rs = Ok result.
Proof.
  intros [Henc Hrange]. revert i samples rs.
  induction n as [|n IH]; intros i samples rs [parent_id Hi] Hn;
    [discriminate|].
  simpl in Hn. unfold parent in Hn. rewrite Hi in Hn.
  destruct (df_id_to_idx self !! parent_id) as [j|] eqn:Hp.
  2:{ exists (samples, rs). intros [|fuel] Hfuel; [lia|].
      by eapply walk_root. }
  destruct (Henc _ _ Hp) as [s Hs].
  assert (exists p, Py.index pids (Z.of_nat j) = Ok p) as Hj.
  { apply index_in_range. apply Hrange in Hp. unfold Py.len. lia. }
  destruct (String.eqb (mode self) "train") eqn:Hmode.
  - destruct (Random.random rs) as [x rs1] eqn:Hx.
    destruct (Random.lt x
      (Cfg.skip_parent_probability (Cfg.augmentation (cfg self))))
      eqn:Hlt.
    + exists (samples, rs1). intros [|fuel] Hfuel; [lia|].
      simpl. rewrite Hi. simpl. by rewrite Hp, Hmode, Hx, Hlt.
    + destruct (IH (Z.of_nat j) (s :: samples) rs1 Hj Hn)
        as [result Hresult].
      exists result. intros [|fuel] Hfuel; [lia|].
      simpl. rewrite Hi. simpl. rewrite Hp, Hmode, Hx, Hlt, Hs.
      apply Hresult. lia.
  - destruct (IH (Z.of_nat j) (s :: samples) rs Hj Hn) as [result Hresult].
    exists result. intros [|fuel] Hfuel; [lia|].
    rewrite (walk_parent_validation fuel i parent_id j s) by assumption.
    apply Hresult. lia.
Qed.

Lemma ancestor_add (a b : nat) (i : Z) :
  ancestor self pids (a + b) i
    = ancestor self pids a i ≫= ancestor self pids b.
Proof.
  revert i. induction a as [|a IH]; intros i; [reflexivity|].
  simpl. destruct (parent self pids i); [apply IH | reflexivity].
Qed.

Lemma ancestor_prefix (n m : nat) (i j : Z) :
  ancestor self pids n i = Some j -> (m <= n)%nat ->
  is_Some (ancestor self pids m i).
Proof.
  intros Hn Hm. replace n with (m + (n - m))%nat in Hn by lia.
  rewrite ancestor_add in Hn.
  destruct (ancestor self pids m i); [eauto | discriminate].
Qed.

(** A chain that runs into a cycle has ancestors of every degree. *)
Lemma cyclic_endless (i : Z) :
  cyclic self pids i -> forall m, is_Some (ancestor self pids m i).
Proof.
  intros (k & j & p & Hk & Hp & Hcycle).
  assert (forall m, is_Some (ancestor self pids m j)) as Hj.
  { intros m. induction (lt_wf m) as [m _ IH].
    destruct (Nat.le_gt_cases m p) as [Hle|Hgt].
    - by eapply ancestor_prefix.
    - replace m with (p + (m - p))%nat by lia.
      rewrite ancestor_add, Hcycle. simpl. apply IH. lia. }
  intros m. destruct (Nat.le_gt_cases m k) as [Hle|Hgt].
  - by eapply ancestor_prefix.
  - replace m with (k + (m - k))%nat by lia.
    rewrite ancestor_add, Hk. simpl. apply Hj.
Qed.

(** Outside train mode the loop never leaves a chain that has ancestors
    of every degree. *)
Lemma walk_endless (fuel : nat) (i : Z) (samples : list Sample)
    (rs : Random.RandomState) :
  String.eqb (mode self) "train" = false ->
  rows_encodable self ->
  (forall m, is_Some (ancestor self pids m i)) ->
  _read_data_walk fuel self pids i samples rs = OutOfFuel.
Proof.
  intros Hmode Henc. revert i samples.
  induction fuel as [|fuel IH]; intros i samples Hi; [reflexivity|].
  pose proof (Hi 1%nat) as [j1 H1]. simpl in H1.
  destruct (parent self pids i) as [j|] eqn:Hparent; [|discriminate].
  unfold parent in Hparent.
  destruct (Py.index pids i) as [parent_id| |] eqn:Hindex;
    try discriminate.
  destruct (Henc _ _ Hparent) as [s Hs].
  rewrite (walk_parent_validation fuel i parent_id j s) by assumption.
  apply IH. intros m. specialize (Hi (S m)). simpl in Hi.
  unfold parent in Hi. by rewrite Hindex, Hparent in Hi.
Qed.

End Walk.

(** ** Construction of the dataset *)

Section Init.

Import Pandas CustomDataset Chain.

Lemma values_Ok (df : DataFrame) (c : string) (l : list cell) :
  values df c = Ok l -> l = (fun r => r c) <$> rows df.
Proof. unfold values. destruct (has_column df c); congruence. Qed.

Lemma get_texts_length (df : DataFrame) (cfg : Cfg.t)
    (separator : option string) (texts : list string) :
  TextUtils.get_texts df cfg separator = Ok texts ->
  length texts = length (rows df).
Proof.
  unfold TextUtils.get_texts. intros H.
  destruct (Cfg.prompt_column (Cfg.dataset cfg)) as [c|cs].
  - bind_inv H as cells Hcells. apply values_Ok in Hcells as ->.
    injection H as <-. by rewrite !length_fmap.
  - bind_inv H as cells Hcells. injection H as <-. by rewrite length_fmap.
Qed.

(** The column has a missing value exactly when [dropna] drops a row. *)
Lemma dropna_complete (df : DataFrame) (c : string) :
  shape0 df = Py.len (dropna df c) <->
  Forall (fun r : string -> cell => is_Some (r c)) (rows df).
Proof.
  unfold shape0, dropna, Py.len. rewrite Nat2Z.inj_iff.
  induction (rows df) as [|r l IH].
  - split; [constructor | reflexivity].
  - rewrite fmap_cons, filter_cons, Forall_cons.
    pose proof (length_filter is_Some
      ((fun r : string -> cell => r c) <$> l)) as Hle.
    rewrite length_fmap in Hle.
    destruct (decide (is_Some (r c))) as [Hr|Hr]; simpl length.
    + rewrite Nat.succ_inj_wd, IH. tauto.
    + split; [lia | tauto].
Qed.

(** The rows that the id-to-index map points to are rows of the frame. *)
Lemma id_to_idx_lt (ids : list cell) (k : cell) (j : nat) :
  id_to_idx ids !! k = Some j -> (j < length ids)%nat.
Proof.
  unfold id_to_idx.
  assert (forall (l : list (nat * cell)) (m : gmap cell nat),
    Forall (fun kv => (kv.1 < length ids)%nat) l ->
    (forall k j, m !! k = Some j -> (j < length ids)%nat) ->
    forall k j,
      foldl (fun (m : gmap cell nat) (kv : nat * cell) => <[kv.2 := kv.1]> m)
        m l !! k = Some j ->
      (j < length ids)%nat) as Hfold.
  { induction l as [|[i v] l IH]; intros m Hl Hm; [exact Hm|].
    apply Forall_cons in Hl as [Hi Hl]. simpl. apply IH; [assumption|].
    intros k' j'. rewrite lookup_insert.
    destruct (decide (v = k')); [|by apply Hm].
    intros [= <-]. exact Hi. }
  apply Hfold.
  - apply Forall_forall. intros [i v] Hin. apply elem_of_zip_l in Hin.
    apply elem_of_seq in Hin. simpl. lia.
  - intros k' j'. by rewrite lookup_empty.
Qed.

(** What a constructed dataset holds. *)
Lemma init_Ok (codec : string -> option string)
    (pretrained : TextUtils.Tokenizer) (df0 : DataFrame) (cfg0 : Cfg.t)
    (mode0 : string) (self : t) :
  __init__ codec pretrained df0 cfg0 mode0 = Ok self ->
  mode0 ∈ ["train"; "validation"] /\
  has_column df0 (Cfg.answer_column (Cfg.dataset cfg0)) = true /\
  shape0 df0 = Py.len (dropna df0 (Cfg.answer_column (Cfg.dataset cfg0))) /\
  mode self = mode0 /\
  df self = df0 /\
  tokenizer self = (TextUtils.get_tokenizer pretrained cfg0).1 /\
  cfg self = (TextUtils.get_tokenizer pretrained cfg0).2 /\
  length (prompts self) = length (rows df0) /\
  answers self
    = astype_str
        <$> ((fun r => r (Cfg.answer_column (Cfg.dataset cfg0)))
               <$> rows df0) /\
  (forall k j, df_id_to_idx self !! k = Some j ->
               (j < length (rows df0))%nat) /\
  (forall pids, parent_ids self = Some pids ->
                length pids = length (rows df0)).
Proof.
  unfold __init__. intros H.
  destruct (bool_decide (mode0 ∈ ["train"; "validation"])) eqn:Hmode;
    [|discriminate].
  apply bool_decide_eq_true in Hmode. cbn [negb] in H.
  destruct (has_column df0 (Cfg.answer_column (Cfg.dataset cfg0)))
    eqn:Hcol; [|discriminate]. cbn [negb orb] in H.
  destruct (shape0 df0 =? Py.len (dropna df0 _)) eqn:Hmissing;
    [|discriminate]. cbn [negb orb] in H.
  apply Z.eqb_eq in Hmissing.
  destruct (TextUtils.get_tokenizer pretrained cfg0) as [tk cfg1] eqn:Htk.
  bind_inv H as texts Htexts. apply get_texts_length in Htexts.
  bind_inv H as cells Hcells. apply values_Ok in Hcells as ->.
  bind_inv H as parents Hparents. destruct parents as [parents map].
  bind_inv H as parsed Hparsed. apply mapM_Ok_length in Hparsed.
  bind_inv H as logged Hlogged. injection H as <-.
  cbn [mode df tokenizer cfg prompts answers df_id_to_idx parent_ids
         fst snd].
  assert (Cfg.dataset cfg1 = Cfg.dataset cfg0) as Hds.
  { unfold TextUtils.get_tokenizer in Htk. injection Htk as _ <-.
    by destruct (TextUtils.has_separator cfg0). }
  rewrite Hds in Hparents.
  assert ((forall k j, map !! k = Some j -> (j < length (rows df0))%nat) /\
          (forall pids, parents = Some pids ->
                        length pids = length (rows df0))) as [Hmap Hpids].
  { destruct (negb (String.eqb _ "None")).
    - destruct (negb (has_column df0 "id")).
      + injection Hparents as <- <-. split; [|discriminate].
        intros k j. by rewrite lookup_empty.
      + bind_inv Hparents as pcells Hpcells.
        apply values_Ok in Hpcells as ->.
        bind_inv Hparents as ids Hids. apply values_Ok in Hids as ->.
        injection Hparents as <- <-. split.
        * intros k j Hk. apply id_to_idx_lt in Hk.
          by rewrite length_fmap in Hk.
        * intros pids [= <-]. by rewrite length_fmap.
    - injection Hparents as <- <-. split; [|discriminate].
      intros k j. by rewrite lookup_empty. }
  repeat split; try done; try congruence.
Qed.

(** A row of the dataset can be encoded, if the tokenizer has the
    end-of-sequence id that [add_eos_token_to_answer] asks for. *)
Lemma get_sample_in_range (self : t) (j : nat) :
  (j < length (prompts self))%nat ->
  (j < length (answers self))%nat ->
  (Cfg.add_eos_token_to_answer (Cfg.dataset (cfg self)) = true ->
   is_Some (TextUtils.eos_token_id (tokenizer self))) ->
  exists s, _get_sample self (Z.of_nat j) = Ok s.
Proof.
  intros Hp Ha Heos. unfold _get_sample.
  destruct (index_in_range (prompts self) (Z.of_nat j)) as [p ->];
    [unfold Py.len; lia|].
  destruct (index_in_range (answers self) (Z.of_nat j)) as [a ->];
    [unfold Py.len; lia|].
  simpl. destruct (Cfg.add_eos_token_to_answer _); [|by eauto].
  destruct (Heos eq_refl) as [eos ->]. simpl. by eauto.
Qed.

(** In a constructed dataset every mapped row can be encoded. *)
Lemma init_rows_encodable (codec : string -> option string)
    (pretrained : TextUtils.Tokenizer) (df0 : DataFrame) (cfg0 : Cfg.t)
    (mode0 : string) (self : t) :
  __init__ codec pretrained df0 cfg0 mode0 = Ok self ->
  (Cfg.add_eos_token_to_answer (Cfg.dataset (cfg self)) = true ->
   is_Some (TextUtils.eos_token_id (tokenizer self))) ->
  rows_encodable self.
Proof.
  intros H Heos.
  apply init_Ok in H as (_ & _ & _ & _ & _ & _ & _ & Hp & Ha & Hmap & _).
  intros k j Hk. apply Hmap in Hk.
  apply get_sample_in_range; [lia| |assumption].
  by rewrite Ha, !length_fmap.
Qed.

(** A constructed dataset is well formed. *)
Lemma init_well_formed (codec : string -> option string)
    (pretrained : TextUtils.Tokenizer) (df0 : DataFrame) (cfg0 : Cfg.t)
    (mode0 : string) (self : t) (pids : list cell) :
  __init__ codec pretrained df0 cfg0 mode0 = Ok self ->
  parent_ids self = Some pids ->
  (Cfg.add_eos_token_to_answer (Cfg.dataset (cfg self)) = true ->
   is_Some (TextUtils.eos_token_id (tokenizer self))) ->
  well_formed self pids.
Proof.
  intros H Hpids Heos. split; [by eapply init_rows_encodable|].
  apply init_Ok in H as (_ & _ & _ & _ & _ & _ & _ & _ & _ & Hmap & Hlen).
  intros k j Hk. rewrite (Hlen _ Hpids). by eapply Hmap.
Qed.

End Init.

(** ** Items are returned *)

Section Returns.

Import Pandas CustomDataset Chain.

Lemma setitem_tail_Ok (t v : Torch.Tensor) :
  (0 < length v <= length t)%nat ->
  Torch.setitem_slice_from t (- Py.len v) v
    = Ok (take (length t - length v) t ++ v).
Proof.
  intros Hv. unfold Torch.setitem_slice_from, Py.len.
  rewrite bound_neg by lia. rewrite Nat2Z.id.
  replace (length t - (length t - length v))%nat with (length v) by lia.
  by rewrite Nat.eqb_refl.
Qed.

Lemma pad_tokens_returns (input_ids attention_mask : Torch.Tensor)
    (max_length pad : Z) (prefix : string) :
  input_ids <> [] ->
  length attention_mask = length input_ids ->
  1 <= max_length ->
  exists item,
    pad_tokens input_ids attention_mask max_length (Some pad) prefix
      = Ok item.
Proof.
  intros Hne Hmask Hm. unfold pad_tokens.
  assert (0 < length input_ids)%nat as Hpos
    by (destruct input_ids; [done | simpl; lia]).
  assert (forall ids mask : Torch.Tensor,
    (0 < length ids <= Z.to_nat max_length)%nat ->
    length mask = length ids ->
    exists item,
      (pad' ← from_option Ok (Raise TypeError) (Some pad);
       t ← Torch.full max_length pad';
       t ← Torch.setitem_slice_from t (- Py.len ids) ids;
       let sample : Item := <[prefix +:+ "input_ids" := t]> ∅ in
       m ← Torch.zeros max_length;
       m ← Torch.setitem_slice_from m (- Py.len ids) mask;
       let sample := <[prefix +:+ "attention_mask" := m]> sample in
       Ok sample) = Ok item) as Hpad.
  { intros ids mask Hids Hlen.
    unfold Torch.zeros, Torch.full.
    destruct (Z.ltb_spec max_length 0) as [?|_]; [lia|].
    cbn [from_option mbind outcome_bind].
    rewrite setitem_tail_Ok by (rewrite length_replicate; lia).
    cbn [mbind outcome_bind].
    replace (Py.len ids) with (Py.len mask) by (unfold Py.len; lia).
    rewrite setitem_tail_Ok by (rewrite length_replicate; lia).
    by eexists. }
  destruct (Z.ltb_spec max_length (Py.len input_ids)) as [Hlong|Hshort].
  - apply Hpad; unfold Py.slice_from, Py.len in *;
      rewrite !bound_neg by lia; rewrite !length_drop; lia.
  - apply Hpad; unfold Py.len in *; lia.
Qed.

Lemma clear_last_answer_snoc (pre : list Sample) (s : Sample) :
  clear_last_answer (pre ++ [s]) = Ok (pre ++ [(s.1, [])]).
Proof.
  induction pre as [|s0 pre IH]; [reflexivity|].
  simpl. rewrite IH. by destruct (pre ++ [s]) eqn:E;
    [destruct pre; discriminate|].
Qed.

(** The tensors of a list of samples are built, when the context lengths
    are positive, the special token ids are there and the prompt of the
    last sample is not empty. *)
Lemma read_data_tensors_returns (self : t) (pre : list Sample) (s : Sample)
    (sample : Item) :
  1 <= Cfg.max_length (Cfg.tokenizer (cfg self)) ->
  1 <= Cfg.max_length_prompt (Cfg.tokenizer (cfg self)) ->
  is_Some (TextUtils.pad_token_id (tokenizer self)) ->
  (Cfg.add_eos_token_to_answer (Cfg.dataset (cfg self)) = true ->
   is_Some (TextUtils.eos_token_id (tokenizer self))) ->
  s.1 <> [] ->
  exists item, _read_data_tensors self (pre ++ [s]) sample = Ok item.
Proof.
  intros Hm Hmp [pad Hpad] Heos Hs.
  assert (flat_input_ids (pre ++ [s]) <> []) as Hflat.
  { rewrite flat_input_ids_app, flat_input_ids_singleton.
    destruct s as [[|x p] a]; [done|]. by destruct (flat_input_ids pre). }
  assert (flat_input_ids (pre ++ [(s.1, [])]) <> []) as Hprompt.
  { rewrite flat_input_ids_app, flat_input_ids_singleton.
    destruct s as [[|x p] a]; [done|]. by destruct (flat_input_ids pre). }
  assert (0 < length (flat_input_ids (pre ++ [s])))%nat as Hpos
    by (destruct (flat_input_ids (pre ++ [s])); [done | simpl; lia]).
  assert (exists labels, _read_data_labels self (pre ++ [s]) = Ok labels)
    as [labels Hlabels].
  { unfold _read_data_labels.
    set (masked := if Cfg.mask_prompt_labels _ then _ else _).
    assert (length masked = length (flat_input_ids (pre ++ [s]))) as Hlen.
    { subst masked. destruct (Cfg.mask_prompt_labels _); [|reflexivity].
      unfold Torch.masked_fill.
      rewrite length_zip_with, flat_prompt_mask_length. lia. }
    destruct (Cfg.add_eos_token_to_answer _).
    - destruct (Heos eq_refl) as [eos ->].
      cbn [from_option mbind outcome_bind]. unfold Torch.setitem, Py.len.
      change (-1 <? 0) with true. cbv iota.
      destruct (Z.ltb_spec (Z.of_nat (length masked) + -1) 0); [lia|].
      destruct (Z.leb_spec (Z.of_nat (length masked))
                  (Z.of_nat (length masked) + -1)); [lia|].
      cbn [orb mbind outcome_bind]. destruct (_ <? _); by eexists.
    - cbn [mbind outcome_bind]. destruct (_ <? _); by eexists. }
  unfold _read_data_tensors. rewrite Hlabels. cbn [mbind outcome_bind].
  apply read_data_labels_Ok in Hlabels as (labels0 & Hlen0 & -> & _).
  unfold Torch.full at 1.
  destruct (Z.ltb_spec (Cfg.max_length (Cfg.tokenizer (cfg self))) 0)
    as [?|_]; [lia|].
  cbn [mbind outcome_bind].
  rewrite setitem_tail_Ok.
  2:{ rewrite length_replicate. unfold Py.len, Py.slice_from.
      destruct (_ <? _) eqn:Hlong;
        [apply Z.ltb_lt in Hlong; rewrite bound_neg by lia;
         rewrite length_drop
        |apply Z.ltb_ge in Hlong]; lia. }
  cbn [mbind outcome_bind].
  destruct (pad_tokens_returns (flat_input_ids (pre ++ [s]))
              (Torch.ones_like (flat_input_ids (pre ++ [s])))
              (Cfg.max_length (Cfg.tokenizer (cfg self))) pad "")
    as [padded Hpadded]; [assumption|apply length_replicate|assumption|].
  rewrite Hpad, Hpadded. cbn [mbind outcome_bind].
  rewrite clear_last_answer_snoc. cbn [mbind outcome_bind].
  destruct (pad_tokens_returns (flat_input_ids (pre ++ [(s.1, [])]))
              (Torch.ones_like (flat_input_ids (pre ++ [(s.1, [])])))
              (Cfg.max_length_prompt (Cfg.tokenizer (cfg self))) pad
              "prompt_")
    as [padded' Hpadded']; [assumption|apply length_replicate|assumption|].
  rewrite Hpadded'. by eexists.
Qed.

(** A constructed dataset returns the item of every row whose chain of
    ancestors is finite, given enough fuel: the list of samples is built
    in every mode and for every state of the random source, and the
    tensors are built from it. *)
Lemma getitem_total (codec : string -> option string)
    (pretrained : TextUtils.Tokenizer) (df0 : DataFrame) (cfg0 : Cfg.t)
    (mode0 : string) (self : t) (idx : Z) :
  __init__ codec pretrained df0 cfg0 mode0 = Ok self ->
  0 <= idx < __len__ self ->
  (forall pids, parent_ids self = Some pids -> finite self pids idx) ->
  1 <= Cfg.max_length (Cfg.tokenizer (cfg self)) ->
  1 <= Cfg.max_length_prompt (Cfg.tokenizer (cfg self)) ->
  is_Some (TextUtils.pad_token_id (tokenizer self)) ->
  (Cfg.add_eos_token_to_answer (Cfg.dataset (cfg self)) = true ->
   is_Some (TextUtils.eos_token_id (tokenizer self))) ->
  (forall s, _get_sample self idx = Ok s -> s.1 <> []) ->
  exists n, forall fuel rs, (n <= fuel)%nat ->
    exists item rs', __getitem__ fuel self idx rs = Ok (item, rs').
Proof.
  intros Hinit Hidx Hfinite Hm Hmp Hpad Heos Hprompt.
  pose proof (init_Ok _ _ _ _ _ _ Hinit)
    as (_ & _ & _ & _ & Hdf & _ & _ & Hp & Ha & _ & Hlen).
  assert (forall j : Z, 0 <= j < __len__ self ->
                        exists s, _get_sample self j = Ok s) as Hrows.
  { intros j Hj. unfold __len__, shape0, Py.len in Hj. rewrite Hdf in Hj.
    rewrite <- (Z2Nat.id j) by lia.
    apply get_sample_in_range; [lia| |assumption].
    rewrite Ha, !length_fmap. lia. }
  destruct (Hrows idx Hidx) as [s0 Hs0].
  assert (exists n, forall fuel rs, (n <= fuel)%nat ->
            exists walked,
              match parent_ids self with
              | Some pids => _read_data_walk fuel self pids idx [s0] rs
              | None => Ok ([s0], rs)
              end = Ok walked) as [n Hwalk].
  { destruct (parent_ids self) as [pids|] eqn:Hpids.
    - destruct (Hfinite pids eq_refl) as [n Hn]. exists n.
      intros fuel rs Hfuel.
      destruct (walk_finite_Ok self pids n idx [s0] rs) as [result Hresult];
        [by eapply init_well_formed| |assumption|].
      + apply index_in_range. unfold __len__, shape0, Py.len in *.
        rewrite (Hlen pids eq_refl), <- Hdf. lia.
      + exists result. by apply Hresult.
    - exists 0%nat. intros fuel rs _. by eexists. }
  exists n. intros fuel rs Hfuel.
  assert (exists samples rs',
            _read_data_samples fuel self idx rs = Ok (samples, rs'))
    as (samples & rs' & Hsamples).
  { unfold _read_data_samples. rewrite Hs0. cbn [mbind outcome_bind].
    destruct (Hwalk fuel rs Hfuel) as [[samples rs1] ->].
    cbn [mbind outcome_bind].
    destruct (String.eqb (mode self) "train"); [|by eexists _, _].
    destruct (Random.random rs1) as [x rs2].
    destruct (Random.lt x _); [|by eexists _, _].
    destruct (randint_Ok rs2 (__len__ self)) as (r & rs3 & -> & Hr); [lia|].
    cbn [mbind outcome_bind]. destruct (Hrows r Hr) as [sr ->].
    by eexists _, _. }
  pose proof (read_data_samples_Ok _ _ _ _ _ _ Hsamples)
    as (pre & s & -> & Hs & _).
  destruct (read_data_tensors_returns self pre s ∅) as [item Hitem];
    try assumption; [by apply Hprompt|].
  exists item, rs'. unfold __getitem__, _read_data.
  rewrite Hsamples. cbn [mbind outcome_bind]. by rewrite Hitem.
Qed.

End Returns.

(** ** Properties of the chain of samples *)

Section Chains.

Import Pandas CustomDataset Chain.

(** With a probability of zero no random parent is put in front. *)
Lemma no_random_parent (self : t) (samples : list Sample)
    (rs : Random.RandomState) :
  (Cfg.random_parent_probability (Cfg.augmentation (cfg self)) == 0)%Q ->
  exists rs',
    (if String.eqb (mode self) "train" then
       let '(x, rs) := Random.random rs in
       if Random.lt x
            (Cfg.random_parent_probability (Cfg.augmentation (cfg self)))
       then
         '(rnd_idx, rs) ← Random.randint rs (__len__ self);
         s ← _get_sample self rnd_idx;
         Ok (s :: samples, rs)
       else Ok (samples, rs)
     else Ok (samples, rs)) = Ok (samples, rs').
Proof.
  intros Hp. destruct (String.eqb (mode self) "train"); [|by exists rs].
  pose proof (random_not_lt_zero rs _ Hp) as Hlt.
  destruct (Random.random rs) as [x rs1]. simpl in Hlt. rewrite Hlt.
  by exists rs1.
Qed.

(** C10. In validation mode the item is a function of the dataset and of
    the index: a call returns what any other call returns, whatever the
    state of the random source, and leaves the random source as it found
    it. *)
Theorem C10_validation_deterministic (fuel : nat) (self : t) (idx : Z)
    (rs1 rs2 : Random.RandomState) :
  mode self = "validation" ->
  __getitem__ fuel self idx rs1
    = untouched rs1 (__getitem__ fuel self idx rs2).
Proof.
  intros Hmode.
  assert (String.eqb (mode self) "train" = false) as Htrain
    by (by rewrite Hmode).
  unfold __getitem__, _read_data, _read_data_samples. rewrite Htrain.
  destruct (_get_sample self idx) as [s| |]; try reflexivity.
  cbn [mbind outcome_bind].
  destruct (parent_ids self) as [pids|].
  - rewrite (walk_validation self pids fuel idx [s] rs1 rs2 Htrain).
    destruct (_read_data_walk fuel self pids idx [s] rs2)
      as [[samples rs]| |]; try reflexivity.
    cbn [untouched mbind outcome_bind].
    by destruct (_read_data_tensors self samples ∅).
  - cbn [mbind outcome_bind].
    by destruct (_read_data_tensors self [s] ∅).
Qed.

(** An instance of C10: the last row of the conversation, read twice. *)
Lemma C10_validation_deterministic_example :
  __getitem__ 5 Example.conversation_validation 2 Example.random_state
    = untouched Example.random_state
        (__getitem__ 5 Example.conversation_validation 2
           (Random.mkRandomState (fun _ => 0%N) 9)).
Proof.
  apply (C10_validation_deterministic 5 Example.conversation_validation 2
           Example.random_state (Random.mkRandomState (fun _ => 0%N) 9)).
  vm_compute. reflexivity.
Defined.

(** C6. The walk over the parents ends for every row whose chain of
    ancestors under the id-to-index map is finite: some amount of fuel
    and any larger amount give one outcome, which is a result or an
    exception, and a result in a well-formed dataset. If the chain runs
    into a cycle, no row has a missing id (so that a missing parent id
    is mapped to no row), the dataset is in validation mode and its rows
    can be encoded, no amount of fuel gets the walk, or [__getitem__],
    out of the loop. *)
Theorem C6_parent_walk_termination (self : t) (pids : list cell) (idx : Z) :
  parent_ids self = Some pids ->
  (finite self pids idx ->
   exists n, forall samples rs, exists o,
     o <> OutOfFuel /\
     (forall fuel, (n <= fuel)%nat ->
                   _read_data_walk fuel self pids idx samples rs = o) /\
     (well_formed self pids ->
      (exists parent_id, Py.index pids idx = Ok parent_id) ->
      exists result, o = Ok result)) /\
  (cyclic self pids idx ->
   df_id_to_idx self !! None = None ->
   mode self = "validation" ->
   rows_encodable self ->
   forall fuel samples rs,
     _read_data_walk fuel self pids idx samples rs = OutOfFuel /\
     ((exists s, _get_sample self idx = Ok s) ->
      __getitem__ fuel self idx rs = OutOfFuel)).
Proof.
  intros Hpids. split.
  - intros [n Hn]. exists n. intros samples rs.
    destruct (walk_finite self pids n idx samples rs Hn) as (o & Ho & Hfuel).
    exists o. split; [assumption|]. split; [assumption|].
    intros Hwf Hidx.
    destruct (walk_finite_Ok self pids n idx samples rs Hwf Hidx Hn)
      as [result Hresult].
    exists result. rewrite <- (Hfuel n), <- (Hresult n); [reflexivity|lia..].
  - intros Hcyclic _ Hmode Henc fuel samples rs.
    assert (String.eqb (mode self) "train" = false) as Htrain
      by (by rewrite Hmode).
    pose proof (cyclic_endless self pids idx Hcyclic) as Hendless.
    split; [by apply walk_endless|].
    intros [s Hs]. unfold __getitem__, _read_data, _read_data_samples.
    rewrite Hs, Hpids. cbn [mbind outcome_bind].
    by rewrite (walk_endless self pids fuel idx [s] rs Htrain Henc).
Qed.

End Chains.

(** ** The check of the answer column *)

Section AnswerColumn.

Import Pandas CustomDataset Chain.

Variable codec : string -> option string.
Variable pretrained : TextUtils.Tokenizer.

Lemma mapM_Raise {A B : Type} (f : A -> outcome B) (l : list A) (e : exn) :
  mapM f l = Raise e -> exists x, f x = Raise e.
Proof.
  induction l as [|x l IH]; simpl; intros H; [discriminate|].
  apply bind_Raise in H as [H|(y & _ & H)]; [by exists x|].
  apply bind_Raise in H as [H|(ys & _ & H)]; [by apply IH | discriminate].
Qed.

Lemma values_Raise (df : DataFrame) (c : string) (e : exn) :
  values df c = Raise e -> e = KeyError c.
Proof. unfold values. destruct (has_column df c); congruence. Qed.

Lemma get_texts_Raise (df : DataFrame) (cfg : Cfg.t)
    (separator : option string) (e : exn) :
  TextUtils.get_texts df cfg separator = Raise e -> exists c, e = KeyError c.
Proof.
  unfold TextUtils.get_texts. intros H.
  destruct (Cfg.prompt_column (Cfg.dataset cfg)) as [c|cs].
  - apply bind_Raise in H as [H|(cells & _ & H)]; [|discriminate].
    apply values_Raise in H. by exists c.
  - apply bind_Raise in H as [H|(cells & _ & H)]; [|discriminate].
    apply mapM_Raise in H as [c H]. apply values_Raise in H. by exists c.
Qed.

Lemma parse_prompt_Raise (cfg : Cfg.t) (prompt : string) (e : exn) :
  parse_prompt codec cfg prompt = Raise e ->
  e = UnicodeDecodeError \/ e = TypeError \/ e = AttributeError.
Proof.
  unfold parse_prompt. intros H.
  apply bind_Raise in H as [H|(start & _ & H)].
  { destruct (codec _); simpl in H; [discriminate|]. left. congruence. }
  apply bind_Raise in H as [H|(prompt' & _ & H)].
  { destruct (Cfg.add_eos_token_to_prompt _); [|discriminate].
    destruct (Cfg._tokenizer_eos_token cfg) as [[eos|]|];
      [discriminate| |]; right; [left|right]; congruence. }
  apply bind_Raise in H as [H|(sep & _ & H)]; [|discriminate].
  destruct (codec _); simpl in H; [discriminate|]. left. congruence.
Qed.

Lemma index_Raise {A : Type} (l : list A) (i : Z) (e : exn) :
  Py.index l i = Raise e -> e = IndexError.
Proof. unfold Py.index. intros H. repeat case_match; congruence. Qed.

(** The two conditions that the constructor tests. *)
Lemma unusable_iff (df0 : DataFrame) (cfg0 : Cfg.t) :
  answer_column_unusable df0 cfg0 <->
  has_column df0 (Cfg.answer_column (Cfg.dataset cfg0)) = false \/
  (shape0 df0 =? Py.len (dropna df0 (Cfg.answer_column (Cfg.dataset cfg0))))
    = false.
Proof.
  unfold answer_column_unusable, has_column.
  rewrite bool_decide_eq_false, Z.eqb_neq, dropna_complete.
  apply or_iff_compat_l. split.
  - intros (r & Hr & Hnone) Hall.
    rewrite Forall_forall in Hall. destruct (Hall r Hr) as [a Ha].
    congruence.
  - intros Hnot. apply not_Forall_Exists in Hnot; [|apply _].
    apply Exists_exists in Hnot as (r & Hr & Hnone).
    exists r. split; [assumption|]. simpl in Hnone.
    destruct (r _); [|reflexivity]. exfalso. apply Hnone. by eexists.
Qed.

(** A failed check aborts the construction with a [ValueError]. *)
Lemma init_check_failed (df0 : DataFrame) (cfg0 : Cfg.t) (mode0 : string) :
  mode0 ∈ ["train"; "validation"] ->
  answer_column_unusable df0 cfg0 ->
  exists msg,
    __init__ codec pretrained df0 cfg0 mode0 = Raise (ValueError msg).
Proof.
  intros Hmode Hbad. apply unusable_iff in Hbad. unfold __init__.
  rewrite bool_decide_eq_true_2 by assumption. cbn [negb].
  destruct (has_column df0 _); cbn [negb orb]; [|by eexists].
  destruct Hbad as [Hbad|Hbad]; [discriminate|].
  rewrite Hbad. cbn [negb orb]. by eexists.
Qed.

(** No later step of the construction raises a [ValueError]. *)
Lemma init_ValueError (df0 : DataFrame) (cfg0 : Cfg.t) (mode0 msg : string) :
  __init__ codec pretrained df0 cfg0 mode0 = Raise (ValueError msg) ->
  answer_column_unusable df0 cfg0.
Proof.
  intros H. apply unusable_iff. unfold __init__ in H.
  destruct (bool_decide (mode0 ∈ ["train"; "validation"]));
    cbn [negb] in H; [|discriminate].
  destruct (has_column df0 _); cbn [negb orb] in H; [|by left].
  destruct (shape0 df0 =? _); cbn [negb orb] in H; [|by right].
  exfalso.
  destruct (TextUtils.get_tokenizer pretrained cfg0) as [tk cfg1].
  apply bind_Raise in H as [H|(texts & _ & H)].
  { by apply get_texts_Raise in H as [c H]. }
  apply bind_Raise in H as [H|(cells & _ & H)].
  { by apply values_Raise in H. }
  apply bind_Raise in H as [H|([parents map] & _ & H)].
  { destruct (negb (String.eqb _ "None")); [|discriminate].
    destruct (negb (has_column df0 "id")); [discriminate|].
    apply bind_Raise in H as [H|(pcells & _ & H)].
    { by apply values_Raise in H. }
    apply bind_Raise in H as [H|(ids & _ & H)]; [|discriminate].
    by apply values_Raise in H. }
  apply bind_Raise in H as [H|(parsed & _ & H)].
  { apply mapM_Raise in H as [prompt H].
    by apply parse_prompt_Raise in H as [H|[H|H]]. }
  apply bind_Raise in H as [H|(logged & _ & H)]; [|discriminate].
  destruct (Cfg._local_rank cfg1 =? 0); [|discriminate].
  by apply index_Raise in H.
Qed.

(** The message of a failed check says what is wrong with the column. *)
Lemma init_check_message (df0 : DataFrame) (cfg0 : Cfg.t) (mode0 : string) :
  mode0 ∈ ["train"; "validation"] ->
  (Cfg.answer_column (Cfg.dataset cfg0) ∉ columns df0 ->
   __init__ codec pretrained df0 cfg0 mode0
     = Raise (ValueError
                (message_absent mode0
                   (Cfg.answer_column (Cfg.dataset cfg0))))) /\
  (Cfg.answer_column (Cfg.dataset cfg0) ∈ columns df0 ->
   (exists r, r ∈ rows df0 /\
              r (Cfg.answer_column (Cfg.dataset cfg0)) = None) ->
   __init__ codec pretrained df0 cfg0 mode0
     = Raise (ValueError
                (message_missing mode0
                   (Cfg.answer_column (Cfg.dataset cfg0))))).
Proof.
  intros Hmode. split.
  - intros Hcol. unfold __init__, has_column.
    rewrite bool_decide_eq_true_2 by assumption. cbn [negb].
    by rewrite (bool_decide_eq_false_2 _ Hcol).
  - intros Hcol Hrow.
    assert (answer_column_unusable df0 cfg0) as Hbad by (by right).
    apply unusable_iff in Hbad as [Hbad|Hbad];
      [unfold has_column in Hbad;
       by rewrite (bool_decide_eq_true_2 _ Hcol) in Hbad|].
    assert (has_column df0 (Cfg.answer_column (Cfg.dataset cfg0)) = true)
      as Hhas by (by apply bool_decide_eq_true_2).
    unfold __init__. rewrite bool_decide_eq_true_2 by assumption.
    cbn [negb]. rewrite !Hhas. cbn [negb orb].
    by rewrite Hbad.
Qed.

(** C9, as amended. With a valid mode, the constructor raises the
    [ValueError] of the check of the answer column, with the message
    that the column is not there when it is absent from the frame, and
    with the message that it has missing values when a row has no
    answer; it raises an error with one of these two messages in these
    cases only; and when the answer column is absent or incomplete it
    raises in every mode. The constructor also raises other errors
    while the answer column is there and complete, so that an error is
    not a sign of an unusable answer column. A dataset that was
    constructed holds the answer of every row, so that no later access
    to an item fails for want of one. *)
Theorem C9_answer_column_checked (df0 : DataFrame) (cfg0 : Cfg.t)
    (mode0 : string) :
  (answer_column_unusable df0 cfg0 ->
   raises (__init__ codec pretrained df0 cfg0 mode0)) /\
  (mode0 ∈ ["train"; "validation"] ->
   (Cfg.answer_column (Cfg.dataset cfg0) ∉ columns df0 ->
    __init__ codec pretrained df0 cfg0 mode0
      = Raise (ValueError
                 (message_absent mode0
                    (Cfg.answer_column (Cfg.dataset cfg0))))) /\
   (Cfg.answer_column (Cfg.dataset cfg0) ∈ columns df0 ->
    (exists r, r ∈ rows df0 /\
               r (Cfg.answer_column (Cfg.dataset cfg0)) = None) ->
    __init__ codec pretrained df0 cfg0 mode0
      = Raise (ValueError
                 (message_missing mode0
                    (Cfg.answer_column (Cfg.dataset cfg0))))) /\
   (answer_column_unusable df0 cfg0 <->
    __init__ codec pretrained df0 cfg0 mode0
      = Raise (ValueError
                 (message_absent mode0
                    (Cfg.answer_column (Cfg.dataset cfg0)))) \/
    __init__ codec pretrained df0 cfg0 mode0
      = Raise (ValueError
                 (message_missing mode0
                    (Cfg.answer_column (Cfg.dataset cfg0)))))) /\
  (forall self,
     __init__ codec pretrained df0 cfg0 mode0 = Ok self ->
     ~ answer_column_unusable df0 cfg0 /\
     Forall2 (fun r answer =>
                r (Cfg.answer_column (Cfg.dataset cfg0)) = Some answer)
       (rows df0) (answers self) /\
     forall idx, 0 <= idx < __len__ self ->
                 exists answer, Py.index (answers self) idx = Ok answer).
Proof.
  split; [|split].
  - intros Hbad.
    destruct (decide (mode0 ∈ ["train"; "validation"])) as [Hmode|Hmode].
    + destruct (init_check_failed df0 cfg0 mode0 Hmode Hbad) as [msg H].
      by exists (ValueError msg).
    + unfold __init__. rewrite bool_decide_eq_false_2 by assumption.
      by eexists.
  - intros Hmode.
    destruct (init_check_message df0 cfg0 mode0 Hmode) as [Habsent Hmissing].
    split; [exact Habsent|]. split; [exact Hmissing|]. split.
    + intros Hbad.
      destruct (decide (Cfg.answer_column (Cfg.dataset cfg0) ∈ columns df0))
        as [Hcol|Hcol].
      * right. apply Hmissing; [exact Hcol|].
        by destruct Hbad as [Hbad|Hbad].
      * left. by apply Habsent.
    + intros [H|H]; by eapply init_ValueError.
  - intros self H.
    apply init_Ok in H
      as (_ & Hcol & Hcomplete & _ & Hdf & _ & _ & _ & Hanswers & _ & _).
    assert (~ answer_column_unusable df0 cfg0) as Husable.
    { rewrite unusable_iff, Hcol. apply Z.eqb_eq in Hcomplete.
      rewrite Hcomplete. by intros [|]. }
    split; [assumption|]. split.
    + rewrite Hanswers. clear Hanswers Hdf Husable.
      apply dropna_complete in Hcomplete.
      induction Hcomplete as [|r l [a Ha] _ IH]; [constructor|].
      rewrite !fmap_cons. constructor; [by rewrite Ha | exact IH].
    + intros idx Hidx. apply index_in_range.
      unfold __len__, shape0, Py.len in *.
      by rewrite Hanswers, !length_fmap, <- Hdf.
Qed.

End AnswerColumn.

(** ** Instances on the example data *)

Section Instances.

Import Pandas CustomDataset Chain.

Lemma conversation_validation_init :
  __init__ Example.codec Example.pretrained Example.conversation
    (Example.config (1 # 2) (1 # 2)) "validation"
    = Ok Example.conversation_validation.
Proof. vm_compute. reflexivity. Qed.

Lemma circular_validation_init :
  __init__ Example.codec Example.pretrained Example.circular
    (Example.config (1 # 2) (1 # 2)) "validation"
    = Ok Example.circular_validation.
Proof. vm_compute. reflexivity. Qed.

(** An instance of C9: the frame with a missing answer is refused with
    the [ValueError] of the check and its message, and the dataset of
    the conversation holds the three answers. *)
Lemma C9_answer_column_checked_example :
  raises (__init__ Example.codec Example.pretrained Example.incomplete
            (Example.config 0 0) "train") /\
  __init__ Example.codec Example.pretrained Example.incomplete
    (Example.config 0 0) "train"
    = Raise (ValueError
               "The train DataFrame column output contain missing values.")
  /\
  ~ answer_column_unusable Example.conversation
      (Example.config (1 # 2) (1 # 2)) /\
  forall idx, 0 <= idx < __len__ Example.conversation_validation ->
    exists answer,
      Py.index (answers Example.conversation_validation) idx = Ok answer.
Proof.
  assert (exists r,
            r ∈ rows Example.incomplete /\
            r (Cfg.answer_column (Cfg.dataset (Example.config 0 0)))
              = None) as Hrow.
  { exists (Example.row (Some "B") (Some "A") (Some "so") None).
    split; [|reflexivity].
    apply elem_of_cons. right. apply elem_of_cons. by left. }
  assert ("train" ∈ ["train"; "validation"]) as Hmode
    by (apply elem_of_cons; by left).
  split; [|split].
  - apply (proj1 (C9_answer_column_checked Example.codec
                    Example.pretrained Example.incomplete
                    (Example.config 0 0) "train")).
    by right.
  - apply (proj1 (proj2 (proj1 (proj2
             (C9_answer_column_checked Example.codec Example.pretrained
                Example.incomplete (Example.config 0 0) "train"))
             Hmode)));
      [|exact Hrow].
    change ("output" ∈ ["id"; "parent_id"; "instruction"; "output"]).
    rewrite !elem_of_cons. do 3 right. by left.
  - destruct (proj2 (proj2 (C9_answer_column_checked Example.codec
                Example.pretrained Example.conversation
                (Example.config (1 # 2) (1 # 2)) "validation"))
                Example.conversation_validation
                conversation_validation_init) as (Husable & _ & Hanswers).
    by split.
Defined.

(** Errors with a usable answer column: a frame with the four columns
    and no row is refused with an [IndexError], and the conversation is
    refused with a [UnicodeDecodeError], which is a [ValueError] to
    Python, when the start of the prompt ends in an escape sequence that
    is cut short; in both frames the answer column is there and has no
    missing value. *)
Lemma C9_raises_with_usable_column :
  ~ (forall (codec : string -> option string) (df0 : DataFrame)
            (cfg0 : Cfg.t),
       raises (__init__ codec Example.pretrained df0 cfg0 "train") <->
       answer_column_unusable df0 cfg0) /\
  ~ answer_column_unusable (mkDataFrame Example.header [])
      (Example.config 0 0) /\
  __init__ Example.codec Example.pretrained (mkDataFrame Example.header [])
    (Example.config 0 0) "train" = Raise IndexError /\
  ~ answer_column_unusable Example.conversation Example.cut_short /\
  __init__ Example.unicode_escape Example.pretrained Example.conversation
    Example.cut_short "train" = Raise UnicodeDecodeError /\
  isinstance_ValueError UnicodeDecodeError = true.
Proof.
  assert (~ answer_column_unusable (mkDataFrame Example.header [])
            (Example.config 0 0)) as Hempty.
  { intros [Hcol|(r & Hr & _)].
    - apply Hcol.
      change ("output" ∈ ["id"; "parent_id"; "instruction"; "output"]).
      rewrite !elem_of_cons. do 3 right. by left.
    - by apply elem_of_nil in Hr. }
  assert (__init__ Example.codec Example.pretrained
            (mkDataFrame Example.header []) (Example.config 0 0) "train"
          = Raise IndexError) as Hraise by (vm_compute; reflexivity).
  split; [|split; [exact Hempty|split; [exact Hraise|split; [|split]]]].
  - intros Hiff. apply Hempty.
    apply (Hiff Example.codec (mkDataFrame Example.header [])
             (Example.config 0 0)).
    rewrite Hraise. by eexists.
  - intros [Hcol|(r & Hr & Hnone)].
    + apply Hcol.
      change ("output" ∈ ["id"; "parent_id"; "instruction"; "output"]).
      rewrite !elem_of_cons. do 3 right. by left.
    + change (Cfg.answer_column _) with "output" in Hnone.
      unfold Example.conversation in Hr. cbn [rows] in Hr.
      rewrite !elem_of_cons, elem_of_nil in Hr.
      destruct Hr as [->|[->|[->|[]]]]; discriminate.
  - vm_compute. reflexivity.
  - reflexivity.
Qed.

(** The conversation of the examples is a well-formed dataset. *)
Lemma conversation_well_formed :
  well_formed Example.conversation_validation [None; Some "A"; Some "B"].
Proof.
  eapply init_well_formed; [exact conversation_validation_init|..].
  - vm_compute. reflexivity.
  - intros _. vm_compute. by eexists.
Qed.

(** An instance of C6: the walk from the last row of the conversation
    returns with three units of fuel or more, the walk from the last row
    of the circular frame never returns. *)
Lemma C6_parent_walk_termination_example :
  (exists n, forall samples rs, exists result,
     forall fuel, (n <= fuel)%nat ->
       _read_data_walk fuel Example.conversation_validation
         [None; Some "A"; Some "B"] 2 samples rs = Ok result) /\
  (forall fuel samples rs,
     _read_data_walk fuel Example.circular_validation
       [Some "Y"; Some "X"; Some "Y"] 2 samples rs = OutOfFuel /\
     __getitem__ fuel Example.circular_validation 2 rs = OutOfFuel).
Proof.
  split.
  - destruct (proj1 (C6_parent_walk_termination
                       Example.conversation_validation
                       [None; Some "A"; Some "B"] 2 eq_refl)) as [n Hn].
    { exists 3%nat. vm_compute. reflexivity. }
    exists n. intros samples rs.
    destruct (Hn samples rs) as (o & _ & Hfuel & Hresult).
    destruct (Hresult conversation_well_formed) as [result ->].
    { exists (Some "B"). vm_compute. reflexivity. }
    by exists result.
  - intros fuel samples rs.
    destruct (proj2 (C6_parent_walk_termination Example.circular_validation
                       [Some "Y"; Some "X"; Some "Y"] 2 eq_refl))
      with (fuel := fuel) (samples := samples) (rs := rs)
      as [Hwalk Hitem].
    + exists 1%nat, 1, 2%nat. vm_compute. repeat split. lia.
    + vm_compute. reflexivity.
    + vm_compute. reflexivity.
    + eapply init_rows_encodable; [exact circular_validation_init|].
      intros _. vm_compute. by eexists.
    + split; [exact Hwalk|]. apply Hitem.
      eexists. vm_compute. reflexivity.
Defined.

Lemma last_read_Ok :
  __getitem__ 5 Example.conversation_validation 2 Example.random_state
    = Ok (Example.last_item, Example.last_state).
Proof. vm_compute. reflexivity. Qed.

(** An instance of C5: the item of the last row of the conversation. *)
Lemma C5_padding_invariant_example :
  exists input_ids attention_mask labels prompt_input_ids
         prompt_attention_mask : Torch.Tensor,
    Example.last_item !! "input_ids" = Some input_ids /\
    Example.last_item !! "attention_mask" = Some attention_mask /\
    Example.last_item !! "labels" = Some labels /\
    Example.last_item !! "prompt_input_ids" = Some prompt_input_ids /\
    Example.last_item !! "prompt_attention_mask"
      = Some prompt_attention_mask /\
    Py.len input_ids
      = Cfg.max_length (Cfg.tokenizer (cfg Example.conversation_validation)) /\
    Py.len attention_mask
      = Cfg.max_length (Cfg.tokenizer (cfg Example.conversation_validation)) /\
    Py.len labels
      = Cfg.max_length (Cfg.tokenizer (cfg Example.conversation_validation)) /\
    Py.len prompt_input_ids
      = Cfg.max_length_prompt
          (Cfg.tokenizer (cfg Example.conversation_validation)) /\
    Py.len prompt_attention_mask
      = Cfg.max_length_prompt
          (Cfg.tokenizer (cfg Example.conversation_validation)).
Proof.
  apply (C5_padding_invariant 5 Example.conversation_validation 2
           Example.random_state Example.last_state Example.last_item).
  exact last_read_Ok.
Defined.

(** An instance of C3: the labels of that item end with the id 11. *)
Lemma C3_eos_label_protected_example :
  exists (labels : Torch.Tensor) (eos : Z),
    Example.last_item !! "labels" = Some labels /\
    TextUtils.eos_token_id (tokenizer Example.conversation_validation)
      = Some eos /\
    last labels = Some eos.
Proof.
  apply (C3_eos_label_protected 5 Example.conversation_validation 2
           Example.random_state Example.last_state Example.last_item).
  - exact last_read_Ok.
  - vm_compute. reflexivity.
  - vm_compute. reflexivity.
Defined.

(** An instance of C4: the prompt positions of that item. *)
Lemma C4_prompt_labels_masked_example :
  exists (samples : list Sample) (labels : Torch.Tensor),
    _read_data_samples 5 Example.conversation_validation 2
      Example.random_state = Ok (samples, Example.last_state) /\
    Example.last_item !! "labels" = Some labels /\
    forall i : nat,
      Flat.prompt_position samples i ->
      0 <= Z.of_nat i
           + Cfg.max_length
               (Cfg.tokenizer (cfg Example.conversation_validation))
           - Z.of_nat (Flat.total samples) ->
      labels !! Z.to_nat
                  (Z.of_nat i
                   + Cfg.max_length
                       (Cfg.tokenizer (cfg Example.conversation_validation))
                   - Z.of_nat (Flat.total samples))
        = Some (-100).
Proof.
  apply (C4_prompt_labels_masked 5 Example.conversation_validation 2
           Example.random_state Example.last_state Example.last_item).
  - exact last_read_Ok.
  - vm_compute. reflexivity.
Defined.

End Instances.

(** ** The tokenizer setup *)

Section TokenizerSetup.

Import TextUtils.

(** Without unknown-token id and without mask-token id, the id that is
    stored is the last id of the vocabulary, whether or not the tokenizer
    has a padding id: the branch that stores the padding id tests the
    mask-token id a second time, and is never taken. *)
Lemma resolve_mask_token_id_last (tokenizer : Tokenizer) :
  unk_token_id tokenizer = None ->
  mask_token_id tokenizer = None ->
  resolve_mask_token_id tokenizer = Some (vocab_size tokenizer - 1).
Proof.
  intros Hunk Hmask. unfold resolve_mask_token_id. by rewrite Hunk, Hmask.
Qed.

(** C7, on the code. The tokenizer of the examples has neither
    unknown-token id nor mask-token id, and its padding id is 11 after
    the setup; the id that [get_tokenizer] stores is 65023, the last id
    of the vocabulary, and not the padding id. *)
Theorem C7_mask_token_id_skips_pad :
  unk_token_id (get_tokenizer Example.pretrained (Example.config 0 0)).1
    = None /\
  mask_token_id (get_tokenizer Example.pretrained (Example.config 0 0)).1
    = None /\
  pad_token_id (get_tokenizer Example.pretrained (Example.config 0 0)).1
    = Some 11 /\
  Cfg._tokenizer_mask_token_id
    (get_tokenizer Example.pretrained (Example.config 0 0)).2
    = Some (Some 65023).
Proof. repeat split; vm_compute; reflexivity. Qed.

End TokenizerSetup.

(** ** The loss family *)

Section LossFamily.

Import TextDpoModelingLosses.

(** C8. [Losses.get] returns the class that is registered under a name,
    and the sigmoid class [DPOLoss] for every name that is not
    registered; the registered names are [DPOLoss], [HingeLoss] and
    [IPOLoss]. *)
Theorem C8_unknown_loss_falls_back :
  (forall name : string,
     name ∈ Losses.names <->
     name = "DPOLoss" \/ name = "HingeLoss" \/ name = "IPOLoss") /\
  (forall name : string, name ∉ Losses.names -> Losses.get name = DPOLoss) /\
  Losses.get "DPOLoss" = DPOLoss /\
  Losses.get "HingeLoss" = HingeLoss /\
  Losses.get "IPOLoss" = IPOLoss.
Proof.
  split; [|split; [|by repeat split]].
  - intros name. unfold Losses.names, Losses._losses.
    rewrite !dom_insert_L, dom_empty_L.
    rewrite !elem_of_union, !elem_of_singleton, elem_of_empty. tauto.
  - intros name Hname. unfold Losses.get. unfold Losses.names in Hname.
    apply not_elem_of_dom in Hname. by rewrite Hname.
Qed.

(** An instance of C8: a name that is not registered. *)
Lemma C8_unknown_loss_falls_back_example :
  Losses.get "KTOLoss" = DPOLoss.
Proof.
  apply (proj1 (proj2 C8_unknown_loss_falls_back) "KTOLoss").
  intros Hin.
  apply (proj1 (proj1 C8_unknown_loss_falls_back "KTOLoss")) in Hin.
  by destruct Hin as [|[|]].
Defined.

Local Open Scope R_scope.

Lemma elementwise_same_length (f : R -> R -> R) (a b : list R) :
  length a = length b -> elementwise f a b = Ok (zip_with f a b).
Proof. intros H. unfold elementwise. by rewrite H, Nat.eqb_refl. Qed.

Lemma logits_examples (pc pr rc rr : list R) :
  length pr = length pc -> length rc = length pc -> length rr = length pc ->
  zip_with Rminus (zip_with Rminus pc pr) (zip_with Rminus rc rr)
    = (fun ex : R * R * R * R =>
         let '(a, b, c, d) := ex in LossSpec.logits a b c d)
        <$> LossSpec.examples pc pr rc rr.
Proof.
  revert pr rc rr.
  induction pc as [|a pc IH]; intros [|b pr] [|c rc] [|d rr] Hb Hc Hd;
    try discriminate; [reflexivity|].
  simpl in *. f_equal. apply IH; congruence.
Qed.

Lemma chosen_examples (beta : R) (pc pr rc rr : list R) :
  length pr = length pc -> length rc = length pc -> length rr = length pc ->
  Rmult beta <$> zip_with Rminus pc rc
    = LossSpec.chosen_reward beta <$> LossSpec.examples pc pr rc rr.
Proof.
  revert pr rc rr.
  induction pc as [|a pc IH]; intros [|b pr] [|c rc] [|d rr] Hb Hc Hd;
    try discriminate; [reflexivity|].
  simpl in *. f_equal. apply IH; congruence.
Qed.

Lemma rejected_examples (beta : R) (pc pr rc rr : list R) :
  length pr = length pc -> length rc = length pc -> length rr = length pc ->
  Rmult beta <$> zip_with Rminus pr rr
    = LossSpec.rejected_reward beta <$> LossSpec.examples pc pr rc rr.
Proof.
  revert pr rc rr.
  induction pc as [|a pc IH]; intros [|b pr] [|c rc] [|d rr] Hb Hc Hd;
    try discriminate; [reflexivity|].
  simpl in *. f_equal. apply IH; congruence.
Qed.

(** The three overrides of [get_losses] are the three formulas; the
    smoothing terms of the sigmoid variant vanish. *)
Lemma get_losses_variant (beta : R) (cls : loss_class) (logits : list R) :
  get_losses beta cls logits = LossSpec.variant_loss cls beta <$> logits.
Proof.
  destruct cls; simpl; try reflexivity.
  apply list_fmap_ext. intros _ x _.
  unfold LossSpec.sigmoid_loss, LossSpec.log_sigmoid, LossSpec.sigmoid.
  unfold logsigmoid, Rdiv. rewrite Rmult_1_l. ring.
Qed.

(** [Tensor.mean] is the sum of the entries, divided by their number. *)
Lemma mean_average (t : list R) : mean t = LossSpec.average t.
Proof.
  unfold mean, LossSpec.average.
  assert (foldr Rplus 0 t = LossSpec.total t) as ->; [|reflexivity].
  induction t as [|x t IH]; [reflexivity|]. simpl. by rewrite IH.
Qed.

Lemma mean_singleton (x : R) : mean [x] = x.
Proof. unfold mean. simpl. field. Qed.

Lemma logsigmoid_0 : logsigmoid 0 = - ln 2.
Proof.
  unfold logsigmoid. rewrite Ropp_0, exp_0.
  replace (1 + 1) with 2 by ring. apply ln_Rinv. lra.
Qed.

(** The batch of the worked example, with [beta = 0.1]. *)
Lemma forward_worked_example (cls : loss_class) :
  forward (1 / 10) cls [-1] [-2] [-3 / 2] [-5 / 2]
    = Ok (LossSpec.variant_loss cls (1 / 10) 0, 1 / 20, 1 / 20).
Proof.
  unfold forward, sub. rewrite !elementwise_same_length by reflexivity.
  cbn [mbind outcome_bind zip_with].
  rewrite elementwise_same_length by reflexivity.
  cbn [mbind outcome_bind zip_with]. rewrite get_losses_variant.
  cbn [fmap list_fmap]. rewrite !mean_singleton.
  do 3 f_equal; [f_equal|..]; lra.
Qed.

(** C2. For four vectors of log-probabilities of one length and a
    positive [beta], [forward] returns the unweighted mean, that is the
    sum divided by the number of examples, of the loss of the variant at
    the margin [(policy_chosen - policy_rejected) - (reference_chosen -
    reference_rejected)] of every example, with the mean of the chosen
    rewards [beta * (policy_chosen - reference_chosen)] and the mean of
    the rejected rewards [beta * (policy_rejected -
    reference_rejected)]; the variants are [- ln (1 / (1 + exp (- beta
    * logits)))], [max 0 (1 - beta * logits)] and [(logits - 1 / (2 *
    beta)) ^ 2]. On the batch [-1], [-2], [-1.5], [-2.5] with [beta =
    0.1] the margin is 0 and the three losses are [ln 2], 1 and 25. *)
Theorem C2_loss_family :
  (forall (beta : R) (cls : loss_class) (pc pr rc rr : list R),
     0 < beta ->
     length pr = length pc -> length rc = length pc ->
     length rr = length pc ->
     forward beta cls pc pr rc rr
       = Ok (LossSpec.average
               (LossSpec.loss cls beta <$> LossSpec.examples pc pr rc rr),
             LossSpec.average
               (LossSpec.chosen_reward beta
                  <$> LossSpec.examples pc pr rc rr),
             LossSpec.average
               (LossSpec.rejected_reward beta
                  <$> LossSpec.examples pc pr rc rr))) /\
  (sub [-1] [-2] ≫= fun pi_logratios =>
   sub [-3 / 2] [-5 / 2] ≫= fun ref_logratios =>
   sub pi_logratios ref_logratios) = Ok [0] /\
  forward (1 / 10) DPOLoss [-1] [-2] [-3 / 2] [-5 / 2]
    = Ok (ln 2, 1 / 20, 1 / 20) /\
  forward (1 / 10) HingeLoss [-1] [-2] [-3 / 2] [-5 / 2]
    = Ok (1, 1 / 20, 1 / 20) /\
  forward (1 / 10) IPOLoss [-1] [-2] [-3 / 2] [-5 / 2]
    = Ok (25, 1 / 20, 1 / 20).
Proof.
  split; [|split; [|split; [|split]]].
  - intros beta cls pc pr rc rr _ Hpr Hrc Hrr.
    unfold forward, sub.
    repeat (rewrite elementwise_same_length
              by (rewrite ?length_zip_with; congruence || lia);
            cbn [mbind outcome_bind]).
    rewrite get_losses_variant, logits_examples by assumption.
    rewrite (chosen_examples beta pc pr rc rr) by assumption.
    rewrite (rejected_examples beta pc pr rc rr) by assumption.
    rewrite !mean_average.
    rewrite <- list_fmap_compose. do 4 f_equal.
    apply list_fmap_ext. by intros _ [[[a b] c] d] _.
  - unfold sub. rewrite !elementwise_same_length by reflexivity.
    cbn [mbind outcome_bind zip_with].
    rewrite elementwise_same_length by reflexivity.
    cbn [zip_with]. do 2 f_equal. lra.
  - rewrite forward_worked_example. do 3 f_equal.
    unfold LossSpec.variant_loss, LossSpec.sigmoid_loss.
    unfold LossSpec.log_sigmoid, LossSpec.sigmoid.
    rewrite Rmult_0_r, Ropp_0, exp_0.
    replace (1 / (1 + 1)) with (/ 2) by field.
    rewrite ln_Rinv by lra. ring.
  - rewrite forward_worked_example. do 3 f_equal.
    unfold LossSpec.variant_loss, LossSpec.hinge_loss.
    rewrite Rmult_0_r, Rminus_0_r. apply Rmax_right. lra.
  - rewrite forward_worked_example. do 3 f_equal.
    unfold LossSpec.variant_loss, LossSpec.squared_loss. field.
Qed.

(** An instance of C2: a batch of two examples with the margins 0 and 4
    and [beta = 0.5]. The hinge losses are 1 and 0, the second being
    clamped, and their mean is [0.5]; the squared losses are 1 and 9 and
    their mean is 5; the means of the rewards are [0.25] and [-0.75]. *)
Lemma C2_loss_family_example :
  forward (1 / 2) HingeLoss [-1; -1] [-2; -6] [-1; -2] [-2; -3]
    = Ok (1 / 2, 1 / 4, -3 / 4) /\
  forward (1 / 2) IPOLoss [-1; -1] [-2; -6] [-1; -2] [-2; -3]
    = Ok (5, 1 / 4, -3 / 4).
Proof.
  split.
  - rewrite (proj1 C2_loss_family (1 / 2) HingeLoss
               [-1; -1] [-2; -6] [-1; -2] [-2; -3])
      by (lra || reflexivity).
    unfold LossSpec.average. cbn.
    unfold LossSpec.hinge_loss, LossSpec.logits.
    rewrite (Rmax_right 0 (1 - 1 / 2 * (-1 - -2 - (-1 - -2)))) by lra.
    rewrite (Rmax_left 0 (1 - 1 / 2 * (-1 - -6 - (-2 - -3)))) by lra.
    f_equal. f_equal; [f_equal|]; lra.
  - rewrite (proj1 C2_loss_family (1 / 2) IPOLoss
               [-1; -1] [-2; -6] [-1; -2] [-2; -3])
      by (lra || reflexivity).
    unfold LossSpec.average. cbn.
    unfold LossSpec.squared_loss, LossSpec.logits.
    f_equal. f_equal; [f_equal|]; lra.
Defined.

End LossFamily.

(** ** Truncation of the encodings *)

Section Encodings.

Import CustomDataset.

Lemma bound_nonneg (len : nat) (k : Z) :
  0 <= k -> Py.bound len k = Nat.min (Z.to_nat k) len.
Proof. intros Hk. unfold Py.bound. destruct (Z.ltb_spec k 0); lia. Qed.

Lemma take_min {A : Type} (n : nat) (l : list A) :
  take (Nat.min n (length l)) l = take n l.
Proof.
  destruct (Nat.le_gt_cases n (length l)).
  - by rewrite Nat.min_l.
  - rewrite Nat.min_r by lia. by rewrite !take_ge by lia.
Qed.

(** The lengths of the two kinds of slices that [encode] takes. *)
Lemma slice_to_len {A : Type} (l : list A) (m : Z) :
  0 <= m -> Py.len (Py.slice_to l m) = Z.min (Py.len l) m.
Proof.
  intros Hm. unfold Py.slice_to, Py.len.
  rewrite bound_nonneg, length_take by lia. lia.
Qed.

Lemma slice_from_len {A : Type} (l : list A) (m : Z) :
  1 <= m -> Py.len (Py.slice_from l (- m)) = Z.min (Py.len l) m.
Proof.
  intros Hm. unfold Py.slice_from, Py.len.
  rewrite bound_neg, length_drop by lia. lia.
Qed.

(** X1. With a budget of [max_length >= 1] tokens, [encode] keeps the
    first [max_length] tokens when the truncation side is ["right"] and
    the last [max_length] tokens for every other side; the result has
    [min(len, max_length)] tokens and an attention mask of ones of that
    length. *)
Theorem encode_truncates (tokenizer : TextUtils.Tokenizer) (text : string)
    (max_length : Z) (side : string) :
  1 <= max_length ->
  (encode tokenizer text max_length "right").1
    = take (Z.to_nat max_length) (TextUtils.call tokenizer text false) /\
  (side <> "right" ->
   (encode tokenizer text max_length side).1
     = drop (length (TextUtils.call tokenizer text false)
             - Z.to_nat max_length)
         (TextUtils.call tokenizer text false)) /\
  Py.len (encode tokenizer text max_length side).1
    = Z.min (Py.len (TextUtils.call tokenizer text false)) max_length /\
  (encode tokenizer text max_length side).2
    = Torch.ones_like (encode tokenizer text max_length side).1.
Proof.
  intros Hm. unfold encode, Py.slice_to, Py.slice_from, Torch.ones_like, Py.len.
  set (tokens := TextUtils.call tokenizer text false).
  rewrite !length_replicate, !bound_neg, !bound_nonneg by lia.
  split; [|split; [|split]].
  - simpl. apply take_min.
  - intros Hside. apply String.eqb_neq in Hside. by rewrite Hside.
  - destruct (String.eqb side "right"); simpl.
    + rewrite length_take. lia.
    + rewrite length_drop. lia.
  - destruct (String.eqb side "right"); simpl.
    + rewrite take_replicate, length_take. f_equal.
    + rewrite drop_replicate, length_drop. f_equal.
Qed.

(** An instance of X1. *)
Lemma encode_truncates_example :
  (encode Example.pretrained "abcdef" 4 "right").1
    = take (Z.to_nat 4) (TextUtils.call Example.pretrained "abcdef" false) /\
  ("left" <> "right" ->
   (encode Example.pretrained "abcdef" 4 "left").1
     = drop (length (TextUtils.call Example.pretrained "abcdef" false)
             - Z.to_nat 4)
         (TextUtils.call Example.pretrained "abcdef" false)) /\
  Py.len (encode Example.pretrained "abcdef" 4 "left").1
    = Z.min (Py.len (TextUtils.call Example.pretrained "abcdef" false)) 4 /\
  (encode Example.pretrained "abcdef" 4 "left").2
    = Torch.ones_like (encode Example.pretrained "abcdef" 4 "left").1.
Proof.
  apply (encode_truncates Example.pretrained "abcdef" 4 "left"). lia.
Defined.

(** X2. A budget of zero or less does not empty the encoding on the
    left: for [max_length <= 0], every side but ["right"] drops the first
    [-max_length] tokens and keeps the rest (all of them at 0), and the
    side ["right"] drops the last [-max_length] tokens and keeps the rest
    (none of them at 0). *)
Theorem encode_without_budget (tokenizer : TextUtils.Tokenizer)
    (text : string) (max_length : Z) (side : string) :
  max_length <= 0 ->
  (side <> "right" ->
   (encode tokenizer text max_length side).1
     = drop (Z.to_nat (- max_length))
         (TextUtils.call tokenizer text false)) /\
  (max_length < 0 ->
   (encode tokenizer text max_length "right").1
     = take (length (TextUtils.call tokenizer text false)
             - Z.to_nat (- max_length))
         (TextUtils.call tokenizer text false)) /\
  (encode tokenizer text 0 "right").1 = [].
Proof.
  intros Hm. unfold encode, Py.slice_to, Py.slice_from.
  set (tokens := TextUtils.call tokenizer text false).
  split; [|split].
  - intros Hside. apply String.eqb_neq in Hside. rewrite Hside. simpl.
    unfold Py.bound. destruct (Z.ltb_spec (- max_length) 0); [lia|].
    destruct (Nat.le_gt_cases (length tokens) (Z.to_nat (- max_length))).
    + rewrite !drop_ge; [done|lia..].
    + f_equal. lia.
  - intros Hneg. simpl. unfold Py.bound.
    destruct (Z.ltb_spec max_length 0); [|lia]. f_equal. lia.
  - simpl. by rewrite bound_nonneg.
Qed.

(** An instance of X2. *)
Lemma encode_without_budget_example :
  ("left" <> "right" ->
   (encode Example.pretrained "abcdef" 0 "left").1
     = drop (Z.to_nat (- 0))
         (TextUtils.call Example.pretrained "abcdef" false)) /\
  (0 < 0 ->
   (encode Example.pretrained "abcdef" 0 "right").1
     = take (length (TextUtils.call Example.pretrained "abcdef" false)
             - Z.to_nat (- 0))
         (TextUtils.call Example.pretrained "abcdef" false)) /\
  (encode Example.pretrained "abcdef" 0 "right").1 = [].
Proof.
  apply (encode_without_budget Example.pretrained "abcdef" 0 "left"). lia.
Defined.

(** X3. The two encodings of a sample keep to their budgets: the prompt
    has at most [max_length_prompt >= 1] tokens, and the answer, with its
    end-of-sequence id if there is one, has at most [max_length_answer]
    tokens, for a budget of one token or more with the end-of-sequence
    id, and of zero tokens or more without. *)
Theorem get_sample_budget (self : t) (idx : Z) (s : Sample) :
  _get_sample self idx = Ok s ->
  1 <= Cfg.max_length_prompt (Cfg.tokenizer (cfg self)) ->
  (if Cfg.add_eos_token_to_answer (Cfg.dataset (cfg self))
   then 1 else 0) <= Cfg.max_length_answer (Cfg.tokenizer (cfg self)) ->
  Py.len s.1 <= Cfg.max_length_prompt (Cfg.tokenizer (cfg self)) /\
  Py.len s.2 <= Cfg.max_length_answer (Cfg.tokenizer (cfg self)).
Proof.
  unfold _get_sample. intros H Hp Ha.
  bind_inv H as prompt Hprompt. bind_inv H as answer Hanswer.
  bind_inv H as enc Henc. injection H as <-. cbn [fst snd]. split.
  - rewrite slice_from_len by assumption. lia.
  - assert (forall m : Z,
      0 <= m ->
      Py.len (Py.slice_to (TextUtils.call (tokenizer self) answer false) m)
        <= m) as Hright
      by (intros m Hm; rewrite slice_to_len by assumption; lia).
    destruct (Cfg.add_eos_token_to_answer _).
    + destruct (TextUtils.eos_token_id _) as [eos|]; [|discriminate].
      injection Henc as <-. unfold Torch.cat. cbn [concat].
      unfold Py.len. rewrite length_app. cbn [length app].
      specialize (Hright
        (Cfg.max_length_answer (Cfg.tokenizer (cfg self)) - 1)).
      unfold Py.len in Hright. lia.
    + injection Henc as <-. apply Hright. lia.
Qed.

(** An instance of X3: the last row of the conversation. *)
Lemma get_sample_budget_example :
  Py.len Example.sample_C.1
    <= Cfg.max_length_prompt
         (Cfg.tokenizer (cfg Example.conversation_validation)) /\
  Py.len Example.sample_C.2
    <= Cfg.max_length_answer
         (Cfg.tokenizer (cfg Example.conversation_validation)).
Proof.
  apply (get_sample_budget Example.conversation_validation 2
           Example.sample_C); vm_compute; congruence.
Defined.

End Encodings.

(** ** Layout of the padded tensors *)

Section Layout.

Import CustomDataset.

(** Left padding of [v] to the length of [t]. *)
Lemma setitem_tail_replicate (n : nat) (x : Z) (v out : Torch.Tensor) :
  (0 < n)%nat ->
  Torch.setitem_slice_from (replicate n x) (- Py.len v) v = Ok out ->
  (0 < length v <= n)%nat /\ out = replicate (n - length v) x ++ v.
Proof.
  intros Hn H. apply setitem_tail in H as [[Hnil _]|[Hv ->]].
  - apply (f_equal length) in Hnil. rewrite length_replicate in Hnil.
    simpl in Hnil. lia.
  - rewrite length_replicate in *. split; [assumption|].
    rewrite take_replicate. do 2 f_equal. lia.
Qed.

(** The two tensors that [pad_tokens] returns. *)
Lemma pad_tokens_padded (input_ids attention_mask : Torch.Tensor)
    (max_length pad : Z) (prefix : string) (item : Item) :
  pad_tokens input_ids attention_mask max_length (Some pad) prefix
    = Ok item ->
  1 <= max_length ->
  length attention_mask = length input_ids ->
  item !! (prefix +:+ "input_ids")
    = Some (replicate (Z.to_nat max_length - length input_ids) pad
            ++ drop (length input_ids - Z.to_nat max_length) input_ids) /\
  item !! (prefix +:+ "attention_mask")
    = Some (replicate (Z.to_nat max_length - length input_ids) 0
            ++ drop (length input_ids - Z.to_nat max_length)
                 attention_mask).
Proof.
  unfold pad_tokens. intros H Hm Hmask.
  assert (prefix +:+ "attention_mask" <> prefix +:+ "input_ids") as Hkeys.
  { intros Heq. by apply (inj (String.app prefix)) in Heq. }
  assert (forall ids mask : Torch.Tensor,
    length mask = length ids ->
    (pad' ← from_option Ok (Raise TypeError) (Some pad);
     t ← Torch.full max_length pad';
     t ← Torch.setitem_slice_from t (- Py.len ids) ids;
     let sample : Item := <[prefix +:+ "input_ids" := t]> ∅ in
     m ← Torch.zeros max_length;
     m ← Torch.setitem_slice_from m (- Py.len ids) mask;
     let sample := <[prefix +:+ "attention_mask" := m]> sample in
     Ok sample) = Ok item ->
    item !! (prefix +:+ "input_ids")
      = Some (replicate (Z.to_nat max_length - length ids) pad ++ ids) /\
    item !! (prefix +:+ "attention_mask")
      = Some (replicate (Z.to_nat max_length - length ids) 0 ++ mask))
    as Hpad.
  { intros ids mask Hlen H0.
    bind_inv H0 as pad' Hpad'. injection Hpad' as <-.
    bind_inv H0 as t0 Ht0. apply full_Ok in Ht0 as [_ ->].
    bind_inv H0 as t Ht.
    apply setitem_tail_replicate in Ht as [_ ->]; [|lia].
    bind_inv H0 as m0 Hm0. apply full_Ok in Hm0 as [_ ->].
    bind_inv H0 as m Hm1.
    replace (Py.len ids) with (Py.len mask) in Hm1
      by (unfold Py.len; lia).
    apply setitem_tail_replicate in Hm1 as [_ ->]; [|lia].
    injection H0 as <-. rewrite Hlen. split.
    - by rewrite lookup_insert_ne, lookup_insert_eq.
    - by rewrite lookup_insert_eq. }
  destruct (Z.ltb_spec max_length (Py.len input_ids)) as [Hlong|Hshort].
  - apply Hpad in H.
    2:{ unfold Py.slice_from. rewrite !bound_neg, !length_drop by lia. lia. }
    unfold Py.slice_from, Py.len in *.
    rewrite !bound_neg, !length_drop in H by lia.
    rewrite Hmask in H.
    replace (Z.to_nat max_length
             - (length input_ids
                - (length input_ids - Z.to_nat max_length)))%nat
      with (Z.to_nat max_length - length input_ids)%nat in H by lia.
    exact H.
  - apply Hpad in H; [|assumption]. unfold Py.len in *.
    replace (length input_ids - Z.to_nat max_length)%nat with 0%nat by lia.
    exact H.
Qed.

(** X4. [pad_tokens] pads on the left and truncates on the left: for
    [max_length >= 1], the ids it returns are the last [max_length] ids
    of the input (all of them, if there are fewer), after as many
    padding ids as it takes to reach [max_length]; the attention mask is
    laid out in the same way after zeros; and the dictionary it returns
    holds these two tensors only. *)
Theorem pad_tokens_layout (input_ids attention_mask : Torch.Tensor)
    (max_length pad : Z) (prefix : string) (item : Item) :
  pad_tokens input_ids attention_mask max_length (Some pad) prefix
    = Ok item ->
  1 <= max_length ->
  length attention_mask = length input_ids ->
  item !! (prefix +:+ "input_ids")
    = Some (replicate (Z.to_nat max_length - length input_ids) pad
            ++ drop (length input_ids - Z.to_nat max_length) input_ids) /\
  item !! (prefix +:+ "attention_mask")
    = Some (replicate (Z.to_nat max_length - length input_ids) 0
            ++ drop (length input_ids - Z.to_nat max_length)
                 attention_mask) /\
  forall key,
    is_Some (item !! key) <->
    key = prefix +:+ "input_ids" \/ key = prefix +:+ "attention_mask".
Proof.
  intros H Hm Hmask.
  destruct (pad_tokens_padded _ _ _ _ _ _ H Hm Hmask) as [Hids Hzeros].
  split; [exact Hids|]. split; [exact Hzeros|].
  apply pad_tokens_Ok in H as (ids & mask & -> & _). intros key.
  rewrite !lookup_insert_is_Some, lookup_empty, is_Some_alt.
  split.
  - intros [<-|[_ [<-|[_ []]]]]; [by right | by left].
  - intros [-> | ->]; [|by left].
    destruct (decide (prefix +:+ "attention_mask" = prefix +:+ "input_ids"));
      [by left | right; split; [done | by left]].
Qed.

(** An instance of X4: four ids padded to six. *)
Lemma pad_tokens_layout_example :
  exists item,
    pad_tokens [5; 6; 7; 8] [1; 1; 1; 1] 6 (Some 0) "prompt_" = Ok item /\
    item !! ("prompt_" +:+ "input_ids")
      = Some (replicate (Z.to_nat 6 - length [5; 6; 7; 8]) 0
              ++ drop (length [5; 6; 7; 8] - Z.to_nat 6) [5; 6; 7; 8]) /\
    item !! ("prompt_" +:+ "attention_mask")
      = Some (replicate (Z.to_nat 6 - length [5; 6; 7; 8]) 0
              ++ drop (length [5; 6; 7; 8] - Z.to_nat 6) [1; 1; 1; 1]) /\
    forall key,
      is_Some (item !! key) <->
      key = "prompt_" +:+ "input_ids" \/
      key = "prompt_" +:+ "attention_mask".
Proof.
  destruct (pad_tokens_returns [5; 6; 7; 8] [1; 1; 1; 1] 6 0 "prompt_")
    as [item H]; [done | reflexivity | lia |].
  exists item. split; [exact H|].
  apply (pad_tokens_layout [5; 6; 7; 8] [1; 1; 1; 1] 6 0 "prompt_" item H);
    [lia | reflexivity].
Defined.

(** X5. Which sequences [pad_tokens] pads, given a padding id and an
    attention mask as long as the ids: for [max_length >= 1], all but
    the empty one; for a negative [max_length], none. Without padding id
    it raises a [TypeError]. *)
Theorem pad_tokens_domain (input_ids attention_mask : Torch.Tensor)
    (max_length pad : Z) (prefix : string) :
  length attention_mask = length input_ids ->
  (1 <= max_length ->
   (exists item,
      pad_tokens input_ids attention_mask max_length (Some pad) prefix
        = Ok item) <->
   input_ids <> []) /\
  (max_length < 0 ->
   pad_tokens input_ids attention_mask max_length (Some pad) prefix
     = Raise RuntimeError) /\
  pad_tokens input_ids attention_mask max_length None prefix
    = Raise TypeError.
Proof.
  intros Hmask. split; [|split].
  - intros Hm. split.
    + intros [item H] ->. unfold pad_tokens in H.
      destruct (Z.ltb_spec max_length (Py.len (@nil Z))) as [Hlen|_];
        [unfold Py.len in Hlen; simpl in Hlen; lia|].
      bind_inv H as pad' Hpad'. bind_inv H as t Ht.
      apply full_Ok in Ht as [_ ->]. bind_inv H as t Ht.
      apply setitem_tail_replicate in Ht as [Hv _]; [simpl in Hv|]; lia.
    + intros Hne. by apply pad_tokens_returns.
  - intros Hneg. unfold pad_tokens, Torch.full.
    destruct (Z.ltb_spec max_length 0) as [_|?]; [|lia].
    by destruct (_ <? Py.len input_ids).
  - unfold pad_tokens. by destruct (_ <? _).
Qed.

(** An instance of X5: the empty sequence is not padded. *)
Lemma pad_tokens_domain_example :
  ~ exists item, pad_tokens [] [] 8 (Some 0) "prompt_" = Ok item.
Proof.
  intros H.
  apply (proj1 (proj1 (pad_tokens_domain [] [] 8 0 "prompt_" eq_refl)
                  ltac:(lia))) in H.
  by apply H.
Defined.

(** What [_read_data_tensors] is made of. *)
Lemma read_data_tensors_inv (self : t) (samples : list Sample)
    (sample item : Item) :
  _read_data_tensors self samples sample = Ok item ->
  exists labels out padded samples' padded',
    _read_data_labels self samples = Ok labels /\
    0 <= Cfg.max_length (Cfg.tokenizer (cfg self)) /\
    Torch.setitem_slice_from
      (replicate (Z.to_nat (Cfg.max_length (Cfg.tokenizer (cfg self))))
         (-100))
      (- Py.len labels) labels = Ok out /\
    pad_tokens (flat_input_ids samples)
      (Torch.ones_like (flat_input_ids samples))
      (Cfg.max_length (Cfg.tokenizer (cfg self)))
      (TextUtils.pad_token_id (tokenizer self)) "" = Ok padded /\
    clear_last_answer samples = Ok samples' /\
    pad_tokens (flat_input_ids samples')
      (Torch.ones_like (flat_input_ids samples'))
      (Cfg.max_length_prompt (Cfg.tokenizer (cfg self)))
      (TextUtils.pad_token_id (tokenizer self)) "prompt_" = Ok padded' /\
    item = padded' ∪ (padded ∪ <["labels" := out]> sample).
Proof.
  unfold _read_data_tensors. intros H.
  bind_inv H as labels Hlabels.
  bind_inv H as out0 Hout0. apply full_Ok in Hout0 as [Hm ->].
  bind_inv H as out Hout. bind_inv H as padded Hpadded.
  bind_inv H as samples' Hsamples'. bind_inv H as padded' Hpadded'.
  injection H as <-. by exists labels, out, padded, samples', padded'.
Qed.

(** A padding id is there whenever [pad_tokens] returns. *)
Lemma pad_tokens_pad (input_ids attention_mask : Torch.Tensor)
    (max_length : Z) (pad_token_id : option Z) (prefix : string)
    (item : Item) :
  pad_tokens input_ids attention_mask max_length pad_token_id prefix
    = Ok item ->
  exists pad, pad_token_id = Some pad.
Proof.
  intros H. destruct pad_token_id as [pad|]; [by exists pad|].
  unfold pad_tokens in H. by destruct (_ <? _).
Qed.

(** The labels before truncation agree with the ids of the flat
    sequence wherever they are not the ignore value. *)
Lemma read_data_labels_aligned (self : t) (samples : list Sample)
    (labels : Torch.Tensor) :
  _read_data_labels self samples = Ok labels ->
  (Cfg.add_eos_token_to_answer (Cfg.dataset (cfg self)) = true ->
   last (flat_input_ids samples)
     = TextUtils.eos_token_id (tokenizer self)) ->
  exists pre : Torch.Tensor,
    length pre = length (flat_input_ids samples) /\
    labels =
      (if Cfg.max_length (Cfg.tokenizer (cfg self))
            <? Py.len (flat_input_ids samples)
       then Py.slice_from pre (- Cfg.max_length (Cfg.tokenizer (cfg self)))
       else pre) /\
    forall (i : nat) (x : Z),
      pre !! i = Some x ->
      x = -100 \/ flat_input_ids samples !! i = Some x.
Proof.
  unfold _read_data_labels. intros H Heos. bind_inv H as pre Hpre.
  exists pre.
  set (masked :=
         if Cfg.mask_prompt_labels (Cfg.dataset (cfg self))
         then Torch.masked_fill (flat_input_ids samples)
                (flat_prompt_mask samples) (-100)
         else flat_input_ids samples) in *.
  assert (length masked = length (flat_input_ids samples)) as Hlen.
  { subst masked. destruct (Cfg.mask_prompt_labels _); [|reflexivity].
    unfold Torch.masked_fill.
    rewrite length_zip_with, flat_prompt_mask_length. lia. }
  assert (forall (i : nat) (x : Z),
            masked !! i = Some x ->
            x = -100 \/ flat_input_ids samples !! i = Some x) as Hmasked.
  { intros i x. subst masked.
    destruct (Cfg.mask_prompt_labels _); [|by right].
    unfold Torch.masked_fill. rewrite lookup_zip_with.
    destruct (flat_input_ids samples !! i) as [y|]; [|discriminate].
    destruct (flat_prompt_mask samples !! i) as [[|]|]; simpl;
      [intros [= <-]; by left | intros [= <-]; by right | discriminate]. }
  destruct (Cfg.add_eos_token_to_answer (Cfg.dataset (cfg self))).
  - bind_inv Hpre as eos Heosid. apply from_option_Ok in Heosid.
    apply setitem_last in Hpre as [Hne ->].
    rewrite length_insert. split; [assumption|].
    split; [by destruct (_ <? _); injection H as <-|].
    intros i x Hi.
    destruct (decide (i = pred (length masked))) as [->|Hother].
    + right. rewrite list_lookup_insert_eq in Hi.
      * injection Hi as <-.
        by rewrite Hlen, <- last_lookup, (Heos eq_refl).
      * destruct masked; [done | simpl; lia].
    + rewrite list_lookup_insert_ne in Hi by done. by apply Hmasked.
  - injection Hpre as <-. split; [assumption|].
    split; [by destruct (_ <? _); injection H as <-|]. exact Hmasked.
Qed.

(** X6. The tensors of an item, for [max_length >= 1]: [input_ids] holds
    the last [max_length] ids of the flat sequence of the samples after
    padding ids, [attention_mask] holds a one for each of these ids
    after zeros, and [labels] holds the ignore value on the padding, and
    everywhere else the ignore value or the id that [input_ids] holds at
    the same position. *)
Theorem item_layout (fuel : nat) (self : t) (idx : Z)
    (rs rs' : Random.RandomState) (item : Item) :
  __getitem__ fuel self idx rs = Ok (item, rs') ->
  1 <= Cfg.max_length (Cfg.tokenizer (cfg self)) ->
  exists (samples : list Sample) (pad : Z)
         (input_ids attention_mask labels : Torch.Tensor),
    _read_data_samples fuel self idx rs = Ok (samples, rs') /\
    TextUtils.pad_token_id (tokenizer self) = Some pad /\
    item !! "input_ids" = Some input_ids /\
    item !! "attention_mask" = Some attention_mask /\
    item !! "labels" = Some labels /\
    input_ids
      = replicate (Z.to_nat (Cfg.max_length (Cfg.tokenizer (cfg self)))
                   - length (flat_input_ids samples)) pad
        ++ drop (length (flat_input_ids samples)
                 - Z.to_nat (Cfg.max_length (Cfg.tokenizer (cfg self))))
             (flat_input_ids samples) /\
    attention_mask
      = replicate (Z.to_nat (Cfg.max_length (Cfg.tokenizer (cfg self)))
                   - length (flat_input_ids samples)) 0
        ++ replicate
             (Nat.min (length (flat_input_ids samples))
                (Z.to_nat (Cfg.max_length (Cfg.tokenizer (cfg self))))) 1 /\
    (forall j : nat,
       (j < Z.to_nat (Cfg.max_length (Cfg.tokenizer (cfg self)))
            - length (flat_input_ids samples))%nat ->
       labels !! j = Some (-100)) /\
    (forall (j : nat) (x : Z),
       labels !! j = Some x -> x = -100 \/ input_ids !! j = Some x).
Proof.
  intros H Hm. apply getitem_Ok in H as (samples & Hsamples & H).
  apply read_data_tensors_inv in H
    as (labels & out & padded & samples' & padded' & Hlabels & _ & Hout
        & Hpadded & _ & Hpadded' & ->).
  destruct (pad_tokens_pad _ _ _ _ _ _ Hpadded) as [pad Hpad].
  rewrite Hpad in Hpadded, Hpadded'.
  pose proof (pad_tokens_padded _ _ _ _ _ _ Hpadded Hm
                (length_replicate _ _)) as [Hids Hmask].
  apply pad_tokens_Ok in Hpadded' as (pids & pmask & -> & _).
  change ("prompt_" +:+ "attention_mask") with "prompt_attention_mask".
  change ("prompt_" +:+ "input_ids") with "prompt_input_ids".
  remember (flat_input_ids samples) as flat eqn:Hflat in *.
  set (M := Z.to_nat (Cfg.max_length (Cfg.tokenizer (cfg self)))) in *.
  assert (Cfg.add_eos_token_to_answer (Cfg.dataset (cfg self)) = true ->
          last flat = TextUtils.eos_token_id (tokenizer self)) as Hlast.
  { intros Heos.
    pose proof (read_data_samples_Ok _ _ _ _ _ _ Hsamples)
      as (pre & s & Hpre & Hs & _).
    destruct (get_sample_eos _ _ _ Hs Heos) as (a & eos & -> & Ha).
    rewrite Hflat, Hpre, flat_input_ids_app, flat_input_ids_singleton.
    rewrite Ha, !app_assoc. apply last_snoc. }
  apply read_data_labels_aligned in Hlabels as (pre & Hlen & -> & Hpre);
    [|by rewrite <- Hflat].
  rewrite <- Hflat in Hlen, Hpre, Hout.
  assert (out = replicate (M - length flat) (-100)
                ++ drop (length flat - M) pre) as ->.
  { destruct (Z.ltb_spec (Cfg.max_length (Cfg.tokenizer (cfg self)))
                (Py.len flat)) as [Hlong|Hshort]; unfold Py.len in *.
    - apply setitem_tail_replicate in Hout as [_ ->]; [|lia].
      unfold Py.slice_from. rewrite bound_neg, length_drop by lia.
      rewrite Hlen. do 2 f_equal. lia.
    - apply setitem_tail_replicate in Hout as [_ ->]; [|lia].
      rewrite Hlen. replace (length flat - M)%nat with 0%nat by lia.
      done. }
  apply pad_tokens_Ok in Hpadded as (ids & mask & -> & _).
  change ("" +:+ "input_ids") with "input_ids" in Hids.
  change ("" +:+ "attention_mask") with "attention_mask" in Hmask.
  rewrite lookup_insert_ne, lookup_insert_eq in Hids by done.
  rewrite lookup_insert_eq in Hmask.
  injection Hids as ->. injection Hmask as ->.
  subst flat.
  eexists samples, pad, _, _, _.
  split; [exact Hsamples|]. split; [exact Hpad|].
  split; [|split; [|split; [|split; [reflexivity|split; [|split]]]]].
  - rewrite !lookup_union. by simplify_map_eq.
  - rewrite !lookup_union. by simplify_map_eq.
  - rewrite !lookup_union. by simplify_map_eq.
  - unfold Torch.ones_like. rewrite drop_replicate. do 2 f_equal.
    lia.
  - intros j Hj. rewrite lookup_app_l by (rewrite length_replicate; lia).
    by apply lookup_replicate_2.
  - intros j x Hj.
    destruct (Nat.lt_ge_cases j (M - length (flat_input_ids samples)))
      as [Hpadding|Hcontent].
    + left. rewrite lookup_app_l in Hj by (rewrite length_replicate; lia).
      by apply lookup_replicate_1 in Hj as [-> _].
    + rewrite lookup_app_r in Hj by (rewrite length_replicate; lia).
      rewrite length_replicate, lookup_drop in Hj.
      destruct (Hpre _ _ Hj) as [->|Hflat]; [by left|]. right.
      rewrite lookup_app_r by (rewrite length_replicate; lia).
      by rewrite length_replicate, lookup_drop.
Qed.

(** An instance of X6: the item of the last row of the conversation. *)
Lemma item_layout_example :
  exists (samples : list Sample) (pad : Z)
         (input_ids attention_mask labels : Torch.Tensor),
    _read_data_samples 5 Example.conversation_validation 2
      Example.random_state = Ok (samples, Example.last_state) /\
    TextUtils.pad_token_id (tokenizer Example.conversation_validation)
      = Some pad /\
    Example.last_item !! "input_ids" = Some input_ids /\
    Example.last_item !! "attention_mask" = Some attention_mask /\
    Example.last_item !! "labels" = Some labels /\
    input_ids
      = replicate
          (Z.to_nat (Cfg.max_length
                       (Cfg.tokenizer (cfg Example.conversation_validation)))
           - length (flat_input_ids samples)) pad
        ++ drop (length (flat_input_ids samples)
                 - Z.to_nat
                     (Cfg.max_length
                        (Cfg.tokenizer
                           (cfg Example.conversation_validation))))
             (flat_input_ids samples) /\
    attention_mask
      = replicate
          (Z.to_nat (Cfg.max_length
                       (Cfg.tokenizer (cfg Example.conversation_validation)))
           - length (flat_input_ids samples)) 0
        ++ replicate
             (Nat.min (length (flat_input_ids samples))
                (Z.to_nat
                   (Cfg.max_length
                      (Cfg.tokenizer
                         (cfg Example.conversation_validation))))) 1 /\
    (forall j : nat,
       (j < Z.to_nat
              (Cfg.max_length
                 (Cfg.tokenizer (cfg Example.conversation_validation)))
            - length (flat_input_ids samples))%nat ->
       labels !! j = Some (-100)) /\
    (forall (j : nat) (x : Z),
       labels !! j = Some x -> x = -100 \/ input_ids !! j = Some x).
Proof.
  apply (item_layout 5 Example.conversation_validation 2
           Example.random_state Example.last_state Example.last_item).
  - exact last_read_Ok.
  - vm_compute. congruence.
Defined.

End Layout.

(** ** The flat sequence of a chain *)

Section ChainOrder.

Import Pandas CustomDataset Chain.

(** The [input_ids] of an item are the flat sequence of its samples,
    padded on the left or cut on the left to [max_length] ids. *)
Lemma read_data_tensors_input_ids (self : t) (samples : list Sample)
    (sample item : Item) :
  _read_data_tensors self samples sample = Ok item ->
  1 <= Cfg.max_length (Cfg.tokenizer (cfg self)) ->
  exists pad : Z,
    TextUtils.pad_token_id (tokenizer self) = Some pad /\
    item !! "input_ids"
      = Some (replicate
                (Z.to_nat (Cfg.max_length (Cfg.tokenizer (cfg self)))
                 - length (flat_input_ids samples)) pad
              ++ drop (length (flat_input_ids samples)
                       - Z.to_nat
                           (Cfg.max_length (Cfg.tokenizer (cfg self))))
                   (flat_input_ids samples)).
Proof.
  intros H Hm.
  apply read_data_tensors_inv in H
    as (labels & out & padded & samples' & padded' & _ & _ & _
        & Hpadded & _ & Hpadded' & ->).
  destruct (pad_tokens_pad _ _ _ _ _ _ Hpadded) as [pad Hpad].
  rewrite Hpad in Hpadded, Hpadded'.
  pose proof (pad_tokens_padded _ _ _ _ _ _ Hpadded Hm
                (length_replicate _ _)) as [Hids _].
  apply pad_tokens_Ok in Hpadded' as (pids & pmask & -> & _).
  change ("prompt_" +:+ "attention_mask") with "prompt_attention_mask".
  change ("prompt_" +:+ "input_ids") with "prompt_input_ids".
  change ("" +:+ "input_ids") with "input_ids" in Hids.
  exists pad. split; [exact Hpad|].
  rewrite !lookup_union, Hids.
  rewrite !lookup_insert_ne, lookup_empty by done.
  by destruct (sample !! "input_ids").
Qed.

(** C1. Rows A (no mapped parent), B (parent A) and C (parent B), with
    parent chaining enabled and both probabilities zero, in a dataset
    with positive context lengths whose tokenizer has the special token
    ids: [_read_data] returns an item for C; the list of samples that it
    builds is A, B, C; and the [input_ids] of the item are the prompt
    and answer ids of A, then those of B, then those of C, after
    padding ids when they are fewer than [max_length], and without
    their first ids when they are more. In particular, with no more
    than [max_length] ids, what follows the padding is this
    concatenation. *)
Theorem C1_chain_ordering (fuel : nat) (self : t) (pids : list cell)
    (iA iB iC : nat) (pA pB pC : cell) (sA sB sC : Sample)
    (sample : Item) (rs : Random.RandomState) :
  parent_ids self = Some pids ->
  pids !! iA = Some pA -> df_id_to_idx self !! pA = None ->
  pids !! iB = Some pB -> df_id_to_idx self !! pB = Some iA ->
  pids !! iC = Some pC -> df_id_to_idx self !! pC = Some iB ->
  (Cfg.skip_parent_probability (Cfg.augmentation (cfg self)) == 0)%Q ->
  (Cfg.random_parent_probability (Cfg.augmentation (cfg self)) == 0)%Q ->
  _get_sample self (Z.of_nat iA) = Ok sA ->
  _get_sample self (Z.of_nat iB) = Ok sB ->
  _get_sample self (Z.of_nat iC) = Ok sC ->
  (3 <= fuel)%nat ->
  1 <= Cfg.max_length (Cfg.tokenizer (cfg self)) ->
  1 <= Cfg.max_length_prompt (Cfg.tokenizer (cfg self)) ->
  is_Some (TextUtils.pad_token_id (tokenizer self)) ->
  (Cfg.add_eos_token_to_answer (Cfg.dataset (cfg self)) = true ->
   is_Some (TextUtils.eos_token_id (tokenizer self))) ->
  sC.1 <> [] ->
  let flat := (sA.1 ++ sA.2) ++ (sB.1 ++ sB.2) ++ (sC.1 ++ sC.2) in
  let max_length :=
    Z.to_nat (Cfg.max_length (Cfg.tokenizer (cfg self))) in
  exists (item : Item) (rs' : Random.RandomState) (pad : Z),
    _read_data_samples fuel self (Z.of_nat iC) rs
      = Ok ([sA; sB; sC], rs') /\
    _read_data fuel self (Z.of_nat iC) sample rs = Ok (item, rs') /\
    TextUtils.pad_token_id (tokenizer self) = Some pad /\
    item !! "input_ids"
      = Some (replicate (max_length - length flat) pad
              ++ drop (length flat - max_length) flat) /\
    ((length flat <= max_length)%nat ->
     item !! "input_ids"
       = Some (replicate (max_length - length flat) pad ++ flat)).
Proof.
  intros Hpids HA HrootA HB HparentB HC HparentC Hskip Hrandom HsA HsB HsC
    Hfuel Hm Hmp Hpad Heos Hprompt flat max_length.
  destruct fuel as [|[|[|fuel]]]; try lia.
  apply index_Ok in HA, HB, HC.
  destruct (walk_parent_no_skip self pids (S (S fuel)) _ _ _ _ [sC] rs
              Hskip HC HparentC HsB) as [rs1 Hstep1].
  destruct (walk_parent_no_skip self pids (S fuel) _ _ _ _ [sB; sC] rs1
              Hskip HB HparentB HsA) as [rs2 Hstep2].
  pose proof (walk_root self pids fuel _ _ [sA; sB; sC] rs2 HA HrootA)
    as Hstep3.
  destruct (no_random_parent self [sA; sB; sC] rs2 Hrandom) as [rs' Hrnd].
  assert (_read_data_samples (S (S (S fuel))) self (Z.of_nat iC) rs
            = Ok ([sA; sB; sC], rs')) as Hsamples.
  { unfold _read_data_samples. rewrite HsC, Hpids.
    cbn [mbind outcome_bind]. rewrite Hstep1, Hstep2, Hstep3. exact Hrnd. }
  destruct (read_data_tensors_returns self [sA; sB] sC sample
              Hm Hmp Hpad Heos Hprompt) as [item Hitem].
  change ([sA; sB] ++ [sC]) with [sA; sB; sC] in Hitem.
  destruct (read_data_tensors_input_ids self _ _ _ Hitem Hm)
    as (pad & Hpadid & Hids).
  assert (flat_input_ids [sA; sB; sC] = flat) as Hflat.
  { unfold flat_input_ids, Torch.cat. simpl. by rewrite !app_nil_r. }
  rewrite Hflat in Hids.
  exists item, rs', pad. split; [exact Hsamples|]. split.
  { unfold _read_data. rewrite Hsamples. cbn [mbind outcome_bind].
    by rewrite Hitem. }
  split; [exact Hpadid|]. split; [exact Hids|].
  intros Hshort. rewrite Hids. subst max_length.
  replace (length flat
           - Z.to_nat (Cfg.max_length (Cfg.tokenizer (cfg self))))%nat
    with 0%nat by lia.
  reflexivity.
Qed.

Lemma Ok_pair_inj {A B : Type} (a a' : A) (b b' : B) :
  @Ok (A * B) (a, b) = Ok (a', b') -> a = a' /\ b = b'.
Proof. by intros [= -> ->]. Qed.

(** The items of the examples are read. *)
Lemma train_read_Ok :
  _read_data 3 Example.conversation_train 2 ∅ Example.random_state
    = Ok (Example.train_item, Example.train_state).
Proof. vm_compute. reflexivity. Qed.

Lemma roomy_read_Ok :
  _read_data 3 Example.conversation_roomy 2 ∅ Example.random_state
    = Ok (Example.roomy_item, Example.roomy_state).
Proof. vm_compute. reflexivity. Qed.

(** An instance of C1: the conversation A, B, C of the examples, whose
    three rows have 25, 25 and 27 ids. With [max_length = 32] the item
    holds the last 32 of these 77 ids; with [max_length = 96] it holds
    19 padding ids, then the ids of A, of B and of C. *)
Lemma C1_chain_ordering_example :
  Example.train_item !! "input_ids"
    = Some (drop 45
              ((Example.sample_A.1 ++ Example.sample_A.2)
               ++ (Example.sample_B.1 ++ Example.sample_B.2)
               ++ (Example.sample_C.1 ++ Example.sample_C.2))) /\
  Example.roomy_item !! "input_ids"
    = Some (replicate 19 11
            ++ (Example.sample_A.1 ++ Example.sample_A.2)
            ++ (Example.sample_B.1 ++ Example.sample_B.2)
            ++ (Example.sample_C.1 ++ Example.sample_C.2)).
Proof.
  split.
  - pose proof (C1_chain_ordering 3 Example.conversation_train
                  [None; Some "A"; Some "B"] 0 1 2 None (Some "A")
                  (Some "B") Example.sample_A Example.sample_B
                  Example.sample_C ∅ Example.random_state) as H.
    do 13 (specialize (H ltac:(vm_compute; reflexivity))).
    do 2 (specialize (H ltac:(vm_compute; congruence))).
    specialize (H ltac:(exists 11; vm_compute; reflexivity)).
    specialize (H ltac:(intros _; exists 11; vm_compute; reflexivity)).
    specialize (H ltac:(vm_compute; congruence)).
    cbv zeta in H.
    destruct H as (item & rs' & pad & _ & Hread & _ & Hids & _).
    change (_read_data 3 Example.conversation_train 2 ∅
              Example.random_state = Ok (item, rs')) in Hread.
    rewrite train_read_Ok in Hread.
    apply Ok_pair_inj in Hread as [<- _].
    rewrite Hids. vm_compute. reflexivity.
  - pose proof (C1_chain_ordering 3 Example.conversation_roomy
                  [None; Some "A"; Some "B"] 0 1 2 None (Some "A")
                  (Some "B") Example.sample_A Example.sample_B
                  Example.sample_C ∅ Example.random_state) as H.
    do 13 (specialize (H ltac:(vm_compute; reflexivity))).
    do 2 (specialize (H ltac:(vm_compute; congruence))).
    specialize (H ltac:(exists 11; vm_compute; reflexivity)).
    specialize (H ltac:(intros _; exists 11; vm_compute; reflexivity)).
    specialize (H ltac:(vm_compute; congruence)).
    cbv zeta in H.
    destruct H as (item & rs' & pad & _ & Hread & Hpad & _ & Hids).
    change (_read_data 3 Example.conversation_roomy 2 ∅
              Example.random_state = Ok (item, rs')) in Hread.
    rewrite roomy_read_Ok in Hread.
    apply Ok_pair_inj in Hread as [<- _].
    rewrite Hids by (vm_compute; lia).
    vm_compute in Hpad. injection Hpad as <-. vm_compute. reflexivity.
Defined.

End ChainOrder.

(** ** The prompt view of an item *)

Section PromptView.

Import CustomDataset Chain.

(** X7. The prompt tensors of an item, for [max_length_prompt >= 1]:
    [prompt_input_ids] holds, after padding ids, the last
    [max_length_prompt] ids of the samples put in front of the requested
    row followed by the prompt of the requested row; the ids of the
    answer of the requested row are not part of it.
    [prompt_attention_mask] holds a one for each of these ids after
    zeros. *)
Theorem prompt_view (fuel : nat) (self : t) (idx : Z)
    (rs rs' : Random.RandomState) (item : Item) :
  __getitem__ fuel self idx rs = Ok (item, rs') ->
  1 <= Cfg.max_length_prompt (Cfg.tokenizer (cfg self)) ->
  exists (pre : list Sample) (s : Sample) (pad : Z),
    _read_data_samples fuel self idx rs = Ok (pre ++ [s], rs') /\
    _get_sample self idx = Ok s /\
    TextUtils.pad_token_id (tokenizer self) = Some pad /\
    item !! "prompt_input_ids"
      = Some (replicate
                (Z.to_nat (Cfg.max_length_prompt (Cfg.tokenizer (cfg self)))
                 - length (flat_input_ids pre ++ s.1)) pad
              ++ drop (length (flat_input_ids pre ++ s.1)
                       - Z.to_nat (Cfg.max_length_prompt
                                     (Cfg.tokenizer (cfg self))))
                   (flat_input_ids pre ++ s.1)) /\
    item !! "prompt_attention_mask"
      = Some (replicate
                (Z.to_nat (Cfg.max_length_prompt (Cfg.tokenizer (cfg self)))
                 - length (flat_input_ids pre ++ s.1)) 0
              ++ replicate
                   (Nat.min (length (flat_input_ids pre ++ s.1))
                      (Z.to_nat (Cfg.max_length_prompt
                                   (Cfg.tokenizer (cfg self))))) 1).
Proof.
  intros H Hm. apply getitem_Ok in H as (samples & Hsamples & H).
  pose proof (read_data_samples_Ok _ _ _ _ _ _ Hsamples)
    as (pre & s & -> & Hs & _).
  apply read_data_tensors_inv in H
    as (labels & out & padded & samples' & padded' & _ & _ & _
        & Hpadded & Hclear & Hpadded' & ->).
  rewrite clear_last_answer_snoc in Hclear. injection Hclear as <-.
  destruct (pad_tokens_pad _ _ _ _ _ _ Hpadded) as [pad Hpad].
  rewrite Hpad in Hpadded'.
  pose proof (pad_tokens_padded _ _ _ _ _ _ Hpadded' Hm
                (length_replicate _ _)) as [Hids Hmask].
  change ("prompt_" +:+ "input_ids") with "prompt_input_ids" in Hids.
  change ("prompt_" +:+ "attention_mask")
    with "prompt_attention_mask" in Hmask.
  rewrite flat_input_ids_app, flat_input_ids_singleton in Hids, Hmask.
  simpl in Hids, Hmask. rewrite app_nil_r in Hids, Hmask.
  exists pre, s, pad.
  split; [exact Hsamples|]. split; [exact Hs|]. split; [exact Hpad|].
  rewrite !(lookup_union_l' padded') by (by rewrite ?Hids, ?Hmask).
  split; [exact Hids|]. rewrite Hmask.
  unfold Torch.ones_like. rewrite drop_replicate. do 3 f_equal. lia.
Qed.

(** An instance of X7: the item of the last row of the conversation. *)
Lemma prompt_view_example :
  exists (pre : list Sample) (s : Sample) (pad : Z),
    _read_data_samples 5 Example.conversation_validation 2
      Example.random_state = Ok (pre ++ [s], Example.last_state) /\
    _get_sample Example.conversation_validation 2 = Ok s /\
    TextUtils.pad_token_id (tokenizer Example.conversation_validation)
      = Some pad /\
    Example.last_item !! "prompt_input_ids"
      = Some (replicate
                (Z.to_nat
                   (Cfg.max_length_prompt
                      (Cfg.tokenizer (cfg Example.conversation_validation)))
                 - length (flat_input_ids pre ++ s.1)) pad
              ++ drop (length (flat_input_ids pre ++ s.1)
                       - Z.to_nat
                           (Cfg.max_length_prompt
                              (Cfg.tokenizer
                                 (cfg Example.conversation_validation))))
                   (flat_input_ids pre ++ s.1)) /\
    Example.last_item !! "prompt_attention_mask"
      = Some (replicate
                (Z.to_nat
                   (Cfg.max_length_prompt
                      (Cfg.tokenizer (cfg Example.conversation_validation)))
                 - length (flat_input_ids pre ++ s.1)) 0
              ++ replicate
                   (Nat.min (length (flat_input_ids pre ++ s.1))
                      (Z.to_nat
                         (Cfg.max_length_prompt
                            (Cfg.tokenizer
                               (cfg Example.conversation_validation))))) 1).
Proof.
  apply (prompt_view 5 Example.conversation_validation 2
           Example.random_state Example.last_state Example.last_item).
  - exact last_read_Ok.
  - vm_compute. congruence.
Defined.

End PromptView.

(** ** Chains of any length *)

Section Lineages.

Import Pandas CustomDataset Chain Lineage.

(** The walk puts the samples of the ancestors in front of the list,
    oldest first, when no parent is skipped. *)
Lemma walk_lineage (self : t) (pids : list cell) (fuel : nat) (i : Z)
    (samples samples' : list Sample) (rs rs' : Random.RandomState) :
  (String.eqb (mode self) "train" = true ->
   (Cfg.skip_parent_probability (Cfg.augmentation (cfg self)) == 0)%Q) ->
  _read_data_walk fuel self pids i samples rs = Ok (samples', rs') ->
  exists (n : nat) (pre : list Sample),
    (n <= fuel)%nat /\
    ancestor self pids n i = None /\
    samples' = pre ++ samples /\
    Forall2 (fun (j : Z) (s : Sample) => _get_sample self j = Ok s)
      (reverse (lineage self pids n i)) pre /\
    (String.eqb (mode self) "train" = false -> rs' = rs).
Proof.
  intros Hskip. revert i samples rs.
  induction fuel as [|fuel IH]; intros i samples rs H; [discriminate|].
  simpl in H. bind_inv H as pid Hpid.
  destruct (df_id_to_idx self !! pid) as [j|] eqn:Hj.
  2:{ injection H as <- <-. exists 1%nat, [].
      split; [lia|]. simpl. unfold parent. rewrite Hpid, Hj.
      repeat split; constructor. }
  assert (forall rs0,
    (String.eqb (mode self) "train" = false -> rs0 = rs) ->
    (_get_sample self (Z.of_nat j) ≫= fun s =>
       _read_data_walk fuel self pids (Z.of_nat j) (s :: samples) rs0)
      = Ok (samples', rs') ->
    exists (n : nat) (pre : list Sample),
      (n <= S fuel)%nat /\
      ancestor self pids n i = None /\
      samples' = pre ++ samples /\
      Forall2 (fun (j : Z) (s : Sample) => _get_sample self j = Ok s)
        (reverse (lineage self pids n i)) pre /\
      (String.eqb (mode self) "train" = false -> rs' = rs)) as Hstep.
  { intros rs0 Hrs0 H0. bind_inv H0 as s Hs.
    apply IH in H0 as (n & pre & Hn & Hnone & -> & Hpre & Hrs).
    exists (S n), (pre ++ [s]). split; [lia|]. simpl. unfold parent.
    rewrite Hpid, Hj. split; [exact Hnone|].
    split; [by rewrite <- app_assoc|]. split.
    - rewrite reverse_cons. apply Forall2_app; [exact Hpre|].
      by repeat constructor.
    - intros Hmode. rewrite (Hrs Hmode). by apply Hrs0. }
  destruct (String.eqb (mode self) "train") eqn:Hmode.
  - pose proof (random_not_lt_zero rs _ (Hskip eq_refl)) as Hlt.
    destruct (Random.random rs) as [x rs1]. simpl in Hlt.
    rewrite Hlt in H. by apply (Hstep rs1).
  - by apply (Hstep rs).
Qed.

(** X8. Without augmentation (outside train mode, or in train mode with
    both probabilities zero) the samples of a row are the encodings of
    its ancestors under the id-to-index map, the oldest ancestor first,
    followed by the encoding of the row itself: nothing else is in the
    list, whatever the length of the chain. Outside train mode the
    random source is left as it was. *)
Theorem samples_are_lineage (fuel : nat) (self : t) (pids : list cell)
    (idx : Z) (samples : list Sample) (rs rs' : Random.RandomState) :
  parent_ids self = Some pids ->
  (String.eqb (mode self) "train" = true ->
   (Cfg.skip_parent_probability (Cfg.augmentation (cfg self)) == 0)%Q /\
   (Cfg.random_parent_probability (Cfg.augmentation (cfg self)) == 0)%Q) ->
  _read_data_samples fuel self idx rs = Ok (samples, rs') ->
  exists n : nat,
    (n <= fuel)%nat /\
    ancestor self pids n idx = None /\
    Forall2 (fun (j : Z) (s : Sample) => _get_sample self j = Ok s)
      (reverse (lineage self pids n idx) ++ [idx]) samples /\
    (String.eqb (mode self) "train" = false -> rs' = rs).
Proof.
  intros Hpids Haug H. unfold _read_data_samples in H.
  bind_inv H as s Hs. rewrite Hpids in H.
  bind_inv H as walked Hwalked. destruct walked as [samples0 rs0].
  apply walk_lineage in Hwalked
    as (n & pre & Hn & Hnone & -> & Hpre & Hrs);
    [|intros Hmode; by apply Haug].
  assert (samples = pre ++ [s] /\
          (String.eqb (mode self) "train" = false -> rs' = rs0))
    as [-> Hrs'].
  { destruct (String.eqb (mode self) "train") eqn:Hmode.
    - destruct (Haug eq_refl) as [_ Hrandom].
      pose proof (random_not_lt_zero rs0 _ Hrandom) as Hlt.
      destruct (Random.random rs0) as [x rs1]. simpl in Hlt.
      rewrite Hlt in H. injection H as <- <-. by split.
    - injection H as <- <-. by split. }
  exists n. split; [exact Hn|]. split; [exact Hnone|]. split.
  - apply Forall2_app; [exact Hpre|]. by repeat constructor.
  - intros Hmode. rewrite (Hrs' Hmode). by apply Hrs.
Qed.

(** An instance of X8: the conversation A, B, C in validation mode. *)
Lemma samples_are_lineage_example :
  exists n : nat,
    (n <= 5)%nat /\
    ancestor Example.conversation_validation [None; Some "A"; Some "B"] n 2
      = None /\
    Forall2
      (fun (j : Z) (s : Sample) =>
         _get_sample Example.conversation_validation j = Ok s)
      (reverse (lineage Example.conversation_validation
                  [None; Some "A"; Some "B"] n 2) ++ [2])
      [Example.sample_A; Example.sample_B; Example.sample_C] /\
    (String.eqb (mode Example.conversation_validation) "train" = false ->
     Example.random_state = Example.random_state).
Proof.
  apply (samples_are_lineage 5 Example.conversation_validation
           [None; Some "A"; Some "B"] 2
           [Example.sample_A; Example.sample_B; Example.sample_C]
           Example.random_state Example.random_state).
  - vm_compute. reflexivity.
  - vm_compute. discriminate.
  - vm_compute. reflexivity.
Defined.

(** X9. In train mode with a skip probability of one or more, the walk
    over the parents stops at its first step: one unit of fuel is
    enough, no ancestor is put in front of the samples, and one draw is
    taken when the row has a mapped parent, also when the chain of
    parents runs into a cycle. *)
Theorem skip_always_cuts_chain (fuel : nat) (self : t) (pids : list cell)
    (idx : Z) (parent_id : cell) (samples : list Sample)
    (rs : Random.RandomState) :
  mode self = "train" ->
  (1 <= Cfg.skip_parent_probability (Cfg.augmentation (cfg self)))%Q ->
  Py.index pids idx = Ok parent_id ->
  (1 <= fuel)%nat ->
  _read_data_walk fuel self pids idx samples rs
    = Ok (samples,
          match df_id_to_idx self !! parent_id with
          | Some _ => (Random.random rs).2
          | None => rs
          end).
Proof.
  intros Hmode Hskip Hidx Hfuel. destruct fuel as [|fuel]; [lia|].
  simpl. rewrite Hidx. simpl.
  destruct (df_id_to_idx self !! parent_id) as [j|]; [|reflexivity].
  rewrite Hmode. simpl.
  pose proof (random_lt_one rs _ Hskip) as Hlt.
  destruct (Random.random rs) as [x rs1]. simpl in Hlt. by rewrite Hlt.
Qed.

(** An instance of X9: the circular frame in train mode. *)
Lemma skip_always_cuts_chain_example :
  _read_data_walk 1 (Example.dataset Example.circular (Example.config 1 0)
                       "train")
    [Some "Y"; Some "X"; Some "Y"] 2 [Example.sample_C] Example.random_state
    = Ok ([Example.sample_C],
          match df_id_to_idx
                  (Example.dataset Example.circular (Example.config 1 0)
                     "train") !! Some "Y" with
          | Some _ => (Random.random Example.random_state).2
          | None => Example.random_state
          end).
Proof.
  apply (skip_always_cuts_chain 1
           (Example.dataset Example.circular (Example.config 1 0) "train")
           [Some "Y"; Some "X"; Some "Y"] 2 (Some "Y") [Example.sample_C]
           Example.random_state).
  - vm_compute. reflexivity.
  - vm_compute. discriminate.
  - vm_compute. reflexivity.
  - lia.
Defined.

End Lineages.

(** ** Row indices and the id-to-index map *)

Section Rows.

Import Pandas CustomDataset Chain.

(** A negative index counts from the end. *)
Lemma index_wraps {A : Type} (l : list A) (i : Z) :
  0 <= i < Py.len l -> Py.index l (i - Py.len l) = Py.index l i.
Proof.
  unfold Py.len, Py.index. intros Hi.
  destruct (Z.ltb_spec (i - Z.of_nat (length l)) 0) as [_|?]; [|lia].
  destruct (Z.ltb_spec i 0) as [?|_]; [lia|].
  replace (Z.of_nat (length l) + (i - Z.of_nat (length l))) with i by lia.
  reflexivity.
Qed.

Lemma index_out_of_range {A : Type} (l : list A) (i : Z) :
  ~ (- Py.len l <= i < Py.len l) -> Py.index l i = Raise IndexError.
Proof.
  unfold Py.len, Py.index. intros Hi.
  destruct (Z.ltb_spec i 0) as [Hneg|Hpos].
  - destruct (Z.ltb_spec (Z.of_nat (length l) + i) 0) as [_|?];
      [reflexivity | lia].
  - destruct (Z.ltb_spec i 0) as [?|_]; [lia|].
    destruct (l !! Z.to_nat i) as [x|] eqn:Hx; [|reflexivity].
    apply lookup_lt_Some in Hx. lia.
Qed.

Lemma index_in_range_neg {A : Type} (l : list A) (i : Z) :
  - Py.len l <= i < Py.len l -> exists x, Py.index l i = Ok x.
Proof.
  intros Hi. destruct (Z.lt_ge_cases i 0) as [Hneg|Hpos].
  - replace i with ((i + Py.len l) - Py.len l) by lia.
    rewrite index_wraps by lia. apply index_in_range. lia.
  - apply index_in_range. lia.
Qed.

(** The lengths that a constructed dataset holds. *)
Lemma init_lengths (codec : string -> option string)
    (pretrained : TextUtils.Tokenizer) (df0 : DataFrame) (cfg0 : Cfg.t)
    (mode0 : string) (self : t) :
  __init__ codec pretrained df0 cfg0 mode0 = Ok self ->
  Py.len (prompts self) = __len__ self /\
  Py.len (answers self) = __len__ self /\
  (forall pids, parent_ids self = Some pids ->
                Py.len pids = __len__ self).
Proof.
  intros H.
  apply init_Ok in H as (_ & _ & _ & _ & Hdf & _ & _ & Hp & Ha & _ & Hpids).
  unfold __len__, shape0, Py.len. rewrite Hdf, Hp, Ha, !length_fmap.
  repeat split. intros pids Hsome. by rewrite (Hpids _ Hsome).
Qed.

(** X10. The rows that [_get_sample] encodes in a constructed dataset
    are those with an index from [-len] to [len - 1], provided that the
    tokenizer has the end-of-sequence id that [add_eos_token_to_answer]
    asks for; every other index raises an [IndexError]; and [__len__] is
    the number of prompts and the number of answers. *)
Theorem get_sample_domain (codec : string -> option string)
    (pretrained : TextUtils.Tokenizer) (df0 : DataFrame) (cfg0 : Cfg.t)
    (mode0 : string) (self : t) (idx : Z) :
  __init__ codec pretrained df0 cfg0 mode0 = Ok self ->
  (Cfg.add_eos_token_to_answer (Cfg.dataset (cfg self)) = true ->
   is_Some (TextUtils.eos_token_id (tokenizer self))) ->
  __len__ self = Py.len (prompts self) /\
  __len__ self = Py.len (answers self) /\
  ((exists s, _get_sample self idx = Ok s) <->
   - __len__ self <= idx < __len__ self) /\
  (~ (- __len__ self <= idx < __len__ self) ->
   _get_sample self idx = Raise IndexError).
Proof.
  intros H Heos. apply init_lengths in H as (Hp & Ha & _).
  split; [done|]. split; [done|].
  assert (~ (- __len__ self <= idx < __len__ self) ->
          _get_sample self idx = Raise IndexError) as Hout.
  { intros Hidx. unfold _get_sample.
    rewrite (index_out_of_range (prompts self)) by (by rewrite Hp).
    reflexivity. }
  split; [|exact Hout]. split.
  - intros [s Hs].
    destruct (decide (- __len__ self <= idx < __len__ self)) as [|Hidx];
      [assumption|].
    rewrite (Hout Hidx) in Hs. discriminate.
  - intros Hidx. unfold _get_sample.
    destruct (index_in_range_neg (prompts self) idx) as [p ->];
      [by rewrite Hp|].
    destruct (index_in_range_neg (answers self) idx) as [a ->];
      [by rewrite Ha|].
    simpl. destruct (Cfg.add_eos_token_to_answer _); [|by eauto].
    destruct (Heos eq_refl) as [eos ->]. simpl. by eauto.
Qed.

(** An instance of X10: index 3 of the conversation of three rows. *)
Lemma get_sample_domain_example :
  __len__ Example.conversation_validation
    = Py.len (prompts Example.conversation_validation) /\
  __len__ Example.conversation_validation
    = Py.len (answers Example.conversation_validation) /\
  ((exists s, _get_sample Example.conversation_validation 3 = Ok s) <->
   - __len__ Example.conversation_validation <= 3
     < __len__ Example.conversation_validation) /\
  (~ (- __len__ Example.conversation_validation <= 3
      < __len__ Example.conversation_validation) ->
   _get_sample Example.conversation_validation 3 = Raise IndexError).
Proof.
  apply (get_sample_domain Example.codec Example.pretrained
           Example.conversation (Example.config (1 # 2) (1 # 2))
           "validation" Example.conversation_validation 3).
  - exact conversation_validation_init.
  - intros _. vm_compute. by eexists.
Defined.

(** X11. In a constructed dataset a negative index addresses a row from
    the end: the item at [idx - len], for a row index [idx], is the item
    at [idx], with the same fuel and the same draws. *)
Theorem getitem_negative_index (codec : string -> option string)
    (pretrained : TextUtils.Tokenizer) (df0 : DataFrame) (cfg0 : Cfg.t)
    (mode0 : string) (self : t) (fuel : nat) (idx : Z)
    (rs : Random.RandomState) :
  __init__ codec pretrained df0 cfg0 mode0 = Ok self ->
  0 <= idx < __len__ self ->
  __getitem__ fuel self (idx - __len__ self) rs
    = __getitem__ fuel self idx rs.
Proof.
  intros H Hidx. apply init_lengths in H as (Hp & Ha & Hpids).
  assert (_get_sample self (idx - __len__ self) = _get_sample self idx)
    as Hsample.
  { unfold _get_sample.
    rewrite <- (index_wraps (prompts self) idx) by lia.
    rewrite <- (index_wraps (answers self) idx) by lia.
    by rewrite Hp, Ha. }
  unfold __getitem__, _read_data, _read_data_samples. rewrite Hsample.
  destruct (_get_sample self idx) as [s| |]; try reflexivity.
  cbn [mbind outcome_bind].
  destruct (parent_ids self) as [pids|] eqn:Hsome; [|reflexivity].
  specialize (Hpids pids eq_refl).
  assert (_read_data_walk fuel self pids (idx - __len__ self) [s] rs
            = _read_data_walk fuel self pids idx [s] rs) as ->;
    [|reflexivity].
  destruct fuel as [|fuel]; [reflexivity|]. simpl.
  rewrite <- (index_wraps pids idx) by lia. by rewrite Hpids.
Qed.

(** An instance of X11: row 2 of the conversation is row -1. *)
Lemma getitem_negative_index_example :
  __getitem__ 5 Example.conversation_validation
    (2 - __len__ Example.conversation_validation) Example.random_state
    = __getitem__ 5 Example.conversation_validation 2 Example.random_state.
Proof.
  apply (getitem_negative_index Example.codec Example.pretrained
           Example.conversation (Example.config (1 # 2) (1 # 2))
           "validation" Example.conversation_validation 5 2
           Example.random_state).
  - exact conversation_validation_init.
  - vm_compute. split; congruence.
Defined.

(** Enumerating one more id maps it to its position. *)
Lemma id_to_idx_snoc (ids : list cell) (x : cell) :
  id_to_idx (ids ++ [x]) = <[x := length ids]> (id_to_idx ids).
Proof.
  unfold id_to_idx. rewrite length_app. simpl length.
  rewrite Nat.add_1_r, seq_S. simpl.
  rewrite zip_with_app by (by rewrite length_seq).
  by rewrite foldl_app.
Qed.

(** X12. The id-to-index map sends an id to the last row that carries
    it: an id is mapped to [j] exactly when row [j] has this id and no
    later row has it. *)
Theorem id_to_idx_last (ids : list cell) (k : cell) (j : nat) :
  id_to_idx ids !! k = Some j <->
  ids !! j = Some k /\ forall j', (j < j')%nat -> ids !! j' <> Some k.
Proof.
  revert j. induction ids as [|x ids IH] using rev_ind; intros j.
  - unfold id_to_idx. simpl. rewrite lookup_empty. split; [done|].
    by intros [? _].
  - rewrite id_to_idx_snoc. destruct (decide (x = k)) as [->|Hx].
    + rewrite lookup_insert_eq. split.
      * intros [= <-]. split; [by rewrite list_lookup_middle|].
        intros j' Hj'. rewrite lookup_ge_None_2; [done|].
        rewrite length_app. simpl. lia.
      * intros [Hj Hlast]. f_equal.
        pose proof (lookup_lt_Some _ _ _ Hj) as Hlt.
        rewrite length_app in Hlt. simpl in Hlt.
        destruct (decide (j = length ids)) as [->|Hne]; [reflexivity|].
        exfalso. apply (Hlast (length ids)); [lia|].
        by rewrite list_lookup_middle.
    + rewrite lookup_insert_ne by done. rewrite IH. split.
      * intros [Hj Hlast]. pose proof (lookup_lt_Some _ _ _ Hj) as Hlt.
        split; [by rewrite lookup_app_l|].
        intros j' Hj'.
        destruct (decide (j' < length ids)%nat) as [Hin|Hout].
        -- rewrite lookup_app_l by assumption. by apply Hlast.
        -- rewrite lookup_app_r by lia.
           destruct (j' - length ids)%nat as [|n]; simpl; [congruence|].
           by rewrite lookup_nil.
      * intros [Hj Hlast].
        assert (j < length ids)%nat as Hlt.
        { pose proof (lookup_lt_Some _ _ _ Hj) as Hlt.
          rewrite length_app in Hlt. simpl in Hlt.
          destruct (decide (j = length ids)) as [->|Hne]; [|lia].
          rewrite list_lookup_middle in Hj by reflexivity. congruence. }
        rewrite lookup_app_l in Hj by assumption. split; [exact Hj|].
        intros j' Hj' Hk. apply (Hlast j' Hj').
        pose proof (lookup_lt_Some _ _ _ Hk).
        by rewrite lookup_app_l.
Qed.

End Rows.

(** ** Edge cases of the construction *)

Section Construction.

Import Pandas CustomDataset Chain.

(** [get_tokenizer] leaves the dataset settings and the rank alone. *)
Lemma get_tokenizer_dataset (pretrained : TextUtils.Tokenizer)
    (cfg0 : Cfg.t) :
  Cfg.dataset (TextUtils.get_tokenizer pretrained cfg0).2
    = Cfg.dataset cfg0 /\
  Cfg._local_rank (TextUtils.get_tokenizer pretrained cfg0).2
    = Cfg._local_rank cfg0.
Proof.
  unfold TextUtils.get_tokenizer. simpl.
  by destruct (TextUtils.has_separator cfg0).
Qed.

(** The parent ids and the id-to-index map of a constructed dataset. *)
Lemma init_parents (codec : string -> option string)
    (pretrained : TextUtils.Tokenizer) (df0 : DataFrame) (cfg0 : Cfg.t)
    (mode0 : string) (self : t) :
  __init__ codec pretrained df0 cfg0 mode0 = Ok self ->
  (parent_ids self, df_id_to_idx self)
    = (if negb (String.eqb (Cfg.parent_id_column (Cfg.dataset cfg0)) "None")
          && has_column df0 "id"
       then (Some ((fun r => r (Cfg.parent_id_column (Cfg.dataset cfg0)))
                     <$> rows df0),
             id_to_idx ((fun r => r "id") <$> rows df0))
       else (None, ∅)).
Proof.
  unfold __init__. intros H.
  destruct (bool_decide (mode0 ∈ ["train"; "validation"]));
    [|discriminate]. cbn [negb] in H.
  destruct (has_column df0 (Cfg.answer_column (Cfg.dataset cfg0)));
    [|discriminate]. cbn [negb orb] in H.
  destruct (shape0 df0 =? Py.len (dropna df0 _)); [|discriminate].
  cbn [negb orb] in H.
  pose proof (get_tokenizer_dataset pretrained cfg0) as [Hds _].
  destruct (TextUtils.get_tokenizer pretrained cfg0) as [tk cfg1].
  simpl in Hds.
  bind_inv H as texts Htexts. bind_inv H as cells Hcells.
  bind_inv H as parents Hparents. destruct parents as [parents map].
  bind_inv H as parsed Hparsed. bind_inv H as logged Hlogged.
  injection H as <-. cbn [parent_ids df_id_to_idx]. rewrite Hds in Hparents.
  destruct (negb (String.eqb _ "None")); cbn [andb];
    [|by injection Hparents as <- <-].
  destruct (has_column df0 "id"); cbn [negb] in Hparents;
    [|by injection Hparents as <- <-].
  bind_inv Hparents as pcells Hpcells. apply values_Ok in Hpcells as ->.
  bind_inv Hparents as ids Hids. apply values_Ok in Hids as ->.
  by injection Hparents as <- <-.
Qed.

(** X13. When parent chaining is switched off
    ([parent_id_column = "None"]) or the frame has no [id] column, the
    constructed dataset holds no parent ids, and reading a row never
    enters the loop over the parents: no fuel is needed, and the list of
    samples is the sample of the row, with at most one random sample in
    front of it in train mode. *)
Theorem chaining_disabled (codec : string -> option string)
    (pretrained : TextUtils.Tokenizer) (df0 : DataFrame) (cfg0 : Cfg.t)
    (mode0 : string) (self : t) :
  __init__ codec pretrained df0 cfg0 mode0 = Ok self ->
  Cfg.parent_id_column (Cfg.dataset cfg0) = "None" \/
  has_column df0 "id" = false ->
  parent_ids self = None /\
  forall (fuel : nat) (idx : Z) (rs : Random.RandomState),
    _read_data_samples fuel self idx rs = _read_data_samples 0 self idx rs /\
    __getitem__ fuel self idx rs = __getitem__ 0 self idx rs /\
    forall samples rs',
      _read_data_samples fuel self idx rs = Ok (samples, rs') ->
      exists s,
        _get_sample self idx = Ok s /\
        (samples = [s] /\ (mode0 = "validation" -> rs' = rs) \/
         mode0 = "train" /\ exists r, encoded self r /\ samples = [r; s]).
Proof.
  intros H Hoff. pose proof (init_parents _ _ _ _ _ _ H) as Hparents.
  apply init_Ok in H as (_ & _ & _ & Hmode & _).
  assert (parent_ids self = None) as Hnone.
  { destruct Hoff as [Hoff|Hoff]; rewrite Hoff in Hparents.
    - simpl in Hparents. congruence.
    - rewrite andb_false_r in Hparents. congruence. }
  split; [exact Hnone|]. intros fuel idx rs.
  assert (_read_data_samples fuel self idx rs
            = _read_data_samples 0 self idx rs) as Hfuel.
  { unfold _read_data_samples. by rewrite Hnone. }
  split; [exact Hfuel|]. split.
  - unfold __getitem__, _read_data. by rewrite Hfuel.
  - intros samples rs' Hread. unfold _read_data_samples in Hread.
    rewrite Hnone in Hread. bind_inv Hread as s Hs.
    cbn [mbind outcome_bind] in Hread. exists s. split; [exact Hs|].
    rewrite Hmode in Hread.
    destruct (String.eqb mode0 "train") eqn:Htrain.
    2:{ injection Hread as <- <-. left. by split. }
    apply String.eqb_eq in Htrain.
    destruct (Random.random rs) as [x rs1].
    destruct (Random.lt x _).
    2:{ injection Hread as <- <-. left. split; [done|]. by rewrite Htrain. }
    bind_inv Hread as drawn Hdrawn. destruct drawn as [rnd_idx rs2].
    bind_inv Hread as r Hr. injection Hread as <- <-.
    right. split; [exact Htrain|]. exists r. split; [by exists rnd_idx|done].
Qed.

(** An instance of X13: the conversation without its [id] column. *)
Lemma chaining_disabled_example :
  parent_ids Example.unlinked_validation = None /\
  forall (fuel : nat) (idx : Z) (rs : Random.RandomState),
    _read_data_samples fuel Example.unlinked_validation idx rs
      = _read_data_samples 0 Example.unlinked_validation idx rs /\
    __getitem__ fuel Example.unlinked_validation idx rs
      = __getitem__ 0 Example.unlinked_validation idx rs /\
    forall samples rs',
      _read_data_samples fuel Example.unlinked_validation idx rs
        = Ok (samples, rs') ->
      exists s,
        _get_sample Example.unlinked_validation idx = Ok s /\
        (samples = [s] /\ ("validation" = "validation" -> rs' = rs) \/
         "validation" = "train" /\
         exists r, encoded Example.unlinked_validation r /\
                   samples = [r; s]).
Proof.
  apply (chaining_disabled Example.codec Example.pretrained
           Example.unlinked (Example.config (1 # 2) (1 # 2)) "validation"
           Example.unlinked_validation).
  - vm_compute. reflexivity.
  - right. vm_compute. reflexivity.
Defined.

(** X14. A frame without rows: with [_local_rank = 0] the constructor
    never returns a dataset, since it logs the first prompt; when the
    columns that it reads are there, it raises an [IndexError] with
    [_local_rank = 0], and returns a dataset of length zero with any
    other rank. *)
Theorem init_empty_frame (codec : string -> option string)
    (pretrained : TextUtils.Tokenizer) (df0 : DataFrame) (cfg0 : Cfg.t)
    (mode0 : string) :
  rows df0 = [] ->
  (Cfg._local_rank cfg0 = 0 ->
   forall self, __init__ codec pretrained df0 cfg0 mode0 <> Ok self) /\
  (forall c : string,
     mode0 ∈ ["train"; "validation"] ->
     has_column df0 (Cfg.answer_column (Cfg.dataset cfg0)) = true ->
     Cfg.prompt_column (Cfg.dataset cfg0) = Cfg.Str c ->
     has_column df0 c = true ->
     has_column df0 (Cfg.parent_id_column (Cfg.dataset cfg0)) = true ->
     if Cfg._local_rank cfg0 =? 0
     then __init__ codec pretrained df0 cfg0 mode0 = Raise IndexError
     else exists self,
            __init__ codec pretrained df0 cfg0 mode0 = Ok self /\
            __len__ self = 0).
Proof.
  intros Hrows. split.
  - intros Hrank self H. pose proof (init_Ok _ _ _ _ _ _ H) as Hinit.
    destruct Hinit as (_ & _ & _ & _ & _ & _ & Hcfg & Hlen & _).
    rewrite Hrows in Hlen. simpl in Hlen.
    unfold __init__ in H.
    destruct (bool_decide (mode0 ∈ ["train"; "validation"]));
      [|discriminate]. cbn [negb] in H.
    destruct (has_column df0 (Cfg.answer_column (Cfg.dataset cfg0)));
      [|discriminate]. cbn [negb orb] in H.
    destruct (shape0 df0 =? Py.len (dropna df0 _)); [|discriminate].
    cbn [negb orb] in H.
    pose proof (get_tokenizer_dataset pretrained cfg0) as [_ Hr].
    destruct (TextUtils.get_tokenizer pretrained cfg0) as [tk cfg1].
    simpl in Hr.
    bind_inv H as texts Htexts. bind_inv H as cells Hcells.
    bind_inv H as parents Hparents. destruct parents as [parents map].
    bind_inv H as parsed Hparsed. bind_inv H as logged Hlogged.
    injection H as <-. cbn [prompts] in Hlen.
    rewrite Hr, Hrank in Hlogged. simpl in Hlogged.
    destruct parsed; [|discriminate]. discriminate.
  - intros c Hmode Hanswer Hprompt Hc Hparent. unfold __init__.
    rewrite bool_decide_eq_true_2 by assumption. cbn [negb].
    pose proof (get_tokenizer_dataset pretrained cfg0) as [Hds Hr].
    destruct (TextUtils.get_tokenizer pretrained cfg0) as [tk cfg1].
    simpl in Hds, Hr.
    rewrite Hanswer. cbn [negb orb].
    unfold shape0, dropna. rewrite Hrows, fmap_nil, filter_nil.
    unfold Py.len. cbn [length Z.of_nat Z.eqb negb orb].
    cbv beta iota zeta.
    unfold TextUtils.get_texts, values.
    rewrite Hds, Hprompt, Hc, Hanswer, Hparent, Hrows, Hr.
    cbn [fmap list_fmap mbind outcome_bind mapM mret outcome_ret].
    assert (forall o : outcome (option (list cell) * gmap cell nat),
              (exists v, o = Ok v) ->
              (o ≫= fun '(parent_ids, df_id_to_idx) =>
                 _ ← (if Cfg._local_rank cfg0 =? 0
                      then Py.index (@nil string) 0 else Ok "");
                 Ok (mk cfg1 mode0 df0 tk [] [] parent_ids df_id_to_idx))
              = (if Cfg._local_rank cfg0 =? 0 then Raise IndexError
                 else o ≫= fun '(parent_ids, df_id_to_idx) =>
                   Ok (mk cfg1 mode0 df0 tk [] [] parent_ids
                         df_id_to_idx))) as Hrest.
    { intros o [[p m] ->]. cbn [mbind outcome_bind].
      by destruct (Cfg._local_rank cfg0 =? 0). }
    destruct (negb (String.eqb _ "None")).
    + destruct (has_column df0 "id"); cbn [negb mbind outcome_bind].
      * destruct (Cfg._local_rank cfg0 =? 0); [reflexivity|].
        eexists. split; [reflexivity|]. unfold __len__, shape0.
        cbn [df]. by rewrite Hrows.
      * destruct (Cfg._local_rank cfg0 =? 0); [reflexivity|].
        eexists. split; [reflexivity|]. unfold __len__, shape0.
        cbn [df]. by rewrite Hrows.
    + cbn [mbind outcome_bind].
      destruct (Cfg._local_rank cfg0 =? 0); [reflexivity|].
      eexists. split; [reflexivity|]. unfold __len__, shape0.
      cbn [df]. by rewrite Hrows.
Qed.

(** An instance of X14: the header of the examples without rows. *)
Lemma init_empty_frame_example :
  (Cfg._local_rank (Example.config 0 0) = 0 ->
   forall self,
     __init__ Example.codec Example.pretrained
       (mkDataFrame Example.header []) (Example.config 0 0) "train"
       <> Ok self) /\
  (forall c : string,
     "train" ∈ ["train"; "validation"] ->
     has_column (mkDataFrame Example.header [])
       (Cfg.answer_column (Cfg.dataset (Example.config 0 0))) = true ->
     Cfg.prompt_column (Cfg.dataset (Example.config 0 0)) = Cfg.Str c ->
     has_column (mkDataFrame Example.header []) c = true ->
     has_column (mkDataFrame Example.header [])
       (Cfg.parent_id_column (Cfg.dataset (Example.config 0 0))) = true ->
     if Cfg._local_rank (Example.config 0 0) =? 0
     then __init__ Example.codec Example.pretrained
            (mkDataFrame Example.header []) (Example.config 0 0) "train"
          = Raise IndexError
     else exists self,
            __init__ Example.codec Example.pretrained
              (mkDataFrame Example.header []) (Example.config 0 0) "train"
              = Ok self /\
            __len__ self = 0).
Proof.
  apply (init_empty_frame Example.codec Example.pretrained
           (mkDataFrame Example.header []) (Example.config 0 0) "train").
  reflexivity.
Defined.

(** X15. When the answer column passes its check and the prompt column
    is not a column of the frame, the constructor raises the [KeyError]
    of the prompt column. *)
Theorem init_missing_prompt_column (codec : string -> option string)
    (pretrained : TextUtils.Tokenizer) (df0 : DataFrame) (cfg0 : Cfg.t)
    (mode0 : string) (c : string) :
  mode0 ∈ ["train"; "validation"] ->
  ~ answer_column_unusable df0 cfg0 ->
  Cfg.prompt_column (Cfg.dataset cfg0) = Cfg.Str c ->
  has_column df0 c = false ->
  __init__ codec pretrained df0 cfg0 mode0 = Raise (KeyError c).
Proof.
  intros Hmode Husable Hprompt Hc. rewrite unusable_iff in Husable.
  unfold __init__. rewrite bool_decide_eq_true_2 by assumption.
  cbn [negb].
  destruct (has_column df0 (Cfg.answer_column (Cfg.dataset cfg0)));
    [|by destruct Husable; left]. cbn [negb orb].
  destruct (shape0 df0 =? Py.len (dropna df0 _));
    [|by destruct Husable; right]. cbn [negb orb].
  pose proof (get_tokenizer_dataset pretrained cfg0) as [Hds _].
  destruct (TextUtils.get_tokenizer pretrained cfg0) as [tk cfg1].
  simpl in Hds. cbv beta iota zeta. unfold TextUtils.get_texts, values.
  by rewrite Hds, Hprompt, Hc.
Qed.

(** An instance of X15: a prompt column that the conversation lacks. *)
Lemma init_missing_prompt_column_example :
  __init__ Example.codec Example.pretrained Example.conversation
    (Cfg.mk "tiiuae/falcon-7b"
       (Cfg.mkDataset "output" (Cfg.Str "question") "parent_id"
          "<|prompt|>" "<|answer|>" false true true None)
       (Cfg.mkTokenizer 32 24 4 false None [])
       (Cfg.mkAugmentation 0 0) [] 0 None None None)
    "train"
    = Raise (KeyError "question").
Proof.
  apply (init_missing_prompt_column Example.codec Example.pretrained
           Example.conversation _ "train" "question").
  - apply elem_of_cons. by left.
  - intros [Hcol|(r & Hr & Hnone)].
    + apply Hcol.
      change ("output" ∈ ["id"; "parent_id"; "instruction"; "output"]).
      rewrite !elem_of_cons. do 3 right. by left.
    + change (Cfg.answer_column _) with "output" in Hnone.
      unfold Example.conversation in Hr. cbn [rows] in Hr.
      rewrite !elem_of_cons, elem_of_nil in Hr.
      destruct Hr as [->|[->|[->|[]]]]; discriminate.
  - reflexivity.
  - reflexivity.
Defined.

End Construction.

(** ** The tokenizer setup *)

Section TokenizerFallbacks.

Import TextUtils.

(** X16. The tokenizer that [get_tokenizer] returns encodes as the
    loaded one and keeps its end-of-sequence token; a loaded tokenizer
    without padding token pads with the end-of-sequence token, so that
    the padding id is the end-of-sequence id; a padding token that was
    there is kept; and the separator token is always set. *)
Theorem get_tokenizer_fallbacks (pretrained : Tokenizer) (cfg : Cfg.t) :
  call (get_tokenizer pretrained cfg).1 = call pretrained /\
  convert_tokens_to_ids (get_tokenizer pretrained cfg).1
    = convert_tokens_to_ids pretrained /\
  eos_token (get_tokenizer pretrained cfg).1 = eos_token pretrained /\
  (pad_token pretrained = None ->
   pad_token_id (get_tokenizer pretrained cfg).1
     = eos_token_id (get_tokenizer pretrained cfg).1) /\
  (is_Some (pad_token pretrained) ->
   pad_token (get_tokenizer pretrained cfg).1 = pad_token pretrained) /\
  is_Some (sep_token (get_tokenizer pretrained cfg).1) /\
  padding_side (get_tokenizer pretrained cfg).1
    = default (padding_side pretrained)
        (Cfg._padding_side (Cfg.tokenizer cfg)).
Proof.
  unfold get_tokenizer, pad_token_id, eos_token_id.
  destruct pretrained as [c ids n side pad eos cls sep unk mask special].
  cbn [fst]. destruct pad, cls, sep; cbn; repeat split; try done;
    try (by intros [? [=]]); by eauto.
Qed.

(** The ids of the unknown and mask tokens and the size of the
    vocabulary are those of the loaded tokenizer. *)
Lemma get_tokenizer_ids (pretrained : Tokenizer) (cfg : Cfg.t) :
  unk_token_id (get_tokenizer pretrained cfg).1 = unk_token_id pretrained /\
  mask_token_id (get_tokenizer pretrained cfg).1
    = mask_token_id pretrained /\
  vocab_size (get_tokenizer pretrained cfg).1 = vocab_size pretrained /\
  eos_token (get_tokenizer pretrained cfg).1 = eos_token pretrained.
Proof.
  unfold get_tokenizer, unk_token_id, mask_token_id.
  destruct pretrained as [c ids n side pad eos cls sep unk mask special].
  cbn [fst]. by destruct pad, cls, sep.
Qed.

(** The configuration that [get_tokenizer] returns, setter by setter. *)
Lemma get_tokenizer_snd (pretrained : Tokenizer) (cfg : Cfg.t) :
  (get_tokenizer pretrained cfg).2
    = Cfg.set_stop_words_ids
        (Cfg.set_tokenizer_eos_token
           (Cfg.set_tokenizer_mask_token_id
              (Cfg.set_tokenizer_sep_token cfg
                 (if has_separator cfg
                  then default "" (Cfg.separator (Cfg.dataset cfg))
                  else default " "
                         (sep_token (get_tokenizer pretrained cfg).1)))
              (resolve_mask_token_id (get_tokenizer pretrained cfg).1))
           (eos_token (get_tokenizer pretrained cfg).1))
        ((fun stop_word =>
            if bool_decide
                 (stop_word
                    ∈ all_special_tokens (get_tokenizer pretrained cfg).1)
            then call (get_tokenizer pretrained cfg).1 stop_word true
            else call (get_tokenizer pretrained cfg).1 stop_word false)
           <$> Cfg.stop_tokens cfg).
Proof.
  unfold get_tokenizer. cbn [fst snd].
  by destruct (has_separator cfg).
Qed.

(** X17. The configuration that [get_tokenizer] returns: the dataset,
    augmentation and length settings are those of the configuration it
    was given; there is one list of stop word ids for each stop token;
    the mask token id is always set, to the unknown-token id, else the
    mask-token id, else the last id of the vocabulary; and the
    end-of-sequence token is the one of the loaded tokenizer. *)
Theorem get_tokenizer_cfg (pretrained : Tokenizer) (cfg : Cfg.t) :
  Cfg.dataset (get_tokenizer pretrained cfg).2 = Cfg.dataset cfg /\
  Cfg.augmentation (get_tokenizer pretrained cfg).2
    = Cfg.augmentation cfg /\
  Cfg.max_length (Cfg.tokenizer (get_tokenizer pretrained cfg).2)
    = Cfg.max_length (Cfg.tokenizer cfg) /\
  Cfg.max_length_prompt (Cfg.tokenizer (get_tokenizer pretrained cfg).2)
    = Cfg.max_length_prompt (Cfg.tokenizer cfg) /\
  Cfg.max_length_answer (Cfg.tokenizer (get_tokenizer pretrained cfg).2)
    = Cfg.max_length_answer (Cfg.tokenizer cfg) /\
  length (Cfg._stop_words_ids
            (Cfg.tokenizer (get_tokenizer pretrained cfg).2))
    = length (Cfg.stop_tokens cfg) /\
  Cfg._tokenizer_eos_token (get_tokenizer pretrained cfg).2
    = Some (eos_token pretrained) /\
  exists id : Z,
    Cfg._tokenizer_mask_token_id (get_tokenizer pretrained cfg).2
      = Some (Some id) /\
    id = default (default (vocab_size pretrained - 1)
                    (mask_token_id pretrained))
           (unk_token_id pretrained).
Proof.
  rewrite get_tokenizer_snd.
  pose proof (get_tokenizer_ids pretrained cfg)
    as (Hunk & Hmask & Hsize & Heos).
  do 5 (split; [reflexivity|]).
  cbn [Cfg._tokenizer_mask_token_id Cfg._tokenizer_eos_token
         Cfg._stop_words_ids Cfg.tokenizer Cfg.set_stop_words_ids
         Cfg.set_tokenizer_eos_token Cfg.set_tokenizer_mask_token_id].
  split; [by rewrite length_fmap|].
  split; [by rewrite Heos|].
  unfold resolve_mask_token_id. rewrite Hunk, Hmask, Hsize.
  destruct (unk_token_id pretrained) as [u|]; [by eexists|].
  destruct (mask_token_id pretrained) as [m|]; by eexists.
Qed.

(** The tokenizer that is returned depends on the padding side of the
    configuration only. *)
Lemma get_tokenizer_fst (pretrained : Tokenizer) (cfg1 cfg2 : Cfg.t) :
  Cfg._padding_side (Cfg.tokenizer cfg1)
    = Cfg._padding_side (Cfg.tokenizer cfg2) ->
  (get_tokenizer pretrained cfg1).1 = (get_tokenizer pretrained cfg2).1.
Proof. unfold get_tokenizer. cbn [fst]. by intros ->. Qed.

(** Setting the four attributes a second time changes nothing. *)
Lemma set_attributes_again (cfg : Cfg.t) (sep : string) (mask : option Z)
    (eos : option string) (ids : list (list Z)) :
  Cfg.set_stop_words_ids
    (Cfg.set_tokenizer_eos_token
       (Cfg.set_tokenizer_mask_token_id
          (Cfg.set_tokenizer_sep_token
             (Cfg.set_stop_words_ids
                (Cfg.set_tokenizer_eos_token
                   (Cfg.set_tokenizer_mask_token_id
                      (Cfg.set_tokenizer_sep_token cfg sep) mask) eos) ids)
             sep) mask) eos) ids
  = Cfg.set_stop_words_ids
      (Cfg.set_tokenizer_eos_token
         (Cfg.set_tokenizer_mask_token_id
            (Cfg.set_tokenizer_sep_token cfg sep) mask) eos) ids.
Proof. reflexivity. Qed.

(** X18. Setting up the tokenizer a second time for the configuration
    that the first call has updated gives the same tokenizer and leaves
    the configuration as it is: the stop word ids are built anew and do
    not pile up. *)
Theorem get_tokenizer_again (pretrained : Tokenizer) (cfg : Cfg.t) :
  get_tokenizer pretrained (get_tokenizer pretrained cfg).2
    = get_tokenizer pretrained cfg.
Proof.
  assert ((get_tokenizer pretrained (get_tokenizer pretrained cfg).2).1
          = (get_tokenizer pretrained cfg).1) as Hfst.
  { apply get_tokenizer_fst. by rewrite get_tokenizer_snd. }
  apply injective_projections; [exact Hfst|].
  rewrite (get_tokenizer_snd pretrained (get_tokenizer pretrained cfg).2).
  rewrite Hfst.
  assert (has_separator (get_tokenizer pretrained cfg).2
          = has_separator cfg) as ->
    by (unfold has_separator; by rewrite get_tokenizer_snd).
  assert (Cfg.dataset (get_tokenizer pretrained cfg).2 = Cfg.dataset cfg)
    as -> by (by rewrite get_tokenizer_snd).
  assert (Cfg.stop_tokens (get_tokenizer pretrained cfg).2
          = Cfg.stop_tokens cfg) as -> by (by rewrite get_tokenizer_snd).
  rewrite (get_tokenizer_snd pretrained cfg).
  apply set_attributes_again.
Qed.

End TokenizerFallbacks.

(** ** Further properties of the losses *)

Section LossBounds.

Import TextDpoModelingLosses.

Local Open Scope R_scope.

Lemma sum_scaled (beta : R) (t : list R) :
  foldr Rplus 0 (Rmult beta <$> t) = beta * foldr Rplus 0 t.
Proof.
  induction t as [|x t IH]; [simpl; ring|].
  rewrite fmap_cons. cbn [foldr]. rewrite IH. ring.
Qed.

Lemma sum_difference (a b : list R) :
  length a = length b ->
  foldr Rplus 0 (zip_with Rminus a b) = foldr Rplus 0 a - foldr Rplus 0 b.
Proof.
  revert b. induction a as [|x a IH]; intros [|y b] Hlen;
    try discriminate; cbn [zip_with foldr]; [ring|].
  rewrite IH by (simpl in Hlen; congruence). ring.
Qed.

Lemma mean_nonnegative (t : list R) :
  Forall (fun x => 0 <= x) t -> 0 <= mean t.
Proof.
  intros Ht. unfold mean.
  assert (0 <= foldr Rplus 0 t) as Hsum.
  { induction Ht as [|x t Hx _ IH]; simpl; lra. }
  destruct t as [|x t].
  - simpl. unfold Rdiv. rewrite Rmult_0_l. lra.
  - apply Rmult_le_pos; [exact Hsum|].
    apply Rlt_le, Rinv_0_lt_compat, lt_0_INR. simpl. lia.
Qed.

Lemma mean_constant (n : nat) (x : R) :
  (0 < n)%nat -> mean (replicate n x) = x.
Proof.
  intros Hn. unfold mean. rewrite length_replicate.
  assert (foldr Rplus 0 (replicate n x) = INR n * x) as ->.
  { clear Hn. induction n as [|n IH]; [simpl; ring|].
    rewrite S_INR. simpl replicate. simpl foldr. rewrite IH. ring. }
  field. apply not_0_INR. lia.
Qed.

Lemma zip_with_diagonal (a : list R) :
  zip_with Rminus a a = replicate (length a) 0.
Proof.
  induction a as [|x a IH]; [reflexivity|]. simpl. rewrite IH.
  f_equal. ring.
Qed.

(** The logarithm of a sigmoid is negative. *)
Lemma logsigmoid_negative (x : R) : logsigmoid x < 0.
Proof.
  unfold logsigmoid. pose proof (exp_pos (- x)) as Hexp.
  rewrite ln_Rinv by lra. apply Ropp_lt_gt_0_contravar.
  rewrite <- ln_1. apply ln_increasing; lra.
Qed.

(** Every loss of a batch is at least zero. *)
Lemma get_losses_nonnegative (beta : R) (cls : loss_class)
    (logits : list R) :
  Forall (fun x => 0 <= x) (get_losses beta cls logits).
Proof.
  apply Forall_forall. intros y Hy. destruct cls; simpl in Hy.
  - apply list_elem_of_fmap in Hy as (x & -> & _).
    pose proof (logsigmoid_negative (beta * x)). lra.
  - apply list_elem_of_fmap in Hy as (x & -> & _). apply Rmax_l.
  - apply list_elem_of_fmap in Hy as (x & -> & _). apply pow2_ge_0.
Qed.

(** [forward] on four vectors of one length. *)
Lemma forward_same_length (beta : R) (cls : loss_class)
    (pc pr rc rr : list R) :
  length pr = length pc -> length rc = length pc ->
  length rr = length pc ->
  forward beta cls pc pr rc rr
    = Ok (mean (get_losses beta cls
                  (zip_with Rminus (zip_with Rminus pc pr)
                     (zip_with Rminus rc rr))),
          mean (Rmult beta <$> zip_with Rminus pc rc),
          mean (Rmult beta <$> zip_with Rminus pr rr)).
Proof.
  intros Hpr Hrc Hrr. unfold forward, sub.
  repeat (rewrite elementwise_same_length
            by (rewrite ?length_zip_with; congruence || lia);
          cbn [mbind outcome_bind]).
  reflexivity.
Qed.

(** X19. For a positive [beta] and four vectors none of which is empty,
    the loss that [forward] returns is never negative, whichever of the
    three classes computes it and whatever the shapes of the vectors.
    The batch without an example, on which the mean is not a number, is
    left out. *)
Theorem loss_nonnegative (beta : R) (cls : loss_class)
    (pc pr rc rr : list R) (loss chosen rejected : R) :
  0 < beta ->
  pc <> [] -> pr <> [] -> rc <> [] -> rr <> [] ->
  forward beta cls pc pr rc rr = Ok (loss, chosen, rejected) ->
  0 <= loss.
Proof.
  unfold forward. intros _ _ _ _ _ H.
  bind_inv H as pi_logratios Hpi. bind_inv H as ref_logratios Href.
  bind_inv H as logits Hlogits. bind_inv H as c Hc. bind_inv H as r Hr.
  injection H as <- _ _.
  apply mean_nonnegative, get_losses_nonnegative.
Qed.

(** An instance of X19: a batch of two examples, squared variant. *)
Lemma loss_nonnegative_example :
  0 <= mean (get_losses (1 / 2) IPOLoss
               (zip_with Rminus (zip_with Rminus [-1; -3] [-2; -1])
                  (zip_with Rminus [-1; -2] [-2; -2]))).
Proof.
  apply (loss_nonnegative (1 / 2) IPOLoss [-1; -3] [-2; -1] [-1; -2]
           [-2; -2] _
           (mean (Rmult (1 / 2) <$> zip_with Rminus [-1; -3] [-1; -2]))
           (mean (Rmult (1 / 2) <$> zip_with Rminus [-2; -1] [-2; -2])));
    [lra | discriminate.. |].
  apply forward_same_length; reflexivity.
Defined.

(** X20. For four vectors of one length and a positive [beta], the mean
    chosen reward exceeds the mean rejected reward by [beta] times the
    mean of the logits that the losses are computed from. *)
Theorem reward_margin (beta : R) (cls : loss_class)
    (pc pr rc rr : list R) (loss chosen rejected : R) :
  0 < beta ->
  length pr = length pc -> length rc = length pc ->
  length rr = length pc ->
  forward beta cls pc pr rc rr = Ok (loss, chosen, rejected) ->
  exists logits,
    (sub pc pr ≫= fun pi_logratios =>
     sub rc rr ≫= fun ref_logratios =>
     sub pi_logratios ref_logratios) = Ok logits /\
    loss = mean (get_losses beta cls logits) /\
    chosen - rejected = beta * mean logits.
Proof.
  intros _ Hpr Hrc Hrr H.
  rewrite forward_same_length in H by assumption.
  injection H as <- <- <-.
  exists (zip_with Rminus (zip_with Rminus pc pr) (zip_with Rminus rc rr)).
  split; [|split; [reflexivity|]].
  - unfold sub.
    repeat (rewrite elementwise_same_length
              by (rewrite ?length_zip_with; congruence || lia);
            cbn [mbind outcome_bind]).
    reflexivity.
  - unfold mean. rewrite !sum_scaled, !length_fmap, !length_zip_with.
    rewrite !sum_difference by (rewrite ?length_zip_with; congruence || lia).
    rewrite Hpr, Hrc, Hrr, !Nat.min_id. unfold Rdiv. ring.
Qed.

(** An instance of X20: a batch of two examples, hinge variant. *)
Lemma reward_margin_example :
  exists logits,
    (sub [-1; -3] [-2; -1] ≫= fun pi_logratios =>
     sub [-1; -2] [-2; -2] ≫= fun ref_logratios =>
     sub pi_logratios ref_logratios) = Ok logits /\
    mean (get_losses (1 / 2) HingeLoss
            (zip_with Rminus (zip_with Rminus [-1; -3] [-2; -1])
               (zip_with Rminus [-1; -2] [-2; -2])))
      = mean (get_losses (1 / 2) HingeLoss logits) /\
    mean (Rmult (1 / 2) <$> zip_with Rminus [-1; -3] [-1; -2])
      - mean (Rmult (1 / 2) <$> zip_with Rminus [-2; -1] [-2; -2])
      = 1 / 2 * mean logits.
Proof.
  apply (reward_margin (1 / 2) HingeLoss [-1; -3] [-2; -1] [-1; -2]
           [-2; -2]);
    [lra | reflexivity | reflexivity | reflexivity |].
  apply forward_same_length; reflexivity.
Defined.

(** X21. When the policy gives every response the log-probability that
    the reference gives it, on a batch that is not empty and for a
    positive [beta], the logits are zero: the loss is [ln 2] for
    [DPOLoss], 1 for [HingeLoss] and [(1 / (2 * beta))^2] for [IPOLoss],
    and both rewards are zero. *)
Theorem policy_is_reference (beta : R) (cls : loss_class)
    (chosen_logps rejected_logps : list R) :
  0 < beta ->
  chosen_logps <> [] ->
  length rejected_logps = length chosen_logps ->
  forward beta cls chosen_logps rejected_logps chosen_logps rejected_logps
    = Ok (match cls with
          | DPOLoss => ln 2
          | HingeLoss => 1
          | IPOLoss => (1 / (2 * beta)) ^ 2
          end, 0, 0).
Proof.
  intros _ Hne Hlen.
  assert (0 < length chosen_logps)%nat as Hpos
    by (destruct chosen_logps; [done | simpl; lia]).
  rewrite forward_same_length by congruence.
  rewrite (zip_with_diagonal chosen_logps).
  rewrite (zip_with_diagonal rejected_logps).
  assert (zip_with Rminus (zip_with Rminus chosen_logps rejected_logps)
            (zip_with Rminus chosen_logps rejected_logps)
          = replicate (length chosen_logps) 0) as ->.
  { rewrite zip_with_diagonal, length_zip_with, Hlen. f_equal. lia. }
  rewrite Hlen, !fmap_replicate, Rmult_0_r, !mean_constant by assumption.
  f_equal. f_equal. f_equal.
  destruct cls; simpl; rewrite fmap_replicate, mean_constant by assumption.
  - rewrite !Rmult_0_r, logsigmoid_0. ring.
  - rewrite Rmult_0_r, Rminus_0_r. unfold relu. apply Rmax_right. lra.
  - unfold Rdiv. ring.
Qed.

(** An instance of X21: a batch of two examples, sigmoid variant. *)
Lemma policy_is_reference_example :
  forward (1 / 10) DPOLoss [-1; -3] [-2; -1] [-1; -3] [-2; -1]
    = Ok (ln 2, 0, 0).
Proof.
  apply (policy_is_reference (1 / 10) DPOLoss [-1; -3] [-2; -1]);
    [lra | discriminate | reflexivity].
Defined.

End LossBounds.

(** ** The stopping criteria *)

Section Stopping.

Import TokenStoppingCriteria.

(** A window of [n] elements that starts at [i] within the row. *)
Lemma slice_window {A : Type} (row : list A) (i n : nat) :
  (i + n <= length row)%nat ->
  PySeq.slice row (Z.of_nat i) (Z.of_nat i + Z.of_nat n)
    = take n (drop i row).
Proof.
  intros Hin. unfold PySeq.slice. rewrite !bound_nonneg by lia.
  replace (Z.to_nat (Z.of_nat i) `min` length row)%nat with i by lia.
  replace (Z.to_nat (Z.of_nat i + Z.of_nat n) `min` length row - i)%nat
    with n by lia.
  reflexivity.
Qed.

Lemma all_equal_eq (a b : list Z) :
  length a = length b -> all_equal a b = true <-> a = b.
Proof.
  unfold all_equal. revert b.
  induction a as [|x a IH]; intros [|y b] Hlen; try discriminate.
  - done.
  - simpl. rewrite andb_true_iff, Z.eqb_eq, IH by (simpl in Hlen; lia).
    split; [by intros [-> ->] | by intros [= -> ->]].
Qed.

Lemma stride_true (row vector : list Z) (starts : list Z) :
  stride row vector starts = true <->
  exists i, i ∈ starts /\
    all_equal (PySeq.slice row i (i + Py.len vector)) vector = true.
Proof.
  induction starts as [|i starts IH]; simpl.
  - split; [discriminate|]. intros (i & Hi & _). by apply elem_of_nil in Hi.
  - destruct (all_equal _ vector) eqn:Hw.
    + split; [|done]. intros _. exists i. split; [by left | done].
    + rewrite IH. split.
      * intros (j & Hj & Hall). exists j. split; [by right | done].
      * intros (j & Hj & Hall). apply elem_of_cons in Hj as [->|Hj];
          [congruence|]. by exists j.
Qed.

Lemma elem_of_range (n i : Z) :
  i ∈ PySeq.range n <-> exists k : nat, i = Z.of_nat k /\ Z.of_nat k < n.
Proof.
  unfold PySeq.range. rewrite list_elem_of_fmap. split.
  - intros (k & -> & Hk). apply elem_of_seq in Hk. exists k. split; [done|].
    lia.
  - intros (k & -> & Hk). exists k. split; [done|]. apply elem_of_seq. lia.
Qed.

(** The loop over the start positions leaves with [break] exactly when
    the vector occurs in the row. *)
Lemma stride_infix (row vector : list Z) :
  stride row vector (PySeq.range (Py.len row - Py.len vector + 1)) = true
  <-> PySeq.infix vector row.
Proof.
  rewrite stride_true. unfold Py.len. split.
  - intros (i & Hi & Hall). apply elem_of_range in Hi as (k & -> & Hk).
    rewrite slice_window in Hall by lia.
    apply all_equal_eq in Hall;
      [|rewrite length_take, length_drop; lia].
    exists (take k row), (drop (length vector) (drop k row)).
    by rewrite <- Hall at 1; rewrite !take_drop.
  - intros (before & after & ->). exists (Z.of_nat (length before)).
    rewrite !length_app. split.
    + apply elem_of_range. exists (length before). split; [done|]. lia.
    + rewrite slice_window by (rewrite !length_app; lia).
      rewrite drop_app_length, take_app_length.
      by apply all_equal_eq.
Qed.

(** The count of the rows in which the vector is found. *)
Lemma found_rows (vector : list Z) (matrix : list (list Z)) (found : Z) :
  exists k : nat,
    foldl (fun (found : Z) (row : list Z) =>
             if stride row vector
                  (PySeq.range (Py.len row - Py.len vector + 1))
             then found + 1
             else found)
      found matrix = found + Z.of_nat k /\
    (k <= length matrix)%nat /\
    (k = length matrix <-> Forall (PySeq.infix vector) matrix) /\
    (k = 0%nat <->
     Forall (fun row => ~ PySeq.infix vector row) matrix).
Proof.
  revert found. induction matrix as [|row matrix IH]; intros found.
  - exists 0%nat. simpl. repeat split; try done; lia.
  - simpl.
    destruct (stride row vector _) eqn:Hrow.
    + apply stride_infix in Hrow.
      destruct (IH (found + 1)) as (k & -> & Hle & Hall & Hnone).
      exists (S k). split; [lia|]. split; [lia|]. split.
      * rewrite Forall_cons, <- Hall. split; [by intros [= ->] | lia].
      * split; [discriminate|]. by intros [Hnot _]%Forall_cons.
    + assert (~ PySeq.infix vector row) as Hnot
        by (rewrite <- stride_infix; congruence).
      destruct (IH found) as (k & -> & Hle & Hall & Hnone).
      exists k. split; [done|]. split; [lia|]. split.
      * split; [lia|]. by intros [Hin _]%Forall_cons.
      * rewrite Forall_cons, <- Hnone. tauto.
Qed.

(** X22. [get_num_vector_found_in_matrix_rows] counts rows: its value
    lies between zero and the number of rows; it is the number of rows
    exactly when the vector occurs in every row as a run of consecutive
    ids, and zero exactly when it occurs in none. *)
Theorem found_in_matrix_rows (vector : list Z) (matrix : list (list Z)) :
  0 <= get_num_vector_found_in_matrix_rows vector matrix <= Py.len matrix /\
  (get_num_vector_found_in_matrix_rows vector matrix = Py.len matrix <->
   Forall (PySeq.infix vector) matrix) /\
  (get_num_vector_found_in_matrix_rows vector matrix = 0 <->
   Forall (fun row => ~ PySeq.infix vector row) matrix).
Proof.
  unfold get_num_vector_found_in_matrix_rows.
  destruct (found_rows vector matrix 0) as (k & -> & Hle & Hall & Hnone).
  unfold Py.len. split; [lia|]. split.
  - rewrite <- Hall. lia.
  - rewrite <- Hnone. lia.
Qed.

(** A row has a position that holds the id. *)
Lemma row_has_id (row : list Z) (id : Z) :
  (0 <? foldr Z.add 0 ((fun x : Z => if x =? id then 1 else 0) <$> row))
    = true
  <-> id ∈ row.
Proof.
  rewrite Z.ltb_lt.
  assert (0 <= foldr Z.add 0
                 ((fun x : Z => if x =? id then 1 else 0) <$> row)) as Hge.
  { induction row as [|x row IH]; [done|]. rewrite fmap_cons. cbn [foldr].
    destruct (x =? id); lia. }
  induction row as [|x row IH].
  - simpl. split; [lia|]. by intros ?%elem_of_nil.
  - rewrite fmap_cons in *. cbn [foldr] in *. rewrite elem_of_cons.
    assert (0 <= foldr Z.add 0
                   ((fun x : Z => if x =? id then 1 else 0) <$> row))
      as Hrest.
    { clear. induction row as [|y row IH]; [done|]. rewrite fmap_cons.
      cbn [foldr]. destruct (y =? id); lia. }
    destruct (Z.eqb_spec x id) as [->|Hne].
    + split; [by left | lia].
    + rewrite Z.add_0_l, (IH Hrest). split; [by right|].
      by intros [?|?].
Qed.

(** The sum of the row flags is the number of rows that hold the id. *)
Lemma rows_with_sum (generated_ids : list (list Z)) (id : Z) :
  exists k : nat,
    (foldr Qplus 0 (rows_with generated_ids id) == inject_Z (Z.of_nat k))%Q
    /\ (k <= length generated_ids)%nat /\
    (k = length generated_ids <->
     Forall (fun row => id ∈ row) generated_ids).
Proof.
  induction generated_ids as [|row rows IH].
  - exists 0%nat. simpl. repeat split; done.
  - destruct IH as (k & Hsum & Hle & Hall).
    unfold rows_with in *. rewrite fmap_cons. cbn [foldr].
    destruct (0 <? _) eqn:Hrow.
    + apply row_has_id in Hrow. exists (S k). split; [|split].
      * rewrite Hsum, Nat2Z.inj_succ. unfold Z.succ.
        rewrite inject_Z_plus. ring.
      * simpl. lia.
      * rewrite Forall_cons, <- Hall. simpl. split; [by intros [= ->] | lia].
    + assert (id ∉ row) as Hnot by (rewrite <- row_has_id; congruence).
      exists k. split; [|split].
      * rewrite Hsum. ring.
      * simpl. lia.
      * simpl. split; [lia|]. by intros [Hin _]%Forall_cons.
Qed.

Lemma mean_Some (xs : list Q) :
  xs <> [] ->
  mean xs = Some (foldr Qplus 0 xs / inject_Z (Py.len xs))%Q.
Proof. by destruct xs. Qed.

(** One stop word stops the generation when it occurs in every row, and,
    for a stop word of one id, there is a row. *)
Lemma should_stop_occurs (generated_ids : list (list Z))
    (stop_word_id : stop_word) :
  should_stop generated_ids stop_word_id = true <->
  Forall (occurs stop_word_id) generated_ids /\
  match stop_word_id with
  | Scalar _ => generated_ids <> []
  | Vector _ => True
  end.
Proof.
  destruct stop_word_id as [id|ids]; simpl.
  - destruct (rows_with_sum generated_ids id) as (k & Hsum & Hle & Hall).
    destruct (decide (generated_ids = [])) as [->|Hne].
    { simpl. split; [discriminate | by intros [_ ?]]. }
    assert (0 < length generated_ids)%nat as Hpos
      by (destruct generated_ids; [done | simpl; lia]).
    rewrite mean_Some by (unfold rows_with; by destruct generated_ids).
    rewrite Qeq_bool_iff, Hsum. unfold Py.len, rows_with.
    rewrite length_fmap, <- Hall.
    assert (~ (inject_Z (Z.of_nat (length generated_ids)) == 0)%Q) as Hn.
    { unfold Qeq. simpl. lia. }
    split.
    + intros Hmean. split; [|done].
      assert (inject_Z (Z.of_nat k)
              == inject_Z (Z.of_nat (length generated_ids)))%Q as Heq.
      { rewrite <- (Qmult_div_r (inject_Z (Z.of_nat k)) _ Hn), Hmean.
        ring. }
      unfold Qeq in Heq. simpl in Heq. lia.
    + intros [-> _]. by field.
  - unfold get_num_vector_found_in_matrix_rows.
    destruct (found_rows ids generated_ids 0) as (k & -> & Hle & Hall & _).
    unfold Py.len. rewrite Z.eqb_eq, <- Hall. split; [intros ?|intros [? _]];
      [split; [lia | done] | lia].
Qed.

Lemma any_should_stop_true (generated_ids : list (list Z))
    (stop_word_ids : list stop_word) :
  any_should_stop generated_ids stop_word_ids = true <->
  exists stop_word_id,
    stop_word_id ∈ stop_word_ids /\
    should_stop generated_ids stop_word_id = true.
Proof.
  induction stop_word_ids as [|w ws IH]; simpl.
  - split; [discriminate|]. intros (w & Hw & _). by apply elem_of_nil in Hw.
  - destruct (should_stop generated_ids w) eqn:Hstop.
    + split; [|done]. intros _. exists w. split; [by left | done].
    + rewrite IH. split.
      * intros (w' & Hw' & Hs). exists w'. split; [by right | done].
      * intros (w' & Hw' & Hs). apply elem_of_cons in Hw' as [->|Hw'];
          [congruence|]. by exists w'.
Qed.

(** X23. The criteria stop the generation exactly when one of the stop
    words occurs in what every row of the batch has generated after the
    prompt: one and the same stop word for all rows. For a stop word of
    a single id the batch must have a row; a stop word that is a
    vector of ids stops the generation of a batch without rows. With
    no stop words, the generation is never stopped. *)
Theorem call_stops (self : t) (input_ids : list (list Z)) :
  (__call__ self input_ids = true <->
   exists stop_word_id,
     stop_word_id ∈ stop_word_ids self /\
     (forall row, row ∈ input_ids ->
        occurs stop_word_id
          (Py.slice_from row (prompt_input_ids_len self))) /\
     match stop_word_id with
     | Scalar _ => input_ids <> []
     | Vector _ => True
     end) /\
  (forall n : Z, __call__ (__init__ None n) input_ids = false).
Proof.
  split; [|reflexivity].
  unfold __call__. rewrite any_should_stop_true.
  apply exist_proper. intros w. apply and_iff_compat_l.
  rewrite should_stop_occurs, Forall_fmap, Forall_forall.
  apply and_iff_compat_l. destruct w as [id|ids]; [|done].
  by destruct input_ids.
Qed.

End Stopping.

(** ** Moving a batch to a device *)

Section Device.

Import DeviceBatch.

Lemma mapM_Ok_Forall2 {A B : Type} (f : A -> outcome B) (l : list A)
    (l' : list B) :
  mapM f l = Ok l' -> Forall2 (fun x y => f x = Ok y) l l'.
Proof.
  revert l'; induction l as [|x l IH]; intros l' H; simpl in H;
    unfold mret, outcome_ret in H.
  - injection H as <-. constructor.
  - bind_inv H as y Hy. bind_inv H as k Hk. injection H as <-.
    constructor; [exact Hy | by apply IH].
Qed.

Lemma mapM_Ok_map {A B : Type} (f : A -> outcome B) (g : A -> B)
    (l : list A) :
  Forall (fun x => f x = Ok (g x)) l -> mapM f l = Ok (map g l).
Proof.
  induction 1 as [|x l Hx _ IH]; [reflexivity|].
  simpl. rewrite Hx. simpl. by rewrite IH.
Qed.

(** What is returned is the batch on the device, and the batch was
    movable. *)
Lemma batch_to_device_Ok (fuel : nat) (device : string) (b b' : batch) :
  batch_to_device fuel b device = Ok b' ->
  movable b = true /\ b' = on_device device b.
Proof.
  revert b b'. induction fuel as [|fuel IH]; intros b b' H; [discriminate|].
  destruct b as [dev data|items|items|text|name]; simpl in H.
  - injection H as <-. by split.
  - bind_inv H as moved Hmoved. injection H as <-.
    apply mapM_Ok_Forall2 in Hmoved. simpl.
    induction Hmoved as [|kv kv' items moved Hkv _ IHitems]; [by split|].
    bind_inv Hkv as value Hvalue. injection Hkv as <-.
    apply IH in Hvalue as [Hmovable ->].
    destruct IHitems as [Hrest [= ->]]. simpl. split; [|done].
    by rewrite Hmovable, Hrest.
  - bind_inv H as moved Hmoved. injection H as <-.
    apply mapM_Ok_Forall2 in Hmoved. simpl.
    induction Hmoved as [|value value' items moved Hvalue _ IHitems];
      [by split|].
    apply IH in Hvalue as [Hmovable ->].
    destruct IHitems as [Hrest [= ->]]. simpl. split; [|done].
    by rewrite Hmovable, Hrest.
  - bind_inv H as moved Hmoved. injection H as <-.
    destruct text as [|c text]; simpl in Hmoved.
    + injection Hmoved as <-. by split.
    + bind_inv Hmoved as value Hvalue. apply IH in Hvalue as [Hmovable _].
      discriminate.
  - discriminate.
Qed.

(** A movable batch is moved when the recursion may go as deep as the
    batch is nested. *)
Lemma batch_to_device_movable (fuel : nat) (device : string) (b : batch) :
  movable b = true -> (depth b <= fuel)%nat ->
  batch_to_device fuel b device = Ok (on_device device b).
Proof.
  revert b. induction fuel as [|fuel IH]; intros b Hmovable Hdepth.
  { destruct b; simpl in Hdepth; lia. }
  destruct b as [dev data|items|items|text|name]; simpl in *.
  - reflexivity.
  - rewrite (mapM_Ok_map _ (fun kv : string * batch =>
                              (kv.1, on_device device kv.2))); [done|].
    apply Nat.succ_le_mono in Hdepth.
    induction items as [|kv items IHitems]; [constructor|].
    simpl in Hmovable, Hdepth. apply andb_true_iff in Hmovable as [Hkv Hrest].
    constructor; [|apply IHitems; [done | lia]].
    rewrite IH; [done | done | lia].
  - rewrite (mapM_Ok_map _ (on_device device)); [done|].
    apply Nat.succ_le_mono in Hdepth.
    induction items as [|value items IHitems]; [constructor|].
    simpl in Hmovable, Hdepth.
    apply andb_true_iff in Hmovable as [Hvalue Hrest].
    constructor; [|apply IHitems; [done | lia]].
    apply IH; [done | lia].
  - apply String.eqb_eq in Hmovable as ->. reflexivity.
  - discriminate.
Qed.

(** X24. [batch_to_device] returns for the batches that are made of
    tensors, mappings, sequences and empty texts, when the recursion may
    go as deep as the batch is nested, and for no other batch; what it
    returns is the batch with every tensor on the device, the keys of
    the mappings and the order of the sequences kept. *)
Theorem batch_to_device_moves (device : string) (b : batch) :
  (forall fuel b',
     batch_to_device fuel b device = Ok b' ->
     movable b = true /\ b' = on_device device b) /\
  (movable b = true ->
   forall fuel, (depth b <= fuel)%nat ->
     batch_to_device fuel b device = Ok (on_device device b)).
Proof.
  split.
  - intros fuel b'. apply batch_to_device_Ok.
  - intros Hmovable fuel. by apply batch_to_device_movable.
Qed.

(** X25. What cannot be moved: a value of any other type raises the
    [ValueError] that names the type, and a text that is not empty is a
    sequence of texts of one character, so that the recursion never
    ends, however deep it may go. *)
Theorem batch_to_device_refuses (device : string) (fuel : nat) :
  (forall type_name : string,
     batch_to_device (S fuel) (Other type_name) device
       = Raise (ValueError
                  ("Can not move " +:+ type_name +:+ " to device."))) /\
  (forall text : string,
     text <> "" -> batch_to_device fuel (Text text) device = OutOfFuel).
Proof.
  split; [reflexivity|].
  induction fuel as [|fuel IH]; intros text Htext; [reflexivity|].
  destruct text as [|c text]; [done|]. simpl.
  by rewrite IH.
Qed.

End Device.

(** ** The texts of the prompts *)

Section Prompts.

Import Pandas CustomDataset.

(** What [parse_prompt] returns. *)
Lemma parse_prompt_Ok (codec : string -> option string) (cfg : Cfg.t)
    (prompt p : string) :
  parse_prompt codec cfg prompt = Ok p ->
  exists start sep,
    codec (Cfg.text_prompt_start (Cfg.dataset cfg)) = Some start /\
    codec (Cfg.text_answer_separator (Cfg.dataset cfg)) = Some sep /\
    if Cfg.add_eos_token_to_prompt (Cfg.dataset cfg)
    then exists eos,
           Cfg._tokenizer_eos_token cfg = Some (Some eos) /\
           p = ((start +:+ prompt) +:+ eos) +:+ sep
    else p = (start +:+ prompt) +:+ sep.
Proof.
  unfold parse_prompt. intros H.
  bind_inv H as start Hstart. apply from_option_Ok in Hstart.
  bind_inv H as body Hbody. bind_inv H as sep Hsep.
  apply from_option_Ok in Hsep. injection H as <-.
  exists start, sep. split; [exact Hstart|]. split; [exact Hsep|].
  destruct (Cfg.add_eos_token_to_prompt _).
  - destruct (Cfg._tokenizer_eos_token cfg) as [[eos|]|]; try discriminate.
    injection Hbody as <-. by exists eos.
  - by injection Hbody as <-.
Qed.

(** X26. In a constructed dataset, the prompt of a row whose input
    columns all hold a text is the decoded [text_prompt_start], the text
    of the prompt column of the row (the texts of the prompt columns
    joined by two blanks, for a tuple of columns, whatever separator is
    configured), the end-of-sequence token of the tokenizer if
    [add_eos_token_to_prompt] is set, and the decoded
    [text_answer_separator], in this order. *)
Theorem prompts_layout (codec : string -> option string)
    (pretrained : TextUtils.Tokenizer) (df0 : DataFrame) (cfg0 : Cfg.t)
    (mode0 : string) (self : t) (i : nat) (r : string -> cell) :
  __init__ codec pretrained df0 cfg0 mode0 = Ok self ->
  rows df0 !! i = Some r ->
  (forall c, c ∈ get_input_columns cfg0 -> is_Some (r c)) ->
  exists start sep : string,
    codec (Cfg.text_prompt_start (Cfg.dataset cfg0)) = Some start /\
    codec (Cfg.text_answer_separator (Cfg.dataset cfg0)) = Some sep /\
    let text :=
      match Cfg.prompt_column (Cfg.dataset cfg0) with
      | Cfg.Str c => default "" (r c)
      | Cfg.Tuple columns =>
          String.concat "  " ((fun c => default "" (r c)) <$> columns)
      end in
    if Cfg.add_eos_token_to_prompt (Cfg.dataset cfg0)
    then exists eos,
           TextUtils.eos_token pretrained = Some eos /\
           prompts self !! i = Some (((start +:+ text) +:+ eos) +:+ sep)
    else prompts self !! i = Some ((start +:+ text) +:+ sep).
Proof.
  unfold __init__. intros H Hr Hcells.
  destruct (bool_decide (mode0 ∈ ["train"; "validation"]));
    [|discriminate]. cbn [negb] in H.
  destruct (has_column df0 (Cfg.answer_column (Cfg.dataset cfg0)));
    [|discriminate]. cbn [negb orb] in H.
  destruct (shape0 df0 =? Py.len (dropna df0 _)); [|discriminate].
  cbn [negb orb] in H.
  pose proof (get_tokenizer_dataset pretrained cfg0) as [Hds _].
  assert (Cfg._tokenizer_eos_token
            (TextUtils.get_tokenizer pretrained cfg0).2
          = Some (TextUtils.eos_token pretrained)) as Heos.
  { rewrite get_tokenizer_snd.
    cbn [Cfg._tokenizer_eos_token Cfg.set_stop_words_ids
           Cfg.set_tokenizer_eos_token].
    pose proof (get_tokenizer_ids pretrained cfg0) as (_ & _ & _ & Heos).
    by rewrite Heos. }
  destruct (TextUtils.get_tokenizer pretrained cfg0) as [tk cfg1].
  simpl in Hds, Heos.
  bind_inv H as texts Htexts. bind_inv H as cells Hcells'.
  bind_inv H as parents Hparents. destruct parents as [parents map].
  bind_inv H as parsed Hparsed. bind_inv H as logged Hlogged.
  injection H as <-. cbn [prompts].
  apply mapM_Ok_Forall2 in Hparsed.
  assert (texts !! i
          = Some match Cfg.prompt_column (Cfg.dataset cfg0) with
                 | Cfg.Str c => default "" (r c)
                 | Cfg.Tuple columns =>
                     String.concat "  "
                       ((fun c => default "" (r c)) <$> columns)
                 end) as Htext.
  { unfold TextUtils.get_texts in Htexts. rewrite Hds in Htexts.
    unfold get_input_columns in Hcells.
    destruct (Cfg.prompt_column (Cfg.dataset cfg0)) as [c|columns].
    - bind_inv Htexts as column Hcolumn. apply values_Ok in Hcolumn as ->.
      injection Htexts as <-. rewrite !list_lookup_fmap, Hr. simpl.
      destruct (Hcells c) as [text ->]; [by left | done].
    - bind_inv Htexts as checked Hchecked. injection Htexts as <-.
      rewrite list_lookup_fmap, Hr. simpl. do 2 f_equal.
      apply list_fmap_ext. intros _ c Hc%list_elem_of_lookup_2.
      by destruct (Hcells c Hc) as [text ->]. }
  destruct (Forall2_lookup_l _ _ _ _ _ Hparsed Htext) as (p & Hp & Hparse).
  apply parse_prompt_Ok in Hparse as (start & sep & Hstart & Hsep & Hbody).
  rewrite Hds in Hstart, Hsep, Hbody. rewrite Heos in Hbody.
  exists start, sep. split; [exact Hstart|]. split; [exact Hsep|]. cbv zeta.
  destruct (Cfg.add_eos_token_to_prompt (Cfg.dataset cfg0)).
  - destruct Hbody as (eos & Heq & ->). exists eos.
    split; [congruence | exact Hp].
  - by rewrite Hp, Hbody.
Qed.

(** An instance of X26: the prompt of the first row of the
    conversation. *)
Lemma prompts_layout_example :
  exists start sep : string,
    Example.codec
      (Cfg.text_prompt_start
         (Cfg.dataset (Example.config (1 # 2) (1 # 2)))) = Some start /\
    Example.codec
      (Cfg.text_answer_separator
         (Cfg.dataset (Example.config (1 # 2) (1 # 2)))) = Some sep /\
    let text :=
      match Cfg.prompt_column
              (Cfg.dataset (Example.config (1 # 2) (1 # 2))) with
      | Cfg.Str c =>
          default "" (Example.row (Some "A") None (Some "hi") (Some "yo") c)
      | Cfg.Tuple columns =>
          String.concat "  "
            ((fun c =>
                default ""
                  (Example.row (Some "A") None (Some "hi") (Some "yo") c))
               <$> columns)
      end in
    if Cfg.add_eos_token_to_prompt
         (Cfg.dataset (Example.config (1 # 2) (1 # 2)))
    then exists eos,
           TextUtils.eos_token Example.pretrained = Some eos /\
           prompts Example.conversation_validation !! 0%nat
             = Some (((start +:+ text) +:+ eos) +:+ sep)
    else prompts Example.conversation_validation !! 0%nat
         = Some ((start +:+ text) +:+ sep).
Proof.
  apply (prompts_layout Example.codec Example.pretrained
           Example.conversation (Example.config (1 # 2) (1 # 2))
           "validation" Example.conversation_validation 0
           (Example.row (Some "A") None (Some "hi") (Some "yo"))).
  - exact conversation_validation_init.
  - reflexivity.
  - intros c Hc. apply list_elem_of_singleton in Hc as ->. by eexists.
Defined.

End Prompts.

(** ** Cleaning the predicted texts *)

Section Cleaning.

Import CleanOutput.

Variable isspace : Ascii.ascii -> bool.

Lemma infix_trans {A : Type} (a b c : list A) :
  PySeq.infix a b -> PySeq.infix b c -> PySeq.infix a c.
Proof.
  intros (b1 & b2 & ->) (c1 & c2 & ->).
  exists (c1 ++ b1), (b2 ++ c2). by rewrite <- !app_assoc.
Qed.

Lemma infix_take {A : Type} (k : nat) (s : list A) :
  PySeq.infix (take k s) s.
Proof. exists [], (drop k s). simpl. by rewrite take_drop. Qed.

Lemma infix_lstrip (s : str) : PySeq.infix (lstrip isspace s) s.
Proof.
  induction s as [|c s IH]; simpl.
  - by exists [], [].
  - destruct (isspace c).
    + destruct IH as (before & after & Hs).
      exists (c :: before), after. simpl. by rewrite <- Hs.
    + exists [], []. simpl. by rewrite app_nil_r.
Qed.

Lemma infix_reverse {A : Type} (a b : list A) :
  PySeq.infix a b -> PySeq.infix (reverse a) (reverse b).
Proof.
  intros (before & after & ->). exists (reverse after), (reverse before).
  by rewrite !reverse_app, <- app_assoc.
Qed.

Lemma infix_strip (s : str) : PySeq.infix (strip isspace s) s.
Proof.
  unfold strip, rstrip. eapply infix_trans; [|apply infix_lstrip].
  rewrite <- (reverse_involutive (lstrip isspace s)) at 2.
  apply infix_reverse, infix_lstrip.
Qed.

(** The lowest index at which the text starts. *)
Lemma find_Some (s sub : str) (k : nat) :
  find s sub = Some k ->
  sub `prefix_of` drop k s /\
  forall j, (j < k)%nat -> ~ sub `prefix_of` drop j s.
Proof.
  revert k. induction s as [|c s IH]; intros k; simpl.
  - destruct (decide (sub `prefix_of` [])) as [Hp|Hp].
    + rewrite bool_decide_eq_true_2 by done. intros [= <-].
      split; [done | lia].
    + by rewrite bool_decide_eq_false_2.
  - destruct (decide (sub `prefix_of` c :: s)) as [Hp|Hp].
    + rewrite bool_decide_eq_true_2 by done. intros [= <-].
      split; [done | lia].
    + rewrite bool_decide_eq_false_2 by done.
      destruct (find s sub) as [k'|] eqn:Hfind; [|discriminate].
      intros [= <-]. destruct (IH k' eq_refl) as [Hat Hlow].
      split; [done|]. intros [|j] Hj; [done|]. simpl. apply Hlow. lia.
Qed.

Lemma find_None (s sub : str) :
  find s sub = None -> ~ PySeq.infix sub s.
Proof.
  induction s as [|c s IH]; simpl.
  - destruct (decide (sub `prefix_of` [])) as [Hp|Hp].
    + by rewrite bool_decide_eq_true_2.
    + intros _ (before & after & Hs). apply Hp.
      destruct before; [|discriminate]. by exists after.
  - destruct (decide (sub `prefix_of` c :: s)) as [Hp|Hp].
    + by rewrite bool_decide_eq_true_2.
    + rewrite bool_decide_eq_false_2 by done.
      destruct (find s sub) as [k|] eqn:Hfind; [discriminate|].
      intros _ (before & after & Hs). destruct before as [|b before].
      * apply Hp. exists after. by rewrite Hs.
      * injection Hs as -> ->. apply IH; [done|]. by exists before, after.
Qed.

(** After a cut at a stop token that is not empty, the stop token does
    not occur in the text. *)
Lemma cut_removes (s stop_token : str) :
  stop_token <> [] -> ~ PySeq.infix stop_token (cut s stop_token).
Proof.
  intros Hne. unfold cut.
  destruct (find s stop_token) as [k|] eqn:Hfind; [|by apply find_None].
  apply find_Some in Hfind as [_ Hlow].
  intros (before & after & Hs).
  assert (length before + length stop_token + length after <= k)%nat as Hk.
  { apply (f_equal length) in Hs.
    rewrite length_take, !length_app in Hs. lia. }
  assert (0 < length stop_token)%nat as Hpos
    by (destruct stop_token; [done | simpl; lia]).
  apply (Hlow (length before)); [lia|].
  rewrite <- (take_drop k s), Hs, <- !app_assoc.
  rewrite drop_app_length. by exists (after ++ drop k s).
Qed.

Lemma infix_cut (s stop_token : str) : PySeq.infix (cut s stop_token) s.
Proof.
  unfold cut. destruct (find s stop_token); [apply infix_take|].
  by exists [], []; rewrite app_nil_r.
Qed.

Lemma infix_cuts (stop_words : list str) (s : str) :
  PySeq.infix (foldl cut s stop_words) s.
Proof.
  revert s. induction stop_words as [|w ws IH]; intros s; simpl.
  - by exists [], []; rewrite app_nil_r.
  - eapply infix_trans; [apply IH | apply infix_cut].
Qed.

(** What is stripped starts and ends with a character that is not a
    space. *)
Lemma lstrip_head (s : str) (c : Ascii.ascii) :
  head (lstrip isspace s) = Some c -> isspace c = false.
Proof.
  induction s as [|x s IH]; simpl; [done|].
  destruct (isspace x) eqn:Hx; [exact IH|]. simpl. congruence.
Qed.

Lemma rstrip_last (s : str) (c : Ascii.ascii) :
  last (rstrip isspace s) = Some c -> isspace c = false.
Proof. unfold rstrip. rewrite last_reverse. apply lstrip_head. Qed.

Lemma lstrip_suffix (s : str) : lstrip isspace s `suffix_of` s.
Proof.
  induction s as [|x s IH]; simpl; [done|].
  destruct (isspace x); [by apply suffix_cons_r | done].
Qed.

Lemma rstrip_prefix (s : str) : rstrip isspace s `prefix_of` s.
Proof.
  unfold rstrip. rewrite <- (reverse_involutive s) at 2.
  apply suffix_prefix_reverse, lstrip_suffix.
Qed.

Lemma strip_ends (s : str) (c : Ascii.ascii) :
  (head (strip isspace s) = Some c -> isspace c = false) /\
  (last (strip isspace s) = Some c -> isspace c = false).
Proof.
  unfold strip. split; [|apply rstrip_last].
  intros Hc. apply (lstrip_head s).
  destruct (rstrip_prefix (lstrip isspace s)) as [rest Hrest].
  rewrite Hrest. by destruct (rstrip isspace (lstrip isspace s)).
Qed.

(** The properties of a cleaned text. *)
Lemma clean_text_clean (_stop_words : list str) (text : str) :
  (forall stop_token,
     stop_token ∈ _stop_words -> stop_token <> [] ->
     ~ PySeq.infix stop_token (clean_text isspace _stop_words text)) /\
  PySeq.infix (clean_text isspace _stop_words text) text /\
  (forall c, head (clean_text isspace _stop_words text) = Some c ->
             isspace c = false) /\
  (forall c, last (clean_text isspace _stop_words text) = Some c ->
             isspace c = false).
Proof.
  unfold clean_text. split; [|split; [|split]].
  - intros w Hw Hne Hin.
    assert (PySeq.infix w (foldl cut (strip isspace text) _stop_words))
      as Hcut by (eapply infix_trans; [exact Hin | apply infix_strip]).
    clear Hin. revert Hcut. generalize (strip isspace text).
    induction _stop_words as [|w' ws IH]; intros s; simpl.
    { by apply elem_of_nil in Hw. }
    apply elem_of_cons in Hw as [->|Hw]; [|by apply IH].
    intros Hin. apply (cut_removes s w' Hne).
    eapply infix_trans; [exact Hin | apply infix_cuts].
  - eapply infix_trans; [apply infix_strip|].
    eapply infix_trans; [apply infix_cuts | apply infix_strip].
  - intros c. apply strip_ends.
  - intros c. apply strip_ends.
Qed.

(** X27. What [clean_output] returns holds one cleaned text for each
    predicted text, and every other key of the output as it was. A
    cleaned text holds none of the stop tokens that are not empty; it is
    a part of the predicted text; and it neither starts nor ends with a
    space character. *)
Theorem clean_output_stop_free (output output' : gmap string value)
    (_stop_words : list str) :
  clean_output isspace output _stop_words = Ok output' ->
  exists predicted_text cleaned,
    output !! "predicted_text" = Some (Texts predicted_text) /\
    output' !! "predicted_text" = Some (Texts cleaned) /\
    (forall key, key <> "predicted_text" ->
                 output' !! key = output !! key) /\
    Forall2
      (fun text curr_text =>
         (forall stop_token,
            stop_token ∈ _stop_words -> stop_token <> [] ->
            ~ PySeq.infix stop_token curr_text) /\
         PySeq.infix curr_text text /\
         (forall c, head curr_text = Some c -> isspace c = false) /\
         (forall c, last curr_text = Some c -> isspace c = false))
      predicted_text cleaned.
Proof.
  unfold clean_output. intros H.
  destruct (output !! "predicted_text") as [[predicted_text|]|];
    [|discriminate..].
  injection H as <-.
  exists predicted_text, (clean_text isspace _stop_words <$> predicted_text).
  split; [done|]. split; [by rewrite lookup_insert_eq|]. split.
  - intros key Hkey. by rewrite lookup_insert_ne.
  - apply Forall2_fmap_r, Forall_Forall2_diag, Forall_forall.
    intros text _. apply clean_text_clean.
Qed.

Lemma cut_empty (s : str) : cut s [] = [].
Proof.
  unfold cut. assert (find s [] = Some 0%nat) as ->; [|done].
  assert (forall s' : str, bool_decide ([] `prefix_of` s') = true) as Hp
    by (intros s'; apply bool_decide_eq_true_2, prefix_nil).
  destruct s as [|c s]; unfold find; fold find; by rewrite Hp.
Qed.

Lemma cut_of_empty (stop_token : str) : cut [] stop_token = [].
Proof.
  unfold cut. destruct (find [] stop_token); [apply take_nil | done].
Qed.

Lemma cuts_of_empty (stop_words : list str) : foldl cut [] stop_words = [].
Proof.
  induction stop_words as [|w ws IH]; [done|]. simpl.
  by rewrite cut_of_empty.
Qed.

Lemma cuts_with_empty (stop_words : list str) (s : str) :
  [] ∈ stop_words -> foldl cut s stop_words = [].
Proof.
  revert s. induction stop_words as [|w ws IH]; intros s Hin.
  - by apply elem_of_nil in Hin.
  - simpl. apply elem_of_cons in Hin as [<-|Hin]; [|by apply IH].
    by rewrite cut_empty, cuts_of_empty.
Qed.

Lemma cut_absent (s stop_token : str) :
  ~ PySeq.infix stop_token s -> cut s stop_token = s.
Proof.
  intros Hnot. unfold cut.
  destruct (find s stop_token) as [k|] eqn:Hfind; [|done].
  apply find_Some in Hfind as [[after Hat] _]. exfalso. apply Hnot.
  exists (take k s), after. by rewrite <- Hat, take_drop.
Qed.

Lemma strip_stripped (s : str) :
  (forall c, head s = Some c -> isspace c = false) ->
  (forall c, last s = Some c -> isspace c = false) ->
  strip isspace s = s.
Proof.
  intros Hhead Hlast. unfold strip, rstrip.
  assert (lstrip isspace s = s) as ->.
  { destruct s as [|c s]; [done|]. simpl. by rewrite (Hhead c). }
  assert (lstrip isspace (reverse s) = reverse s) as ->.
  { pose proof (head_reverse s) as Hrev.
    destruct (reverse s) as [|c r]; [done|]. simpl in *.
    by rewrite (Hlast c). }
  apply reverse_involutive.
Qed.

(** X28. Cleaning a cleaned text changes nothing. *)
Theorem clean_text_again (_stop_words : list str) (text : str) :
  clean_text isspace _stop_words
    (clean_text isspace _stop_words text)
  = clean_text isspace _stop_words text.
Proof.
  destruct (clean_text_clean _stop_words text)
    as (Hfree & _ & Hhead & Hlast).
  destruct (decide ([] ∈ _stop_words)) as [Hempty|Hempty].
  - unfold clean_text. by rewrite !cuts_with_empty.
  - set (r := clean_text isspace _stop_words text) in *.
    unfold clean_text at 1. rewrite (strip_stripped r) by assumption.
    assert (foldl cut r _stop_words = r) as ->;
      [|by apply strip_stripped].
    clearbody r. clear Hhead Hlast.
    induction _stop_words as [|w ws IH]; [done|]. simpl.
    rewrite cut_absent.
    + apply IH.
      * intros w' Hw'. apply Hfree. by right.
      * intros Hin. apply Hempty. by right.
    + apply Hfree; [by left|]. intros ->. apply Hempty. by left.
Qed.

End Cleaning.

(** An instance of X27: one predicted text, cut at the stop token
    [</s>], with the blank as the only space character. *)
Lemma clean_output_stop_free_example :
  exists predicted_text cleaned,
    (<["predicted_text" :=
         CleanOutput.Texts [list_ascii_of_string " yes</s> no "]]>
       (∅ : gmap string CleanOutput.value)) !! "predicted_text"
      = Some (CleanOutput.Texts predicted_text) /\
    (<["predicted_text" :=
         CleanOutput.Texts [list_ascii_of_string "yes"]]>
       (∅ : gmap string CleanOutput.value)) !! "predicted_text"
      = Some (CleanOutput.Texts cleaned) /\
    (forall key, key <> "predicted_text" ->
       (<["predicted_text" :=
            CleanOutput.Texts [list_ascii_of_string "yes"]]>
          (∅ : gmap string CleanOutput.value)) !! key
       = (<["predicted_text" :=
              CleanOutput.Texts [list_ascii_of_string " yes</s> no "]]>
            (∅ : gmap string CleanOutput.value)) !! key) /\
    Forall2
      (fun text curr_text =>
         (forall stop_token,
            stop_token ∈ [list_ascii_of_string "</s>"] ->
            stop_token <> [] ->
            ~ PySeq.infix stop_token curr_text) /\
         PySeq.infix curr_text text /\
         (forall c, head curr_text = Some c ->
                    Ascii.eqb c Ascii.Space = false) /\
         (forall c, last curr_text = Some c ->
                    Ascii.eqb c Ascii.Space = false))
      predicted_text cleaned.
Proof.
  apply (clean_output_stop_free (fun c => Ascii.eqb c Ascii.Space)
           (<["predicted_text" :=
                CleanOutput.Texts [list_ascii_of_string " yes</s> no "]]> ∅)
           (<["predicted_text" :=
                CleanOutput.Texts [list_ascii_of_string "yes"]]> ∅)
           [list_ascii_of_string "</s>"]).
  vm_compute. reflexivity.
Defined.

(** ** The random parent *)

Section RandomParent.

Import Pandas CustomDataset Chain.

(** X29. In train mode with a random-parent probability of one or more,
    every list of samples that is returned starts with the sample of a
    row that was drawn from the rows of the dataset, in front of the
    samples of the chain, which end with the sample of the requested
    row. Outside train mode no row is drawn. *)
Theorem random_parent_always (fuel : nat) (self : t) (idx : Z)
    (samples : list Sample) (rs rs' : Random.RandomState) :
  _read_data_samples fuel self idx rs = Ok (samples, rs') ->
  (1 <= Cfg.random_parent_probability (Cfg.augmentation (cfg self)))%Q ->
  exists (chain : list Sample) (s : Sample),
    _get_sample self idx = Ok s /\
    Forall (encoded self) chain /\
    if String.eqb (mode self) "train"
    then exists (rnd_idx : Z) (r : Sample),
           0 <= rnd_idx < __len__ self /\
           _get_sample self rnd_idx = Ok r /\
           samples = r :: chain ++ [s]
    else samples = chain ++ [s].
Proof.
  unfold _read_data_samples. intros H Hp.
  bind_inv H as s Hs. bind_inv H as walked Hwalked.
  destruct walked as [samples0 rs0].
  assert (exists chain, samples0 = chain ++ [s] /\
                        Forall (encoded self) chain)
    as (chain & -> & Hchain).
  { destruct (parent_ids self) as [pids|].
    - by eapply walk_Ok.
    - injection Hwalked as <- <-. by exists []. }
  exists chain, s. split; [exact Hs|]. split; [exact Hchain|].
  destruct (String.eqb (mode self) "train"); [|by injection H as <- <-].
  pose proof (random_lt_one rs0 _ Hp) as Hlt.
  destruct (Random.random rs0) as [x rs1]. simpl in Hlt. rewrite Hlt in H.
  bind_inv H as drawn Hdrawn. destruct drawn as [rnd_idx rs2].
  bind_inv H as r Hr. injection H as <- <-.
  apply randint_range in Hdrawn. by exists rnd_idx, r.
Qed.

(** An instance of X29: the first row of the conversation in train mode,
    with both probabilities one. *)
Lemma random_parent_always_example :
  exists (chain : list Sample) (s : Sample),
    _get_sample
      (Example.dataset Example.conversation (Example.config 1 1) "train")
      0 = Ok s /\
    Forall
      (encoded
         (Example.dataset Example.conversation (Example.config 1 1)
            "train")) chain /\
    if String.eqb
         (mode (Example.dataset Example.conversation (Example.config 1 1)
                  "train")) "train"
    then exists (rnd_idx : Z) (r : Sample),
           0 <= rnd_idx
             < __len__ (Example.dataset Example.conversation
                          (Example.config 1 1) "train") /\
           _get_sample
             (Example.dataset Example.conversation (Example.config 1 1)
                "train") rnd_idx = Ok r /\
           [Example.sample_B; Example.sample_A] = r :: chain ++ [s]
    else [Example.sample_B; Example.sample_A] = chain ++ [s].
Proof.
  apply (random_parent_always 1
           (Example.dataset Example.conversation (Example.config 1 1)
              "train")
           0 [Example.sample_B; Example.sample_A] Example.random_state
           (Random.mkRandomState (Random.raw Example.random_state) 2)).
  - vm_compute. reflexivity.
  - vm_compute. discriminate.
Defined.

End RandomParent.
